(** * ai-news: the ingestion pipeline, embedded and verified

    A shallow embedding of the four core services of the aggregator

    - [StorageService]        (bounded, deduplicating, retention-pruned store),
    - [ClassificationService] (keyword scoring classifier),
    - [NewsCollectorService]  (partial-failure tolerant fan-out),
    - [SchedulerService]      (mutually exclusive collection runs),

    together with the properties stated about them.

    Conventions of the embedding.

    - A JavaScript string is the list of its UTF-16 code units ([jsstring]),
      so that [length] is the [.length] of the source.
    - A [Date] is its [getTime()] value, an integer number of milliseconds
      ([Z]); the dates of the items are valid dates. Local time is that of
      the host ([JSDate.Host]), whatever its time zone.
    - A JavaScript [Map] is the list of its entries in insertion order.
    - [new Date()] and [Date.now()] are explicit clock arguments.
    - A [number] that holds a count or an integer score is a [Z]; the
      classifier's confidence, a quotient, is an exact rational ([Q]). *)

From Stdlib Require Import String Ascii ZArith NArith QArith Qminmax List Bool Lia.
From Stdlib Require Import Sorting.Sorted Sorting.Permutation.
From Stdlib Require Import DecimalString.
Import ListNotations.

Local Open Scope Z_scope.

(* ------------------------------------------------------------------ *)
(** * JavaScript strings *)

Module JSString.

(** A string is its sequence of UTF-16 code units. *)
Definition jsstring := list N.

Fixpoint bytes_of (s : string) : list N :=
  match s with
  | EmptyString => []
  | String c r => N_of_ascii c :: bytes_of r
  end.

(** Source text is UTF-8: its bytes are decoded to code points ... *)
Fixpoint utf8_points (bs : list N) : list N :=
  match bs with
  | [] => []
  | b0 :: r0 =>
    if (b0 <? 128)%N then b0 :: utf8_points r0
    else if (b0 <? 224)%N then
      match r0 with
      | b1 :: r1 =>
        N.lor (N.shiftl (N.land b0 31) 6) (N.land b1 63) :: utf8_points r1
      | _ => [65533%N]
      end
    else if (b0 <? 240)%N then
      match r0 with
      | b1 :: b2 :: r2 =>
        N.lor (N.shiftl (N.land b0 15) 12)
              (N.lor (N.shiftl (N.land b1 63) 6) (N.land b2 63))
          :: utf8_points r2
      | _ => [65533%N]
      end
    else
      match r0 with
      | b1 :: b2 :: b3 :: r3 =>
        N.lor (N.shiftl (N.land b0 7) 18)
              (N.lor (N.shiftl (N.land b1 63) 12)
                     (N.lor (N.shiftl (N.land b2 63) 6) (N.land b3 63)))
          :: utf8_points r3
      | _ => [65533%N]
      end
  end.

(** ... and each code point to one code unit, or to a surrogate pair. *)
Definition utf16_units (cp : N) : list N :=
  if (cp <? 65536)%N then [cp]
  else
    let v := (cp - 65536)%N in
    [(55296 + N.shiftr v 10)%N; (56320 + N.land v 1023)%N].

(** The string written by a literal of the source. *)
Definition js (s : string) : jsstring :=
  flat_map utf16_units (utf8_points (bytes_of s)).

Fixpoint eqb (a b : jsstring) : bool :=
  match a, b with
  | [], [] => true
  | x :: a', y :: b' => (x =? y)%N && eqb a' b'
  | _, _ => false
  end.

(** Truthiness of a string: the empty string is falsy. *)
Definition truthy (s : jsstring) : bool :=
  match s with [] => false | _ => true end.

(** [String.prototype.toLowerCase] restricted to the ASCII letters; it is
    the source's function on every text whose cased letters are ASCII. *)
Definition asciiLower (s : jsstring) : jsstring :=
  map (fun c => if ((65 <=? c) && (c <=? 90))%N then (c + 32)%N else c) s.

(** [a] is a prefix of [b]. *)
Fixpoint startsWith (a b : jsstring) : bool :=
  match a, b with
  | [], _ => true
  | x :: a', y :: b' => (x =? y)%N && startsWith a' b'
  | _ :: _, [] => false
  end.

(** [String.prototype.includes]. *)
Fixpoint includes (hay needle : jsstring) : bool :=
  startsWith needle hay
  || match hay with
     | [] => false
     | _ :: rest => includes rest needle
     end.

End JSString.

Abbreviation jsstring := JSString.jsstring.
Abbreviation js := JSString.js.

(* ------------------------------------------------------------------ *)
(** * Core types (types/index.ts) *)

Inductive AICategory : Type :=
| AI_MODELS | AI_ASSISTANT | AI_AGENT | AI_IDE | AI_CLI
| AI_SEARCH | AI_INTEGRATION | AI_MULTIMODAL | AI_NOCODE | AI_DATA_ANALYSIS.

Module AICategories.

Definition eqb (a b : AICategory) : bool :=
  match a, b with
  | AI_MODELS, AI_MODELS | AI_ASSISTANT, AI_ASSISTANT | AI_AGENT, AI_AGENT
  | AI_IDE, AI_IDE | AI_CLI, AI_CLI | AI_SEARCH, AI_SEARCH
  | AI_INTEGRATION, AI_INTEGRATION | AI_MULTIMODAL, AI_MULTIMODAL
  | AI_NOCODE, AI_NOCODE | AI_DATA_ANALYSIS, AI_DATA_ANALYSIS => true
  | _, _ => false
  end.

(** [Object.values(AICategory)]. *)
Definition values : list AICategory :=
  [AI_MODELS; AI_ASSISTANT; AI_AGENT; AI_IDE; AI_CLI;
   AI_SEARCH; AI_INTEGRATION; AI_MULTIMODAL; AI_NOCODE; AI_DATA_ANALYSIS].

(** The enum's string values. *)
Definition label (c : AICategory) : jsstring :=
  match c with
  | AI_MODELS => js "AIモデル"
  | AI_ASSISTANT => js "AIアシスタント"
  | AI_AGENT => js "AIエージェント"
  | AI_IDE => js "AI IDE"
  | AI_CLI => js "AI CLIツール"
  | AI_SEARCH => js "AI検索・ナレッジベース"
  | AI_INTEGRATION => js "AI統合ツール"
  | AI_MULTIMODAL => js "AI音声・マルチモーダル"
  | AI_NOCODE => js "AIノーコードツール"
  | AI_DATA_ANALYSIS => js "AIデータ分析"
  end.

End AICategories.

Module NewsItem.

Record t : Type := mk {
  id : jsstring;
  title : jsstring;
  description : jsstring;
  link : jsstring;
  pubDate : Z;
  source : jsstring;
  category : AICategory;
  content : option jsstring;
  createdAt : Z
}.

(** [{ ...item, category: c }]. *)
Definition withCategory (item : t) (c : AICategory) : t :=
  mk (id item) (title item) (description item) (link item) (pubDate item)
     (source item) c (content item) (createdAt item).

End NewsItem.

(** [Partial<NewsItem>]: every field may be absent. *)
Module PartialNewsItem.

Record t : Type := mk {
  id : option jsstring;
  title : option jsstring;
  description : option jsstring;
  link : option jsstring;
  pubDate : option Z;
  source : option jsstring;
  category : option AICategory;
  content : option (option jsstring);
  createdAt : option Z
}.

Definition empty : t :=
  mk None None None None None None None None None.

Definition over {A : Type} (old : A) (new : option A) : A :=
  match new with Some v => v | None => old end.

(** [{ ...existing, ...updates }]. *)
Definition spread (existing : NewsItem.t) (updates : t) : NewsItem.t :=
  NewsItem.mk
    (over (NewsItem.id existing) (id updates))
    (over (NewsItem.title existing) (title updates))
    (over (NewsItem.description existing) (description updates))
    (over (NewsItem.link existing) (link updates))
    (over (NewsItem.pubDate existing) (pubDate updates))
    (over (NewsItem.source existing) (source updates))
    (over (NewsItem.category existing) (category updates))
    (over (NewsItem.content existing) (content updates))
    (over (NewsItem.createdAt existing) (createdAt updates)).

End PartialNewsItem.

Module RSSSource.

Record t : Type := mk {
  name : jsstring;
  url : jsstring;
  defaultCategory : AICategory
}.

End RSSSource.

(* ------------------------------------------------------------------ *)
(** * Array helpers *)

Module JSArray.

Section Sort.
Context {A : Type}.

(** [Array.prototype.sort] is stable: with a comparator [cmp] that is a
    total preorder, [a] stays in front of [b] unless [cmp a b > 0].
    [before a b] stands for [cmp a b <= 0]. The result of a stable sort
    does not depend on the algorithm; insertion sort is used here. *)
Variable before : A -> A -> bool.

Fixpoint insert (x : A) (l : list A) : list A :=
  match l with
  | [] => [x]
  | y :: r => if before x y then x :: y :: r else y :: insert x r
  end.

Fixpoint sort (l : list A) : list A :=
  match l with
  | [] => []
  | x :: r => insert x (sort r)
  end.

End Sort.

(** The comparators used in the sources order by a numeric key,
    ascending ([up = true]) or descending. *)
Definition byKey {A : Type} (key : A -> Z) (up : bool) (a b : A) : bool :=
  if up then key a <=? key b else key b <=? key a.

(** [Array.prototype.slice(start, end)], [end] being optional. *)
Definition relativeIndex (len i : Z) : Z :=
  if i <? 0 then Z.max (len + i) 0 else Z.min i len.

Definition slice {A : Type} (l : list A) (start : Z) (end_ : option Z)
  : list A :=
  let len := Z.of_nat (length l) in
  let k := relativeIndex len start in
  let final :=
    match end_ with
    | None => len
    | Some e => relativeIndex len e
    end in
  firstn (Z.to_nat (final - k)) (skipn (Z.to_nat k) l).

End JSArray.

(* ------------------------------------------------------------------ *)
(** * [Map<string, V>] in insertion order *)

Module JSMap.

Section Ops.
Context {V : Type}.

Definition t := list (jsstring * V).

Definition size (m : t) : Z := Z.of_nat (length m).

Fixpoint get (k : jsstring) (m : t) : option V :=
  match m with
  | [] => None
  | (k', v) :: r => if JSString.eqb k k' then Some v else get k r
  end.

Definition has (k : jsstring) (m : t) : bool :=
  match get k m with Some _ => true | None => false end.

(** [set] replaces the value of a present key in place and appends a
    new key at the end. *)
Fixpoint set (k : jsstring) (v : V) (m : t) : t :=
  match m with
  | [] => [(k, v)]
  | (k', v') :: r =>
    if JSString.eqb k k' then (k, v) :: r else (k', v') :: set k v r
  end.

Definition delete (k : jsstring) (m : t) : t :=
  filter (fun e => negb (JSString.eqb k (fst e))) m.

Definition values (m : t) : list V := map snd m.
Definition keys (m : t) : list jsstring := map fst m.

(** A map holds each key once. *)
Definition wf (m : t) : Prop := NoDup (keys m).

End Ops.

Arguments t : clear implicits.

End JSMap.

(* ------------------------------------------------------------------ *)
(** * Dates and the local time zone *)

Module JSDate.

(** The time zone of the host: [LocalTZA t isUTC] is the offset of local
    time from UTC, in milliseconds, at the UTC time [t] when [isUTC], and
    at the local time [t] otherwise (the abstract operation [LocalTZA] of
    ECMAScript, which the host provides). *)
Class Host : Type := { LocalTZA : Z -> bool -> Z }.

Definition msPerDay : Z := 86400000.

(** [LocalTime(t)] and [UTC(t)] *)
Definition LocalTime {host : Host} (t : Z) : Z := t + LocalTZA t true.
Definition UTC {host : Host} (t : Z) : Z := t - LocalTZA t false.

(** [TimeClip]: a time value beyond 8.64e15 milliseconds on either side of
    the epoch is [NaN], the time value of an Invalid Date, here [None]. *)
Definition TimeClip (time : Z) : option Z :=
  if Z.abs time <=? 8640000000000000 then Some time else None.

(** The time value of [d] after [d.setDate(d.getDate() - days)], for a
    date [d] of time value [t]. [setDate(dt)] takes the local time of [d],
    replaces its day of the month by [dt] ([MakeDay], in which a day of
    the month outside the month counts on into the neighbouring months),
    keeps the time within the day, and reads the result as a local time;
    with [dt] the day of the month less [days], the local time moves back
    by [days] days of 24 hours. *)
Definition setDateBack {host : Host} (t days : Z) : option Z :=
  TimeClip (UTC (LocalTime t - days * msPerDay)).

(** [d1 < d2] on dates, [d2] possibly invalid: a comparison with [NaN] is
    false. *)
Definition before (d1 : Z) (d2 : option Z) : bool :=
  match d2 with
  | Some time => d1 <? time
  | None => false
  end.

(** A host in the zone UTC. *)
Definition utc : Host := {| LocalTZA := fun _ _ => 0 |}.

(** A host in the zone America/New_York, around the end of daylight
    saving time on 2 November 2025, 06:00 UTC: four hours behind UTC
    before it, five hours after it; a local time that is read twice is
    taken as the earlier one. *)
Definition newYork : Host :=
  {| LocalTZA := fun t isUTC =>
       if isUTC
       then (if t <? 1762063200000 then -14400000 else -18000000)
       else (if t <? 1762063200000 - 14400000
             then -14400000 else -18000000) |}.

End JSDate.

(* ------------------------------------------------------------------ *)
(** * StorageService *)

Module StorageService.

(** [category?: AICategory | 'all'] *)
Inductive CategoryFilter : Type :=
| all
| only (c : AICategory).

Record StorageFilterOptions : Type := {
  category : option CategoryFilter;
  startDate : option Z;
  endDate : option Z;
  source : option jsstring;
  limit : option Z;
  offset : option Z
}.

(** The default argument [{}] of [getNewsItems]. *)
Definition noOptions : StorageFilterOptions :=
  Build_StorageFilterOptions None None None None None None.

(** [private newsItems: Map<string, NewsItem>] *)
Definition Store := JSMap.t NewsItem.t.

Definition oneHour : Z := 60 * 60 * 1000.

(** A day of 24 hours. *)
Definition msPerDay : Z := JSDate.msPerDay.

(** Issues reported by [checkDataIntegrity], by stored key: those of its
    checks of the required fields and of the id. Its checks of the two
    dates and of the category are outside the embedding, whose dates are
    valid dates and whose categories are those of the enum; on such items
    they report nothing. *)
Inductive Issue : Type :=
| MissingRequiredFields (key : jsstring)
| IDMismatch (key : jsstring) (itemId : jsstring).

Record IntegrityReport : Type := {
  isValid : bool;
  issues : list Issue;
  totalItems : Z;
  validItems : Z
}.

Section Service.

(** The host the service runs on. *)
Context {host : JSDate.Host}.

(** [private readonly maxItems], [private readonly maxAgeInDays] *)
Variable maxItems : Z.
Variable maxAgeInDays : Z.

Definition isDuplicate (newsItems : Store) (newsItem : NewsItem.t) : bool :=
  if JSMap.has (NewsItem.id newsItem) newsItems then true
  else
    existsb
      (fun existing =>
         JSString.eqb (NewsItem.link existing) (NewsItem.link newsItem)
         && (Z.abs (NewsItem.pubDate existing - NewsItem.pubDate newsItem)
             <=? oneHour))
      (JSMap.values newsItems).

(** [cutoffDate] after [cutoffDate.setDate(cutoffDate.getDate() -
    this.maxAgeInDays)], [None] for an Invalid Date: the same local time
    of day, [maxAgeInDays] days of the calendar before [now]. *)
Definition cutoffDate (now : Z) : option Z :=
  JSDate.setDateBack now maxAgeInDays.

(** [item.pubDate < cutoffDate] *)
Definition isOld (now : Z) (item : NewsItem.t) : bool :=
  JSDate.before (NewsItem.pubDate item) (cutoffDate now).

Definition cleanupOldItems (now : Z) (newsItems : Store) : Store :=
  filter (fun e => negb (isOld now (snd e))) newsItems.

(** The comparator [a.pubDate.getTime() - b.pubDate.getTime()]. *)
Definition oldestFirst (a b : jsstring * NewsItem.t) : bool :=
  NewsItem.pubDate (snd a) <=? NewsItem.pubDate (snd b).

(** The [while] loop of [enforceMemoryLimit]; every round deletes one
    key, so [length newsItems] rounds are enough (lemma
    [enforceLoop_fuel]). *)
Fixpoint enforceLoop (fuel : nat) (newsItems : Store) : Store :=
  match fuel with
  | O => newsItems
  | S fuel' =>
    if maxItems <? JSMap.size newsItems then
      match JSArray.sort oldestFirst newsItems with
      | (id, _) :: _ => enforceLoop fuel' (JSMap.delete id newsItems)
      | [] => newsItems
      end
    else newsItems
  end.

Definition enforceMemoryLimit (newsItems : Store) : Store :=
  enforceLoop (length newsItems) newsItems.

(** [saveNewsItem], called when the clock reads [now]; the result is the
    returned boolean and the map afterwards. *)
Definition saveNewsItem (now : Z) (newsItems : Store) (newsItem : NewsItem.t)
  : bool * Store :=
  if isDuplicate newsItems newsItem then (false, newsItems)
  else
    let inserted := JSMap.set (NewsItem.id newsItem) newsItem newsItems in
    let cleaned := cleanupOldItems now inserted in
    (true, enforceMemoryLimit cleaned).

(** [saveNewsItems]; each item comes with the clock reading of its
    [saveNewsItem] call. *)
Fixpoint saveNewsItems (newsItems : Store) (batch : list (Z * NewsItem.t))
  : Z * Store :=
  match batch with
  | [] => (0, newsItems)
  | (now, item) :: rest =>
    let '(saved, newsItems') := saveNewsItem now newsItems item in
    let '(savedCount, final) := saveNewsItems newsItems' rest in
    ((if saved then 1 else 0) + savedCount, final)
  end.

Definition getNewsItem (newsItems : Store) (id : jsstring)
  : option NewsItem.t :=
  JSMap.get id newsItems.

Definition getItemCount (newsItems : Store) : Z := JSMap.size newsItems.

Definition clear (newsItems : Store) : Store := [].

(** The comparator [b.pubDate.getTime() - a.pubDate.getTime()]. *)
Definition newestFirst (a b : NewsItem.t) : bool :=
  NewsItem.pubDate b <=? NewsItem.pubDate a.

Definition getNewsItems (newsItems : Store) (options : StorageFilterOptions)
  : list NewsItem.t :=
  let items := JSMap.values newsItems in
  let items :=
    match category options with
    | Some (only c) =>
      filter (fun item => AICategories.eqb (NewsItem.category item) c) items
    | _ => items
    end in
  let items :=
    match startDate options with
    | Some d => filter (fun item => d <=? NewsItem.pubDate item) items
    | None => items
    end in
  let items :=
    match endDate options with
    | Some d => filter (fun item => NewsItem.pubDate item <=? d) items
    | None => items
    end in
  let items :=
    match source options with
    | Some s =>
      if JSString.truthy s
      then filter (fun item => JSString.eqb (NewsItem.source item) s) items
      else items
    | None => items
    end in
  let items := JSArray.sort newestFirst items in
  let items :=
    match offset options with
    | Some o => if o =? 0 then items else JSArray.slice items o None
    | None => items
    end in
  match limit options with
  | Some n => if n =? 0 then items else JSArray.slice items 0 (Some n)
  | None => items
  end.

Definition updateNewsItem (newsItems : Store) (id : jsstring)
           (updates : PartialNewsItem.t) : bool * Store :=
  match JSMap.get id newsItems with
  | None => (false, newsItems)
  | Some existingItem =>
    let updatedItem := PartialNewsItem.spread existingItem updates in
    (true, JSMap.set id updatedItem newsItems)
  end.

Definition deleteNewsItem (newsItems : Store) (id : jsstring)
  : bool * Store :=
  (JSMap.has id newsItems, JSMap.delete id newsItems).

Definition itemIssues (entry : jsstring * NewsItem.t) : list Issue :=
  let '(id, item) := entry in
  (if negb (JSString.truthy (NewsItem.id item))
      || negb (JSString.truthy (NewsItem.title item))
      || negb (JSString.truthy (NewsItem.link item))
      || negb (JSString.truthy (NewsItem.source item))
   then [MissingRequiredFields id] else [])
  ++ (if negb (JSString.eqb (NewsItem.id item) id)
      then [IDMismatch id (NewsItem.id item)] else []).

Definition checkDataIntegrity (newsItems : Store) : IntegrityReport :=
  let found := flat_map itemIssues newsItems in
  {| isValid := match found with [] => true | _ => false end;
     issues := found;
     totalItems := JSMap.size newsItems;
     validItems :=
       Z.of_nat
         (length
            (filter
               (fun e => match itemIssues e with [] => true | _ => false end)
               newsItems)) |}.

End Service.

(** The states a service object can be in: it starts empty and changes
    only through its methods. *)
Inductive reachable {host : JSDate.Host} (maxItems maxAgeInDays : Z)
  : Store -> Prop :=
| reach_new : reachable maxItems maxAgeInDays []
| reach_save now st item :
    reachable maxItems maxAgeInDays st ->
    reachable maxItems maxAgeInDays
              (snd (saveNewsItem maxItems maxAgeInDays now st item))
| reach_saveAll st batch :
    reachable maxItems maxAgeInDays st ->
    reachable maxItems maxAgeInDays
              (snd (saveNewsItems maxItems maxAgeInDays st batch))
| reach_update st id updates :
    reachable maxItems maxAgeInDays st ->
    reachable maxItems maxAgeInDays (snd (updateNewsItem st id updates))
| reach_delete st id :
    reachable maxItems maxAgeInDays st ->
    reachable maxItems maxAgeInDays (snd (deleteNewsItem st id))
| reach_clear st :
    reachable maxItems maxAgeInDays st ->
    reachable maxItems maxAgeInDays (clear st).

End StorageService.

(* ------------------------------------------------------------------ *)
(** * ClassificationService *)

Module ClassificationService.

(** [interface KeywordDictionary]: the entries of the object, in the
    order of its keys. *)
Definition KeywordDictionary := list (AICategory * list jsstring).

Record ClassificationResult : Type := {
  category : AICategory;
  confidence : Q;
  matchedKeywords : list jsstring
}.

(** The mutable fields of the service. *)
Record t : Type := {
  defaultCategory : AICategory;
  minConfidenceThreshold : Q;
  classificationStats : list (AICategory * Z)
}.

Definition initializeKeywordDictionary : KeywordDictionary :=
  [
    (AI_MODELS,
     [
      js "GPT"; js "ChatGPT"; js "LLM"; js "Large Language Model"; js "大規模言語モデル";
      js "BERT"; js "Transformer"; js "OpenAI"; js "Claude"; js "Gemini"; js "Llama";
      js "モデル"; js "model"; js "学習"; js "training"; js "fine-tuning";
      js "ファインチューニング"; js "neural network";
      js "ニューラルネットワーク"; js "deep learning";
      js "ディープラーニング"; js "machine learning"; js "機械学習"; js "AI model";
      js "AIモデル"
     ]);
    (AI_ASSISTANT,
     [
      js "ChatGPT"; js "Siri"; js "Alexa"; js "Google Assistant"; js "Cortana";
      js "アシスタント"; js "assistant"; js "チャットボット"; js "chatbot";
      js "bot"; js "対話"; js "conversation"; js "chat"; js "チャット"; js "会話";
      js "virtual assistant"; js "バーチャルアシスタント"; js "AI助手"; js "AI秘書"
     ]);
    (AI_AGENT,
     [
      js "agent"; js "エージェント"; js "autonomous"; js "自律"; js "automation";
      js "自動化"; js "workflow"; js "ワークフロー"; js "task automation";
      js "タスク自動化"; js "intelligent agent";
      js "インテリジェントエージェント"; js "AI agent"; js "AIエージェント";
      js "multi-agent"; js "マルチエージェント"; js "agent system";
      js "エージェントシステム"
     ]);
    (AI_IDE,
     [
      js "IDE"; js "editor"; js "エディタ"; js "code"; js "コード"; js "programming";
      js "プログラミング"; js "development"; js "開発"; js "coding";
      js "コーディング"; js "GitHub Copilot"; js "Copilot"; js "code completion";
      js "コード補完"; js "code generation"; js "コード生成"; js "VS Code";
      js "Visual Studio"; js "IntelliJ"; js "development environment"; js "開発環境"
     ]);
    (AI_CLI,
     [
      js "CLI"; js "command line"; js "コマンドライン"; js "terminal";
      js "ターミナル"; js "shell"; js "シェル"; js "command"; js "コマンド";
      js "bash"; js "zsh"; js "CLI tool"; js "CLIツール"; js "command line tool";
      js "コマンドラインツール"; js "terminal AI"; js "ターミナルAI"
     ]);
    (AI_SEARCH,
     [
      js "search"; js "検索"; js "knowledge base"; js "ナレッジベース"; js "knowledge";
      js "information retrieval"; js "情報検索"; js "semantic search";
      js "セマンティック検索"; js "vector search"; js "ベクトル検索"; js "RAG";
      js "retrieval"; js "検索拡張生成"; js "database"; js "データベース";
      js "index"; js "インデックス"; js "Elasticsearch"
     ]);
    (AI_INTEGRATION,
     [
      js "integration"; js "統合"; js "SaaS"; js "API"; js "webhook"; js "Zapier"; js "Make";
      js "workflow automation"; js "ワークフロー自動化"; js "business process";
      js "ビジネスプロセス"; js "enterprise"; js "エンタープライズ";
      js "platform"; js "プラットフォーム"; js "connector"; js "コネクタ";
      js "middleware"; js "ミドルウェア"
     ]);
    (AI_MULTIMODAL,
     [
      js "multimodal"; js "マルチモーダル"; js "voice"; js "音声"; js "speech";
      js "スピーチ"; js "image"; js "画像"; js "video"; js "動画"; js "vision";
      js "ビジョン"; js "audio"; js "オーディオ"; js "text-to-speech";
      js "speech-to-text"; js "音声認識"; js "音声合成"; js "computer vision";
      js "コンピュータビジョン"; js "OCR"; js "image recognition"; js "画像認識"
     ]);
    (AI_NOCODE,
     [
      js "no-code"; js "ノーコード"; js "low-code"; js "ローコード";
      js "drag and drop"; js "ドラッグアンドドロップ"; js "visual programming";
      js "ビジュアルプログラミング"; js "builder"; js "ビルダー"; js "template";
      js "テンプレート"; js "workflow builder"; js "ワークフロービルダー";
      js "automation platform"; js "自動化プラットフォーム"
     ]);
    (AI_DATA_ANALYSIS,
     [
      js "data analysis"; js "データ分析"; js "analytics"; js "アナリティクス";
      js "visualization"; js "可視化"; js "dashboard"; js "ダッシュボード";
      js "report"; js "レポート"; js "insight"; js "インサイト";
      js "business intelligence"; js "BI"; js "data science"; js "データサイエンス";
      js "statistics"; js "統計"; js "metrics"; js "メトリクス"; js "KPI";
      js "data mining"; js "データマイニング"
     ])
  ].

(** [private readonly keywordDictionary], set once by the constructor. *)
Definition keywordDictionary : KeywordDictionary :=
  initializeKeywordDictionary.

(** [new ClassificationService()] *)
Definition new : t :=
  {| defaultCategory := AI_MODELS;
     minConfidenceThreshold := 1 # 10;
     classificationStats := [] |}.

(** [a < b] on numbers. *)
Definition ltb (a b : Q) : bool := negb (Qle_bool b a).

(** [text.match(new RegExp(pattern, 'g')) || []).length] for a pattern
    without regular-expression operators, which then stands for itself:
    the matches are found from left to right and do not overlap; the
    search resumes behind a match ([skip] code units are still covered by
    the last match), and one unit further after an empty match. *)
Fixpoint countFrom (pattern : jsstring) (skip : nat) (text : jsstring) : Z :=
  match text with
  | [] =>
    match skip, pattern with
    | O, [] => 1
    | _, _ => 0
    end
  | _ :: rest =>
    match skip with
    | S skip' => countFrom pattern skip' rest
    | O =>
      if JSString.startsWith pattern text
      then 1 + countFrom pattern (Nat.pred (length pattern)) rest
      else countFrom pattern O rest
    end
  end.

Definition matchCount (pattern text : jsstring) : Z :=
  countFrom pattern O text.

Definition getKeywordWeight (keyword : jsstring) : Z :=
  if 10 <? Z.of_nat (length keyword) then 3
  else if 6 <? Z.of_nat (length keyword) then 2
  else 1.

(** [this.keywordDictionary[category] || []] *)
Fixpoint keywordsOf (dictionary : KeywordDictionary) (category : AICategory)
  : list jsstring :=
  match dictionary with
  | [] => []
  | (c, keywords) :: rest =>
    if AICategories.eqb c category then keywords
    else keywordsOf rest category
  end.

Section Runtime.

(** [String.prototype.toLowerCase], the lower-casing of the runtime. *)
Variable toLowerCase : jsstring -> jsstring.

(** One round of the loop over the keywords of a category. *)
Definition addKeyword (text : jsstring) (categoryScore : Z)
           (keyword : jsstring) : Z :=
  let keywordLower := toLowerCase keyword in
  let matches := matchCount keywordLower text in
  if 0 <? matches
  then categoryScore + matches * getKeywordWeight keyword
  else categoryScore.

Definition scoreKeywords (text : jsstring) (keywords : list jsstring) : Z :=
  fold_left (addKeyword text) keywords 0.

(** The score map of [getKeywordMatches], as its entries in order; the
    keys of the dictionary are distinct, so each [scores.set] fills the
    entry of its own category. *)
Definition scoresOf (dictionary : KeywordDictionary) (text : jsstring)
  : list (AICategory * Z) :=
  map (fun entry => (fst entry, scoreKeywords text (snd entry))) dictionary.

Definition getKeywordMatches (text : jsstring) : list (AICategory * Z) :=
  scoresOf keywordDictionary text.

Definition getMatchedKeywordsForCategory (text : jsstring)
           (category : AICategory) : list jsstring :=
  filter
    (fun keyword =>
       JSString.includes (toLowerCase text) (toLowerCase keyword))
    (keywordsOf keywordDictionary category).

(** One round of the loop that looks for the highest score. *)
Definition pickBest (combinedText : jsstring)
           (best : AICategory * Z * list jsstring)
           (entry : AICategory * Z)
  : AICategory * Z * list jsstring :=
  let '(bestCategory, bestScore, matched) := best in
  let '(category, score) := entry in
  if bestScore <? score
  then (category, score, getMatchedKeywordsForCategory combinedText category)
  else best.

Definition combine (title description : jsstring) : jsstring :=
  toLowerCase (title ++ js " " ++ description).

Definition analyzeContent (self : t) (title description : jsstring)
  : ClassificationResult :=
  let combinedText := combine title description in
  let categoryScores := getKeywordMatches combinedText in
  let '(bestCategory, bestScore, matched) :=
    fold_left (pickBest combinedText) categoryScores
              (defaultCategory self, 0, []) in
  let textLength := Z.of_nat (length combinedText) in
  let confidence :=
    Qmin (inject_Z bestScore / Qmax (inject_Z textLength / 100) 1) 1 in
  {| category := bestCategory;
     confidence := confidence;
     matchedKeywords := matched |}.

(** [classifyNews]. The [catch] branch is not modelled: the patterns are
    the keywords of the dictionary, which are valid regular expressions,
    and nothing else in [analyzeContent] can throw. *)
Definition classifyNews (self : t) (newsItem : NewsItem.t) : AICategory :=
  let result :=
    analyzeContent self (NewsItem.title newsItem)
                   (NewsItem.description newsItem) in
  if ltb (confidence result) (minConfidenceThreshold self)
  then NewsItem.category newsItem
  else category result.

Fixpoint bump (category : AICategory) (stats : list (AICategory * Z))
  : list (AICategory * Z) :=
  match stats with
  | [] => [(category, 1)]
  | (c, n) :: rest =>
    if AICategories.eqb category c then (c, n + 1) :: rest
    else (c, n) :: bump category rest
  end.

Definition updateStats (self : t) (category : AICategory) : t :=
  {| defaultCategory := defaultCategory self;
     minConfidenceThreshold := minConfidenceThreshold self;
     classificationStats := bump category (classificationStats self) |}.

Fixpoint classifyNewsBatch (self : t) (newsItems : list NewsItem.t)
  : list NewsItem.t * t :=
  match newsItems with
  | [] => ([], self)
  | item :: rest =>
    let classifiedCategory := classifyNews self item in
    let self' := updateStats self classifiedCategory in
    let '(classified, final) := classifyNewsBatch self' rest in
    (NewsItem.withCategory item classifiedCategory :: classified, final)
  end.

End Runtime.

Definition setDefaultCategory (self : t) (category : AICategory) : t :=
  {| defaultCategory := category;
     minConfidenceThreshold := minConfidenceThreshold self;
     classificationStats := classificationStats self |}.

(** [setConfidenceThreshold]; [None] stands for the thrown [Error]. *)
Definition setConfidenceThreshold (self : t) (threshold : Q) : option t :=
  if Qle_bool 0 threshold && Qle_bool threshold 1
  then Some {| defaultCategory := defaultCategory self;
               minConfidenceThreshold := threshold;
               classificationStats := classificationStats self |}
  else None.

End ClassificationService.

(* ------------------------------------------------------------------ *)
(** * NewsCollectorService *)

Module NewsCollectorService.

Definition RSS_SOURCES : list RSSSource.t :=
  [ RSSSource.mk (js "AINOW") (js "https://ainow.ai/feed/") AI_MODELS;
    RSSSource.mk (js "Publickey") (js "https://www.publickey1.jp/atom.xml")
                 AI_DATA_ANALYSIS;
    RSSSource.mk (js "ITmedia NEWS")
                 (js "https://rss.itmedia.co.jp/rss/2.0/news_bursts.xml")
                 AI_ASSISTANT;
    RSSSource.mk (js "CodeZine") (js "https://codezine.jp/rss/new/20/index.xml")
                 AI_IDE;
    RSSSource.mk (js "日経クロステック") (js "https://xtech.nikkei.com/rss/index.rdf")
                 AI_INTEGRATION;
    RSSSource.mk (js "Qiita") (js "https://qiita.com/tags/ai/feed") AI_AGENT ].

(** An entry of the array that [Promise.allSettled] resolves to. *)
Inductive PromiseSettledResult (A : Type) : Type :=
| fulfilled (value : A)
| rejected (reason : jsstring).

Arguments fulfilled {A} value.
Arguments rejected {A} reason.

(** What [collectFromAllSources] returns and counts. *)
Record Collected : Type := {
  allNews : list NewsItem.t;
  successCount : Z;
  errorCount : Z
}.

(** The callback of [results.forEach((result, index) => ...)]. *)
Definition collectResult (sources : list RSSSource.t) (acc : Collected)
           (index : nat) (result : PromiseSettledResult (list NewsItem.t))
  : Collected :=
  match nth_error sources index with
  | None => acc
  | Some source =>
    match result with
    | fulfilled value =>
      {| allNews := allNews acc ++ value;
         successCount := successCount acc + 1;
         errorCount := errorCount acc |}
    | rejected _ =>
      {| allNews := allNews acc;
         successCount := successCount acc;
         errorCount := errorCount acc + 1 |}
    end
  end.

Fixpoint forEachFrom (sources : list RSSSource.t) (index : nat)
         (results : list (PromiseSettledResult (list NewsItem.t)))
         (acc : Collected) : Collected :=
  match results with
  | [] => acc
  | result :: rest =>
    forEachFrom sources (S index) rest (collectResult sources acc index result)
  end.

(** [collectFromAllSources] over the sources [map fst tasks], the task of
    each source settling as [tasks] says. The function has no [throw] of
    its own and awaits only [Promise.allSettled], which never rejects:
    its promise is always fulfilled, with the value computed here. *)
Definition collectFromAllSourcesCounted
           (tasks : list (RSSSource.t * PromiseSettledResult (list NewsItem.t)))
  : Collected :=
  let sources := map fst tasks in
  let results := map snd tasks in
  forEachFrom sources 0 results
              {| allNews := []; successCount := 0; errorCount := 0 |}.

Definition collectFromAllSources
           (tasks : list (RSSSource.t * PromiseSettledResult (list NewsItem.t)))
  : PromiseSettledResult (list NewsItem.t) :=
  fulfilled (allNews (collectFromAllSourcesCounted tasks)).

End NewsCollectorService.

(* ------------------------------------------------------------------ *)
(** * SchedulerService *)

Module SchedulerService.

Import NewsCollectorService.

Record CollectionStats : Type := {
  lastRun : option Z;
  totalRuns : Z;
  successfulRuns : Z;
  failedRuns : Z;
  totalItemsCollected : Z;
  lastRunDuration : Z;
  averageRunDuration : Q;
  stats_isRunning : bool
}.

(** The scheduler with the services it drives. *)
Record t : Type := {
  isRunning : bool;
  stats : CollectionStats;
  runDurations : list Z;
  classifier : ClassificationService.t;
  storage : StorageService.Store
}.

(** The object a collection resolves to. *)
Record RunResult : Type := {
  success : bool;
  itemsCollected : Z;
  duration : Z;
  error : option jsstring
}.

(** An [async] call either has returned, or is suspended at its first
    [await] (remembering [startTime]). *)
Inductive Call : Type :=
| returned (result : RunResult)
| awaiting (startTime : Z).

Definition maxDurationHistory : Z := 10.

Definition initialStats : CollectionStats :=
  {| lastRun := None; totalRuns := 0; successfulRuns := 0; failedRuns := 0;
     totalItemsCollected := 0; lastRunDuration := 0;
     averageRunDuration := 0; stats_isRunning := false |}.

(** [new SchedulerService(collector, classifier, storage)] *)
Definition new (classifier : ClassificationService.t)
           (storage : StorageService.Store) : t :=
  {| isRunning := false; stats := initialStats; runDurations := [];
     classifier := classifier; storage := storage |}.

Section Service.

Context {host : JSDate.Host}.
Variable toLowerCase : jsstring -> jsstring.
(** The configuration of the storage service. *)
Variable maxItems : Z.
Variable maxAgeInDays : Z.

(** [executeCollection] up to its first [await]. *)
Definition executeCollection (now : Z) (self : t) : Call * t :=
  if isRunning self then
    (returned {| success := false;
                 itemsCollected := 0;
                 duration := 0;
                 error := Some (js "Collection already in progress") |},
     self)
  else
    let st := stats self in
    (awaiting now,
     {| isRunning := true;
        stats := {| lastRun := lastRun st;
                    totalRuns := totalRuns st + 1;
                    successfulRuns := successfulRuns st;
                    failedRuns := failedRuns st;
                    totalItemsCollected := totalItemsCollected st;
                    lastRunDuration := lastRunDuration st;
                    averageRunDuration := averageRunDuration st;
                    stats_isRunning := stats_isRunning st |};
        runDurations := runDurations self;
        classifier := classifier self;
        storage := storage self |}).

(** [executeCollectionManually] logs and calls [executeCollection]. *)
Definition executeCollectionManually (now : Z) (self : t) : Call * t :=
  executeCollection now self.

(** The task registered with [cron.schedule]; its result is dropped. *)
Definition scheduledTask (now : Z) (self : t) : Call * t :=
  executeCollection now self.

Definition sum (l : list Z) : Z := fold_left Z.add l 0.

Definition completeCollection (self : t) (startTime endTime : Z)
           (success : bool) (itemsCollected : Z) (error : option jsstring)
  : RunResult * t :=
  let duration := endTime - startTime in
  let st := stats self in
  let pushed := runDurations self ++ [duration] in
  let durations :=
    if maxDurationHistory <? Z.of_nat (length pushed)
    then tl pushed else pushed in
  (Build_RunResult success itemsCollected duration error,
   {| isRunning := false;
      stats := {| lastRun := Some endTime;
                  totalRuns := totalRuns st;
                  successfulRuns :=
                    if success then successfulRuns st + 1
                    else successfulRuns st;
                  failedRuns :=
                    if success then failedRuns st else failedRuns st + 1;
                  totalItemsCollected := totalItemsCollected st;
                  lastRunDuration := duration;
                  averageRunDuration :=
                    (inject_Z (sum durations)
                     / inject_Z (Z.of_nat (length durations)))%Q;
                  stats_isRunning := false |};
      runDurations := durations;
      classifier := classifier self;
      storage := storage self |}).

Definition addCollected (self : t) (savedCount : Z) : t :=
  let st := stats self in
  {| isRunning := isRunning self;
     stats := {| lastRun := lastRun st;
                 totalRuns := totalRuns st;
                 successfulRuns := successfulRuns st;
                 failedRuns := failedRuns st;
                 totalItemsCollected := totalItemsCollected st + savedCount;
                 lastRunDuration := lastRunDuration st;
                 averageRunDuration := averageRunDuration st;
                 stats_isRunning := stats_isRunning st |};
     runDurations := runDurations self;
     classifier := classifier self;
     storage := storage self |}.

(** The rest of [executeCollection], once the promise of
    [collectFromAllSources] has settled as [collected]. [clock i] is the
    clock reading at the [i]-th [saveNewsItem] of the batch and
    [endTime] the one in [completeCollection]. Calls that arrive at the
    later [await]s find [isRunning] set and change nothing, so the
    steps after the first [await] are taken as one. *)
Definition resumeCollection (self : t) (startTime : Z)
           (collected : PromiseSettledResult (list NewsItem.t))
           (clock : nat -> Z) (endTime : Z) : RunResult * t :=
  match collected with
  | rejected errorMessage =>
    completeCollection self startTime endTime false 0 (Some errorMessage)
  | fulfilled [] =>
    completeCollection self startTime endTime true 0 None
  | fulfilled collectedNews =>
    let '(classifiedNews, classifier') :=
      ClassificationService.classifyNewsBatch
        toLowerCase (classifier self) collectedNews in
    let batch :=
      List.combine (map clock (seq 0 (length classifiedNews))) classifiedNews in
    let '(savedCount, storage') :=
      StorageService.saveNewsItems maxItems maxAgeInDays (storage self) batch in
    let self' :=
      addCollected
        {| isRunning := isRunning self;
           stats := stats self;
           runDurations := runDurations self;
           classifier := classifier';
           storage := storage' |}
        savedCount in
    completeCollection self' startTime endTime true savedCount None
  end.

End Service.

End SchedulerService.

(* ------------------------------------------------------------------ *)
(** * StorageService: statistics *)

(** An object used as a table of counters,
    [counts[key] = (counts[key] || 0) + 1]: its entries in the order in
    which the keys were added. The statements about such a table read it
    by key only. *)
Module Counters.

Section Table.

Context {K : Type}.
Variable eqb : K -> K -> bool.

Definition t := list (K * Z).

Fixpoint get (key : K) (counts : t) : option Z :=
  match counts with
  | [] => None
  | (k, n) :: rest => if eqb key k then Some n else get key rest
  end.

(** [counts[key] || 0] *)
Definition orZero (count : option Z) : Z :=
  match count with
  | Some n => n
  | None => 0
  end.

Fixpoint increment (key : K) (counts : t) : t :=
  match counts with
  | [] => [(key, orZero None + 1)]
  | (k, n) :: rest =>
    if eqb key k then (k, orZero (Some n) + 1) :: rest
    else (k, n) :: increment key rest
  end.

Definition total (counts : t) : Z :=
  fold_right (fun entry sum => snd entry + sum) 0 counts.

End Table.

Arguments t : clear implicits.

End Counters.

Module StorageReports.

Import StorageService.

(** The names of the properties that a plain object inherits from
    [Object.prototype]: read on an object that has no such property of its
    own, each gives a function, and [__proto__] the prototype. *)
Definition inheritedNames : list jsstring :=
  [js "constructor"; js "__defineGetter__"; js "__defineSetter__";
   js "hasOwnProperty"; js "__lookupGetter__"; js "__lookupSetter__";
   js "isPrototypeOf"; js "propertyIsEnumerable"; js "toString";
   js "valueOf"; js "__proto__"; js "toLocaleString"].

Definition inherited (key : jsstring) : bool :=
  existsb (JSString.eqb key) inheritedNames.

(** A property of the object [sourceCounts]: a number, or the string that
    [+ 1] makes of a function, of an object or of such a string. *)
Inductive SourceCount : Type :=
| counted (n : Z)
| concatenated.

(** [sourceCounts[source] = (sourceCounts[source] || 0) + 1] on the plain
    object [sourceCounts], given by its own properties in the order in
    which they were added (an object lists those named like an array index
    first; the statements read the properties by name only). Under a name
    of [inheritedNames] the first read
    finds what the object inherits, a function, so that the sum is a
    string, which the assignment stores; [__proto__] reads the prototype
    and its assignment of a string is ignored. *)
Fixpoint countSource (source : jsstring)
         (counts : list (jsstring * SourceCount))
  : list (jsstring * SourceCount) :=
  match counts with
  | [] =>
    if JSString.eqb source (js "__proto__") then []
    else if inherited source then [(source, concatenated)]
    else [(source, counted (Counters.orZero None + 1))]
  | (key, value) :: rest =>
    if JSString.eqb source key
    then (key,
          match value with
          | counted n => counted (Counters.orZero (Some n) + 1)
          | concatenated => concatenated
          end) :: rest
    else (key, value) :: countSource source rest
  end.

(** The properties of [sourceCounts] that hold a number. *)
Fixpoint numericCounts (counts : list (jsstring * SourceCount))
  : Counters.t jsstring :=
  match counts with
  | [] => []
  | (key, counted n) :: rest => (key, n) :: numericCounts rest
  | (_, concatenated) :: rest => numericCounts rest
  end.

(** The numbers are held under the names that are not inherited, the
    strings under the inherited ones. *)
Definition plainKeys (counts : list (jsstring * SourceCount)) : Prop :=
  Forall (fun entry =>
            inherited (fst entry)
            = match snd entry with
              | counted _ => false
              | concatenated => true
              end) counts.

Record StorageStats : Type := {
  totalItems : Z;
  categoryCounts : Counters.t AICategory;
  sourceCounts : list (jsstring * SourceCount);
  oldestItem : option Z;
  newestItem : option Z;
  memoryUsage : Z
}.

(** The variables of the loop of [getStats]. The keys of [categoryCounts]
    are the values of the enum, none of which is a name of
    [inheritedNames] (lemma [labels_are_plain_keys]). *)
Record Tally : Type := {
  byCategory : Counters.t AICategory;
  bySource : list (jsstring * SourceCount);
  oldestDate : option Z;
  newestDate : option Z
}.

Definition tally (acc : Tally) (item : NewsItem.t) : Tally :=
  {| byCategory :=
       Counters.increment AICategories.eqb (NewsItem.category item)
                          (byCategory acc);
     bySource := countSource (NewsItem.source item) (bySource acc);
     oldestDate :=
       match oldestDate acc with
       | None => Some (NewsItem.pubDate item)
       | Some oldest =>
         if NewsItem.pubDate item <? oldest
         then Some (NewsItem.pubDate item) else Some oldest
       end;
     newestDate :=
       match newestDate acc with
       | None => Some (NewsItem.pubDate item)
       | Some newest =>
         if newest <? NewsItem.pubDate item
         then Some (NewsItem.pubDate item) else Some newest
       end |}.

Definition strlen (s : jsstring) : Z := Z.of_nat (length s).

(** One round of the loop of [estimateMemoryUsage]. *)
Definition addItemSize (totalSize : Z) (item : NewsItem.t) : Z :=
  totalSize
  + (strlen (NewsItem.id item) + strlen (NewsItem.title item)
     + strlen (NewsItem.description item) + strlen (NewsItem.link item)
     + strlen (NewsItem.source item)
     + strlen (AICategories.label (NewsItem.category item))) * 2
  + match NewsItem.content item with
    | Some content => strlen content
    | None => 0
    end * 2
  + 200.

Definition estimateMemoryUsage (newsItems : Store) : Z :=
  fold_left addItemSize (JSMap.values newsItems) 0.

Definition getStats (newsItems : Store) : StorageStats :=
  let items := JSMap.values newsItems in
  let final :=
    fold_left tally items
              {| byCategory := []; bySource := [];
                 oldestDate := None; newestDate := None |} in
  {| totalItems := Z.of_nat (length items);
     categoryCounts := byCategory final;
     sourceCounts := bySource final;
     oldestItem := oldestDate final;
     newestItem := newestDate final;
     memoryUsage := estimateMemoryUsage newsItems |}.

(** [getCategoryCounts]: the entries of [categoryCounts]; no category label
    is an array index, so they come in the order of insertion. *)
Definition getCategoryCounts (newsItems : Store) : list (AICategory * Z) :=
  categoryCounts (getStats newsItems).

(** How many stored items satisfy a test. *)
Definition countItems (p : NewsItem.t -> bool) (newsItems : Store) : Z :=
  Z.of_nat (length (filter p (JSMap.values newsItems))).

End StorageReports.

(* ------------------------------------------------------------------ *)
(** * ClassificationService: reports *)

Module ClassificationReports.

Import ClassificationService.

(** [resetStats] *)
Definition resetStats (self : t) : t :=
  {| defaultCategory := defaultCategory self;
     minConfidenceThreshold := minConfidenceThreshold self;
     classificationStats := [] |}.

Record AccuracyReport : Type := {
  totalClassifications : Z;
  categoryDistribution : list (AICategory * Z);
  mostCommonCategory : option AICategory;
  leastCommonCategory : option AICategory
}.

(** The variables of the loop of [getAccuracyReport]; [minCount] is [None]
    while it is [Infinity]. *)
Record Extremes : Type := {
  mostCommon : option AICategory;
  leastCommon : option AICategory;
  maxCount : Z;
  minCount : option Z
}.

Definition belowMin (count : Z) (minCount : option Z) : bool :=
  match minCount with
  | None => true
  | Some m => count <? m
  end.

Definition compareCount (acc : Extremes) (entry : AICategory * Z) : Extremes :=
  let '(category, count) := entry in
  let raised := maxCount acc <? count in
  let lowered := belowMin count (minCount acc) && (0 <? count) in
  {| mostCommon := if raised then Some category else mostCommon acc;
     leastCommon := if lowered then Some category else leastCommon acc;
     maxCount := if raised then count else maxCount acc;
     minCount := if lowered then Some count else minCount acc |}.

Definition getAccuracyReport (self : t) : AccuracyReport :=
  let stats := classificationStats self in
  let total := fold_left (fun sum count => sum + count) (map snd stats) 0 in
  let final :=
    fold_left compareCount stats
              {| mostCommon := None; leastCommon := None;
                 maxCount := 0; minCount := None |} in
  {| totalClassifications := total;
     categoryDistribution := stats;
     mostCommonCategory := mostCommon final;
     leastCommonCategory := leastCommon final |}.

(** The result of [validateClassification], without its [analysis] text,
    which prints the confidence with [toFixed]. *)
Record Validation : Type := {
  isCorrect : bool;
  actualCategory : AICategory;
  expectedCategory : AICategory;
  validatedConfidence : Q;
  validatedKeywords : list jsstring
}.

Section Runtime.

Variable toLowerCase : jsstring -> jsstring.

Definition validateClassification (self : t) (newsItem : NewsItem.t)
           (expected : AICategory) : Validation :=
  let result :=
    analyzeContent toLowerCase self (NewsItem.title newsItem)
                   (NewsItem.description newsItem) in
  let actual :=
    if Qle_bool (minConfidenceThreshold self) (confidence result)
    then category result
    else NewsItem.category newsItem in
  {| isCorrect := AICategories.eqb actual expected;
     actualCategory := actual;
     expectedCategory := expected;
     validatedConfidence := confidence result;
     validatedKeywords := matchedKeywords result |}.

End Runtime.

(** What the loop knows after the entries [seen]. *)
Definition summarises (seen : list (AICategory * Z)) (acc : Extremes) : Prop :=
  ((mostCommon acc = None /\ maxCount acc = 0
    /\ forall c n, In (c, n) seen -> n <= 0)
   \/ (exists c, mostCommon acc = Some c /\ In (c, maxCount acc) seen
                 /\ 0 < maxCount acc
                 /\ forall c' n, In (c', n) seen -> n <= maxCount acc))
  /\ ((leastCommon acc = None /\ minCount acc = None
       /\ forall c n, In (c, n) seen -> n <= 0)
      \/ (exists c m, leastCommon acc = Some c /\ minCount acc = Some m
                      /\ In (c, m) seen /\ 0 < m
                      /\ forall c' n, In (c', n) seen -> 0 < n -> m <= n)).

(** The classifier with a threshold of zero. *)
Definition neverFallBack : t :=
  {| defaultCategory := AI_MODELS;
     minConfidenceThreshold := 0;
     classificationStats := [] |}.

End ClassificationReports.

(* ------------------------------------------------------------------ *)
(** * NewsCollectorService: retries *)

Module NewsCollectorRetry.

Import NewsCollectorService.

(** The fields [maxRetries] and [retryDelay] of the service. *)
Record t : Type := {
  maxRetries : Z;
  retryDelay : Z
}.

(** [new NewsCollectorService()] *)
Definition new : t := {| maxRetries := 3; retryDelay := 1000 |}.

(** An integer in a template literal, for the integers that are printed
    without an exponent. *)
Definition numberToString (n : Z) : jsstring :=
  js (NilZero.string_of_int (Z.to_int n)).

(** [lastError?.message] in a template literal. *)
Definition messageOf (lastError : option jsstring) : jsstring :=
  match lastError with
  | Some message => message
  | None => js "undefined"
  end.

(** The message of the [Error] thrown behind the loop. *)
Definition failure (self : t) (source : RSSSource.t)
           (lastError : option jsstring) : jsstring :=
  js "Failed to collect from " ++ RSSSource.name source ++ js " after "
     ++ numberToString (maxRetries self) ++ js " attempts. Last error: "
     ++ messageOf lastError.

(** What a call of [collectFromSourceWithRetry] did: how its promise
    settled, how often it called [collectFromSource], and the delays it
    awaited, in order. *)
Record Attempted : Type := {
  outcome : PromiseSettledResult (list NewsItem.t);
  calls : Z;
  waited : list Z
}.

(** The message of a rejection. *)
Definition reason (result : PromiseSettledResult (list NewsItem.t))
  : option jsstring :=
  match result with
  | fulfilled _ => None
  | rejected message => Some message
  end.

Section Source.

Variable self : t.
Variable source : RSSSource.t.
(** How the [attempt]-th call of [collectFromSource(source)] settles; the
    function rejects with an [Error] only. *)
Variable collectFromSource : Z -> PromiseSettledResult (list NewsItem.t).

(** The loop [for (attempt = ...; attempt <= this.maxRetries; attempt++)],
    of at most [rounds] rounds. *)
Fixpoint attemptFrom (rounds : nat) (attempt : Z) (lastError : option jsstring)
         (delays : list Z) : Attempted :=
  match rounds with
  | O =>
    {| outcome := rejected (failure self source lastError);
       calls := attempt - 1;
       waited := delays |}
  | S rounds' =>
    if attempt <=? maxRetries self then
      match collectFromSource attempt with
      | fulfilled items =>
        {| outcome := fulfilled items; calls := attempt; waited := delays |}
      | rejected message =>
        let delays' :=
          if attempt <? maxRetries self
          then delays ++ [retryDelay self * attempt]
          else delays in
        attemptFrom rounds' (attempt + 1) (Some message) delays'
      end
    else
      {| outcome := rejected (failure self source lastError);
         calls := attempt - 1;
         waited := delays |}
  end.

(** [collectFromSourceWithRetry]; the loop starts at attempt 1 and has no
    more than [maxRetries] rounds. *)
Definition collectFromSourceWithRetry : Attempted :=
  attemptFrom (Z.to_nat (maxRetries self)) 1 None [].

End Source.

(** The numbers [from], [from + 1], ..., [count] of them. *)
Definition range (from : Z) (count : nat) : list Z :=
  map (fun i => from + Z.of_nat i) (seq 0 count).

(** A source that answers at the third attempt. *)
Definition thirdTime (attempt : Z) : PromiseSettledResult (list NewsItem.t) :=
  if attempt =? 3 then fulfilled [] else rejected (js "timeout").

(** A source that never answers. *)
Definition never (attempt : Z) : PromiseSettledResult (list NewsItem.t) :=
  rejected (js "timeout").

End NewsCollectorRetry.

(* ------------------------------------------------------------------ *)
(** * SchedulerService: statistics over a sequence of runs *)

Module SchedulerRuns.

Import NewsCollectorService SchedulerService.

(** [getStats] *)
Definition getStats (self : t) : CollectionStats :=
  let st := stats self in
  {| lastRun := lastRun st;
     totalRuns := totalRuns st;
     successfulRuns := successfulRuns st;
     failedRuns := failedRuns st;
     totalItemsCollected := totalItemsCollected st;
     lastRunDuration := lastRunDuration st;
     averageRunDuration := averageRunDuration st;
     stats_isRunning := isRunning self |}.

(** [resetStats] *)
Definition resetStats (self : t) : t :=
  {| isRunning := isRunning self;
     stats := initialStats;
     runDurations := [];
     classifier := classifier self;
     storage := storage self |}.

(** The result of [getCollectionHistory], without its
    [averageItemsPerCollection], which is rounded with [Math.round]. *)
Record CollectionHistory : Type := {
  totalCollections : Z;
  successfulCollections : Z;
  failedCollections : Z;
  historyItemsCollected : Z;
  lastSuccessfulRun : option Z;
  uptime : Z
}.

Definition getCollectionHistory (now : Z) (self : t) : CollectionHistory :=
  let st := stats self in
  {| totalCollections := totalRuns st;
     successfulCollections := successfulRuns st;
     failedCollections := failedRuns st;
     historyItemsCollected := totalItemsCollected st;
     lastSuccessfulRun := if 0 <? successfulRuns st then lastRun st else None;
     uptime := match lastRun st with
               | Some last => now - last
               | None => 0
               end |}.

(** What happens to a scheduler: a trigger (the cron task or a manual
    call) at some time, the settling of the collection in flight, which
    lets the suspended call run to its end, or a call of [resetStats]. *)
Inductive Event : Type :=
| trigger (now : Z)
| settle (collected : PromiseSettledResult (list NewsItem.t))
         (clock : nat -> Z) (endTime : Z)
| reset.

Definition isReset (event : Event) : bool :=
  match event with
  | reset => true
  | _ => false
  end.

(** The service together with the suspended call of [executeCollection],
    if there is one: [pending] holds its [startTime]. *)
Record World : Type := {
  service : t;
  pending : option Z
}.

Definition boot (classifier : ClassificationService.t)
           (storage : StorageService.Store) : World :=
  {| service := new classifier storage; pending := None |}.

Section Service.

Context {host : JSDate.Host}.
Variable toLowerCase : jsstring -> jsstring.
Variable maxItems : Z.
Variable maxAgeInDays : Z.

Definition step (world : World) (event : Event) : World :=
  match event with
  | trigger now =>
    match executeCollection now (service world) with
    | (returned _, self') =>
      {| service := self'; pending := pending world |}
    | (awaiting startTime, self') =>
      {| service := self'; pending := Some startTime |}
    end
  | settle collected clock endTime =>
    match pending world with
    | None => world
    | Some startTime =>
      {| service :=
           snd (resumeCollection toLowerCase maxItems maxAgeInDays
                                 (service world) startTime collected
                                 clock endTime);
         pending := None |}
    end
  | reset =>
    {| service := resetStats (service world); pending := pending world |}
  end.

Definition run (events : list Event) (world : World) : World :=
  fold_left step events world.

End Service.

(** [1] while a collection is in flight. *)
Definition inFlight (self : t) : Z := if isRunning self then 1 else 0.

Definition finishedRuns (self : t) : Z :=
  successfulRuns (stats self) + failedRuns (stats self).

(** What every sequence of events keeps. *)
Definition consistent (world : World) : Prop :=
  let self := service world in
  (isRunning self = true <-> pending world <> None)
  /\ Z.of_nat (length (runDurations self))
     = Z.min maxDurationHistory (finishedRuns self)
  /\ stats_isRunning (stats self) = false
  /\ 0 <= successfulRuns (stats self)
  /\ 0 <= failedRuns (stats self)
  /\ totalRuns (stats self) <= finishedRuns self + inFlight self
     <= totalRuns (stats self) + 1
  /\ (runDurations self <> [] ->
      averageRunDuration (stats self)
      = (inject_Z (sum (runDurations self))
         / inject_Z (Z.of_nat (length (runDurations self))))%Q)
  /\ (0 < finishedRuns self -> lastRun (stats self) <> None).

End SchedulerRuns.

(* ------------------------------------------------------------------ *)
(** * Sample data, after the test suites of the services *)

Module Examples.

(** The examples run on a host in the zone UTC. *)
#[local] Existing Instance JSDate.utc.

(** A fixed reading of the clock. *)
Definition now : Z := 100 * StorageService.msPerDay.

Definition hours (n : Z) : Z := n * StorageService.oneHour.
Definition days (n : Z) : Z := n * StorageService.msPerDay.

Definition newsItem (id link : string) (pubDate : Z) : NewsItem.t :=
  NewsItem.mk (js id) (js "Test News") (js "Test Description") (js link)
              pubDate (js "Source A") AI_MODELS None now.

Definition test1 : NewsItem.t :=
  newsItem "test-1" "https://example.com/news/1" (now - hours 3).
Definition test2 : NewsItem.t :=
  newsItem "test-2" "https://example.com/news/2" (now - hours 2).
Definition test3 : NewsItem.t :=
  newsItem "test-3" "https://example.com/news/3" (now - hours 1).

(** Published when the clock reads [now]. *)
Definition recentItem : NewsItem.t :=
  newsItem "recent-item" "https://example.com/news/recent" now.

(** Published eight days before [now]. *)
Definition oldItem : NewsItem.t :=
  newsItem "old-item" "https://example.com/news/old" (now - days 8).

(** Published at the same instant as [recentItem]. *)
Definition sameInstant : NewsItem.t :=
  newsItem "test-9" "https://example.com/news/9" now.

(** 2 November 2025, 18:00 UTC, which is 13:00 in New York, twelve hours
    after the clocks there went back. *)
Definition newYorkAfternoon : Z := 1762106400000.

(** Published twenty-four and a half hours before [newYorkAfternoon]. *)
Definition dayOldItem : NewsItem.t :=
  newsItem "day-old" "https://example.com/news/day-old"
           (newYorkAfternoon - 88200000).

(** [recentItem], stored by a service with one day of retention. *)
Definition storedRecent : StorageService.Store :=
  snd (StorageService.saveNewsItem 1000 1 now [] recentItem).

(** [{ id: 'test-2' }] as a [Partial<NewsItem>]. *)
Definition renameToTest2 : PartialNewsItem.t :=
  PartialNewsItem.mk (Some (js "test-2")) None None None None None None None None.

(** A service that saved [test1] and then updated its [id]. *)
Definition renamedStore : StorageService.Store :=
  snd (StorageService.updateNewsItem
         (snd (StorageService.saveNewsItem 1000 7 now [] test1))
         (js "test-1") renameToTest2).

(** A service that saved [test1] and [test2] and then updated the [id] of
    the first to that of the second. *)
Definition clashingStore : StorageService.Store :=
  snd (StorageService.updateNewsItem
         (snd (StorageService.saveNewsItems
                 1000 7 [] [(now, test1); (now, test2)]))
         (js "test-1") renameToTest2).

(** [{ limit: 0 }], as [GET /api/news?limit=0] asks for. *)
Definition limitZero : StorageService.StorageFilterOptions :=
  StorageService.Build_StorageFilterOptions None None None None (Some 0) None.

(** [{ limit: 2, offset: 1 }] *)
Definition secondPage : StorageService.StorageFilterOptions :=
  StorageService.Build_StorageFilterOptions None None None None (Some 2) (Some 1).

(** A service that saved [test1], [test3] and [test2], in this order. *)
Definition threeStored : StorageService.Store :=
  snd (StorageService.saveNewsItems
         1000 7 [] [(now, test1); (now, test3); (now, test2)]).

(** A store with one item, of a source named [constructor]. *)
Definition namedConstructor : StorageService.Store :=
  [(js "test-1",
    NewsItem.mk (js "test-1") (js "Test News") (js "Test Description")
                (js "https://example.com/news/1") now (js "constructor")
                AI_MODELS None now)].

(** A headline without any keyword, and one with keywords of two
    categories. *)
Definition weather : NewsItem.t :=
  NewsItem.mk (js "weather-1") (js "Weather today") (js "Sunny, 21 degrees")
              (js "https://example.com/weather") now (js "Source A")
              AI_NOCODE None now.

Definition gptNews : NewsItem.t :=
  NewsItem.mk (js "gpt-1") (js "New GPT model released")
              (js "ChatGPT gets a new model") (js "https://example.com/gpt")
              now (js "Source A") AI_NOCODE None now.

(** A scheduler whose collection is in flight. *)
Definition runningScheduler : SchedulerService.t :=
  snd (SchedulerService.executeCollectionManually
         now (SchedulerService.new ClassificationService.new [])).

(** One source that answers with two records, one that fails, and one that
    answers with one record. *)
Definition mixedTasks
  : list (RSSSource.t
          * NewsCollectorService.PromiseSettledResult (list NewsItem.t)) :=
  [ (RSSSource.mk (js "AINOW") (js "https://ainow.ai/feed/") AI_MODELS,
     NewsCollectorService.fulfilled [test1; test2]);
    (RSSSource.mk (js "Publickey") (js "https://www.publickey1.jp/atom.xml")
                  AI_DATA_ANALYSIS,
     NewsCollectorService.rejected (js "Failed to collect from Publickey"));
    (RSSSource.mk (js "Qiita") (js "https://qiita.com/tags/ai/feed") AI_AGENT,
     NewsCollectorService.fulfilled [test3]) ].

(** Every source fails. *)
Definition failingTasks
  : list (RSSSource.t
          * NewsCollectorService.PromiseSettledResult (list NewsItem.t)) :=
  map (fun source =>
         (source, NewsCollectorService.rejected (js "Failed to collect")))
      NewsCollectorService.RSS_SOURCES.

(** [test1] published again, under a new id, two hours later. *)
Definition test1Republished : NewsItem.t :=
  newsItem "test-4" "https://example.com/news/1" (now - hours 1).

(** [{ title: 'Updated Title', category: AICategory.AI_ASSISTANT }] *)
Definition retitle : PartialNewsItem.t :=
  PartialNewsItem.mk None (Some (js "Updated Title")) None None None None
                     (Some AI_ASSISTANT) None None.

End Examples.

(* ------------------------------------------------------------------ *)
(** * Vocabulary of the statements about the store *)

Module StorageSpec.

Import StorageService.

(** Every item is stored under its own id. *)
Definition keyed (st : Store) : Prop :=
  Forall (fun e => NewsItem.id (snd e) = fst e) st.

(** [item] repeats [existing]: same link, published within one hour. *)
Definition sameArticle (existing item : NewsItem.t) : Prop :=
  NewsItem.link existing = NewsItem.link item
  /\ Z.abs (NewsItem.pubDate existing - NewsItem.pubDate item) <= oneHour.

(** [removed] of [before] went away and [after] stayed: whatever went
    away was published no later than whatever stayed. *)
Definition evictsOldest (before after : Store) : Prop :=
  incl after before
  /\ forall gone kept,
       In gone before -> ~ In gone after -> In kept after ->
       NewsItem.pubDate (snd gone) <= NewsItem.pubDate (snd kept).

(** Between [now] and the local time [days] days before it, the offset
    of the zone from UTC changed by less than a day. *)
Definition steadyZone {host : JSDate.Host} (now days : Z) : Prop :=
  - msPerDay
  <= JSDate.LocalTZA (JSDate.LocalTime now - days * msPerDay) false
     - JSDate.LocalTZA now true
  < msPerDay.

(** Two items that neither share an id nor repeat one another. *)
Definition distinctArticles (x y : NewsItem.t) : Prop :=
  NewsItem.id x <> NewsItem.id y /\ ~ sameArticle x y.

(** *** The query, as the specification words it

    Keep the stored items that pass the category filter (the wildcard and
    an absent category pass everything), the source filter and the
    inclusive date bounds; sort them by [pubDate], newest first; drop
    [offset] items, then keep [limit] items. *)

Definition passes (options : StorageFilterOptions) (item : NewsItem.t) : bool :=
  match category options with
  | Some (only c) => AICategories.eqb (NewsItem.category item) c
  | _ => true
  end
  && match source options with
     | Some s => JSString.eqb (NewsItem.source item) s
     | None => true
     end
  && match startDate options with
     | Some d => d <=? NewsItem.pubDate item
     | None => true
     end
  && match endDate options with
     | Some d => NewsItem.pubDate item <=? d
     | None => true
     end.

Definition queryAsStated (st : Store) (options : StorageFilterOptions)
  : list NewsItem.t :=
  let sorted :=
    JSArray.sort newestFirst (filter (passes options) (JSMap.values st)) in
  let paged :=
    match offset options with
    | Some o => skipn (Z.to_nat o) sorted
    | None => sorted
    end in
  match limit options with
  | Some n => firstn (Z.to_nat n) paged
  | None => paged
  end.

(** The options the code acts on: an empty source string and a limit or
    an offset of zero count as absent. *)
Definition effective (options : StorageFilterOptions) : StorageFilterOptions :=
  {| category := category options;
     startDate := startDate options;
     endDate := endDate options;
     source :=
       match source options with
       | Some s => if JSString.truthy s then Some s else None
       | None => None
       end;
     limit :=
       match limit options with
       | Some n => if n =? 0 then None else Some n
       | None => None
       end;
     offset :=
       match offset options with
       | Some o => if o =? 0 then None else Some o
       | None => None
       end |}.

Definition newestToOldest (items : list NewsItem.t) : Prop :=
  StronglySorted
    (fun x y => NewsItem.pubDate y <= NewsItem.pubDate x) items.

End StorageSpec.

(* ------------------------------------------------------------------ *)
(** * Vocabulary of the statements about the classifier *)

Module ClassificationSpec.

Import ClassificationService.

(** The characters that a regular expression does not take literally. *)
Definition regexOperator (c : N) : bool :=
  existsb (N.eqb c)
          (js ".*+?^${}()|[]\").

(** A keyword stands for itself as a pattern. *)
Definition literalPattern (keyword : jsstring) : bool :=
  forallb (fun c => negb (regexOperator c)) keyword.

(** The keyword stands in the text at position [i]. *)
Definition occursAt (keyword text : jsstring) (i : nat) : Prop :=
  (i <= length text)%nat
  /\ JSString.startsWith keyword (skipn i text) = true.

(** The positions go up from [from] on, each at least [width] behind the
    one before. *)
Fixpoint apart (width from : nat) (positions : list nat) : Prop :=
  match positions with
  | [] => True
  | i :: rest => (from <= i)%nat /\ apart width (i + width) rest
  end.

(** Occurrences of the keyword in the text no two of which overlap: each
    starts behind the end of the one before (one position further on, for
    an empty keyword). *)
Definition disjointOccurrences (keyword text : jsstring)
           (positions : list nat) : Prop :=
  apart (Nat.max 1 (length keyword)) 0 positions
  /\ Forall (occursAt keyword text) positions.

(** The occurrence count of a keyword in a text: as many occurrences as
    can be told apart, that is, the largest number of occurrences no two
    of which overlap. *)
Definition occurrenceCount (keyword text : jsstring) (n : Z) : Prop :=
  (exists positions,
      disjointOccurrences keyword text positions
      /\ Z.of_nat (length positions) = n)
  /\ forall positions,
      disjointOccurrences keyword text positions ->
      Z.of_nat (length positions) <= n.

(** The number of positions of the text at which the keyword stands. *)
Fixpoint occurrences (keyword text : jsstring) : Z :=
  match text with
  | [] => 0
  | _ :: rest =>
    (if JSString.startsWith keyword text then 1 else 0)
    + occurrences keyword rest
  end.

(** A keyword two occurrences of which can overlap: an end of it, shorter
    than the keyword and not empty, is a beginning of it. *)
Definition overlapsItself (keyword : jsstring) : bool :=
  existsb (fun k => JSString.startsWith (skipn k keyword) keyword)
          (seq 1 (Nat.pred (length keyword))).

(** The weight of a keyword as the specification words it. *)
Definition weightAsStated (keyword : jsstring) : Z :=
  if 10 <? Z.of_nat (length keyword) then 3
  else if 6 <? Z.of_nat (length keyword) then 2
  else 1.

(** The score of a keyword list as the specification words it, for a
    given way [count] of counting the occurrences of a keyword. *)
Definition scoreWith (count : jsstring -> Z) (keywords : list jsstring) : Z :=
  fold_right Z.add 0
             (map (fun keyword => count keyword * weightAsStated keyword)
                  keywords).

Section Runtime.

Variable toLowerCase : jsstring -> jsstring.

(** The score of a keyword list as the specification words it: the sum,
    over the keywords, of the number of occurrences of the lower-cased
    keyword in the text times the weight of the keyword. *)
Definition scoreAsStated (text : jsstring) (keywords : list jsstring) : Z :=
  fold_right Z.add 0
             (map (fun keyword =>
                     matchCount (toLowerCase keyword) text
                     * getKeywordWeight keyword)
                  keywords).

(** The highest of the category scores. *)
Definition bestScoreAsStated (text : jsstring) : Z :=
  fold_right Z.max 0
             (map (fun entry => scoreAsStated text (snd entry))
                  keywordDictionary).

(** [min(best_score / max(text_length/100, 1), 1.0)] *)
Definition confidenceAsStated (bestScore textLength : Z) : Q :=
  Qmin (inject_Z bestScore / Qmax (inject_Z textLength / 100) 1) 1.

(** No keyword of any category occurs in the text. *)
Definition noKeyword (text : jsstring) : Prop :=
  forall category keywords keyword,
    In (category, keywords) keywordDictionary ->
    In keyword keywords ->
    JSString.includes text (toLowerCase keyword) = false.

Definition noKeywordb (text : jsstring) : bool :=
  forallb
    (fun entry : AICategory * list jsstring =>
       forallb
         (fun keyword => negb (JSString.includes text (toLowerCase keyword)))
         (snd entry))
    keywordDictionary.

End Runtime.

End ClassificationSpec.

(* ------------------------------------------------------------------ *)
(** * Vocabulary of the statements about the collector *)

Module CollectorSpec.

Import NewsCollectorService.

(** What a settled task contributes: its records when it succeeded,
    nothing when it failed. *)
Definition contribution (result : PromiseSettledResult (list NewsItem.t))
  : list NewsItem.t :=
  match result with
  | fulfilled value => value
  | rejected _ => []
  end.

Definition isFulfilled (result : PromiseSettledResult (list NewsItem.t)) : bool :=
  match result with
  | fulfilled _ => true
  | rejected _ => false
  end.

(** How many elements of an array satisfy a test. *)
Definition countWhere {A : Type} (p : A -> bool) (l : list A) : Z :=
  Z.of_nat (length (filter p l)).

(** The records of the successful sources, source after source. *)
Definition successfulRecords
           (tasks : list (RSSSource.t * PromiseSettledResult (list NewsItem.t)))
  : list NewsItem.t :=
  flat_map (fun task => contribution (snd task)) tasks.

End CollectorSpec.

(* ------------------------------------------------------------------ *)
(** * Vocabulary of the statements about the scheduler *)

Module SchedulerSpec.

Import SchedulerService.

(** The result of a trigger that finds a collection in flight, with the
    error string of the specification ... *)
Definition conflictAsStated : RunResult :=
  {| success := false;
     itemsCollected := 0;
     duration := 0;
     error := Some (js "already in progress") |}.

(** ... and with the error string of the code and of its test suite. *)
Definition conflict : RunResult :=
  {| success := false;
     itemsCollected := 0;
     duration := 0;
     error := Some (js "Collection already in progress") |}.

End SchedulerSpec.

(* ================================================================== *)
(** * Facts about the helpers *)

Module JSStringFacts.

Import JSString.

Lemma eqb_eq (a b : jsstring) : eqb a b = true <-> a = b.
Proof.
  revert b; induction a as [|x a IH]; intros [|y b]; simpl;
    try (split; [discriminate | discriminate]); try tauto.
  rewrite andb_true_iff, N.eqb_eq, IH. split.
  - intros [-> ->]; reflexivity.
  - intros H; inversion H; auto.
Qed.

Lemma eqb_refl (a : jsstring) : eqb a a = true.
Proof. apply eqb_eq; reflexivity. Qed.

Lemma eqb_neq (a b : jsstring) : eqb a b = false <-> a <> b.
Proof.
  rewrite <- eqb_eq. destruct (eqb a b); split; congruence.
Qed.

Lemma eqb_sym (a b : jsstring) : eqb a b = eqb b a.
Proof.
  destruct (eqb a b) eqn:E.
  - apply eqb_eq in E; subst; symmetry; apply eqb_refl.
  - symmetry. apply eqb_neq. apply eqb_neq in E. congruence.
Qed.

End JSStringFacts.

Module AICategoryFacts.

Import AICategories.

Lemma category_eqb_eq (a b : AICategory) : eqb a b = true <-> a = b.
Proof. destruct a, b; simpl; split; congruence. Qed.

End AICategoryFacts.

Module JSArrayFacts.

Import JSArray.

Section Sort.
Context {A : Type}.
Variable before : A -> A -> bool.
Hypothesis before_total : forall a b, before a b = true \/ before b a = true.
Hypothesis before_trans :
  forall a b c, before a b = true -> before b c = true -> before a c = true.

Local Abbreviation ordered := (fun a b => before a b = true).

Lemma insert_perm (x : A) (l : list A) :
  Permutation (insert before x l) (x :: l).
Proof.
  induction l as [|y r IH]; simpl.
  - reflexivity.
  - destruct (before x y).
    + reflexivity.
    + rewrite IH. apply perm_swap.
Qed.

Lemma sort_perm (l : list A) : Permutation (sort before l) l.
Proof.
  induction l as [|x r IH]; simpl.
  - reflexivity.
  - rewrite insert_perm. now apply perm_skip.
Qed.

Lemma sort_length (l : list A) : length (sort before l) = length l.
Proof. apply Permutation_length, sort_perm. Qed.

Lemma sort_In (x : A) (l : list A) : In x (sort before l) <-> In x l.
Proof.
  split; apply Permutation_in; [ | symmetry ]; apply sort_perm.
Qed.

Lemma insert_sorted (x : A) (l : list A) :
  StronglySorted ordered l -> StronglySorted ordered (insert before x l).
Proof.
  induction 1 as [|y r Hr IH Hy]; simpl.
  - constructor; constructor.
  - destruct (before x y) eqn:E.
    + constructor.
      * constructor; assumption.
      * constructor; [assumption|].
        rewrite Forall_forall in *. intros z Hz.
        eapply before_trans; eauto.
    + constructor; [assumption|].
      rewrite Forall_forall in *. intros z Hz.
      apply (Permutation_in _ (insert_perm x r)) in Hz.
      destruct Hz as [<- | Hz]; [|auto].
      destruct (before_total x y) as [H|H]; congruence.
Qed.

Lemma sort_sorted (l : list A) : StronglySorted ordered (sort before l).
Proof.
  induction l as [|x r IH]; simpl.
  - constructor.
  - now apply insert_sorted.
Qed.

(** The first element of the sorted array goes before every element. *)
Lemma sort_head (l : list A) (x : A) (r : list A) :
  sort before l = x :: r ->
  In x l /\ forall y, In y l -> before x y = true.
Proof.
  intros E. split.
  - apply sort_In. rewrite E. now left.
  - intros y Hy. apply sort_In in Hy. rewrite E in Hy.
    pose proof (sort_sorted l) as S. rewrite E in S.
    inversion S as [|? ? _ Hall]; subst.
    destruct Hy as [<- | Hy].
    + destruct (before_total x x); assumption.
    + rewrite Forall_forall in Hall. auto.
Qed.

Lemma sort_nil (l : list A) : sort before l = [] -> l = [].
Proof.
  intros E. apply Permutation_nil. rewrite <- E. apply sort_perm.
Qed.

End Sort.

Section Stable.
Context {A : Type}.
Variable key : A -> Z.
Variable up : bool.

Lemma byKey_total a b : byKey key up a b = true \/ byKey key up b a = true.
Proof. unfold byKey; destruct up; rewrite !Z.leb_le; lia. Qed.

Lemma byKey_trans a b c :
  byKey key up a b = true -> byKey key up b c = true ->
  byKey key up a c = true.
Proof. unfold byKey; destruct up; rewrite !Z.leb_le; lia. Qed.

Lemma insert_stable (k : Z) (x : A) (l : list A) :
  filter (fun a => key a =? k) (insert (byKey key up) x l)
  = filter (fun a => key a =? k) (x :: l).
Proof.
  induction l as [|y r IH]; simpl in *.
  - reflexivity.
  - destruct (byKey key up x y) eqn:E; simpl.
    + reflexivity.
    + rewrite IH.
      destruct (key x =? k) eqn:Ex, (key y =? k) eqn:Ey; try reflexivity.
      apply Z.eqb_eq in Ex, Ey. unfold byKey in E.
      destruct up; apply Z.leb_gt in E; lia.
Qed.

(** The sort is stable: elements with equal keys keep their order. *)
Lemma sort_stable (k : Z) (l : list A) :
  filter (fun a => key a =? k) (sort (byKey key up) l)
  = filter (fun a => key a =? k) l.
Proof.
  induction l as [|x r IH]; simpl.
  - reflexivity.
  - rewrite insert_stable. simpl. now rewrite IH.
Qed.

End Stable.

Lemma slice_from {A : Type} (l : list A) (start : Z) :
  0 <= start -> slice l start None = skipn (Z.to_nat start) l.
Proof.
  intros H. unfold slice, relativeIndex.
  destruct (start <? 0) eqn:E; [apply Z.ltb_lt in E; lia|].
  destruct (Z.le_gt_cases start (Z.of_nat (length l))) as [Hle|Hgt].
  - rewrite Z.min_l by lia.
    rewrite firstn_all2; [reflexivity|].
    rewrite length_skipn. lia.
  - rewrite Z.min_r by lia.
    rewrite Nat2Z.id, skipn_all. rewrite Z.sub_diag. simpl.
    rewrite skipn_all2; [reflexivity | lia].
Qed.

Lemma slice_upto {A : Type} (l : list A) (n : Z) :
  0 <= n -> slice l 0 (Some n) = firstn (Z.to_nat n) l.
Proof.
  intros H. unfold slice, relativeIndex.
  change (0 <? 0) with false. cbv iota.
  destruct (n <? 0) eqn:E; [apply Z.ltb_lt in E; lia|].
  replace (Z.min 0 (Z.of_nat (length l))) with 0 by lia.
  change (Z.to_nat 0) with O. rewrite skipn_O, Z.sub_0_r.
  destruct (Z.le_gt_cases n (Z.of_nat (length l))) as [Hle|Hgt].
  - rewrite Z.min_l by lia. reflexivity.
  - rewrite Z.min_r by lia. rewrite Nat2Z.id.
    rewrite !firstn_all2; [reflexivity | lia | lia].
Qed.

End JSArrayFacts.

Module JSMapFacts.

Import JSMap.

Section Facts.
Context {V : Type}.
Implicit Types (m : JSMap.t V) (k : jsstring) (v : V).

Lemma get_set_same k v m : get k (set k v m) = Some v.
Proof.
  induction m as [|[k' v'] r IH]; simpl.
  - now rewrite JSStringFacts.eqb_refl.
  - destruct (JSString.eqb k k') eqn:E; simpl; rewrite ?JSStringFacts.eqb_refl, ?E; auto.
Qed.

Lemma get_set_other k k' v m : k <> k' -> get k' (set k v m) = get k' m.
Proof.
  intros N. induction m as [|[k0 v0] r IH]; simpl.
  - destruct (JSString.eqb k' k) eqn:E; [|reflexivity].
    apply JSStringFacts.eqb_eq in E. congruence.
  - destruct (JSString.eqb k k0) eqn:E; simpl.
    + apply JSStringFacts.eqb_eq in E. subst k0.
      destruct (JSString.eqb k' k) eqn:E'; [|reflexivity].
      apply JSStringFacts.eqb_eq in E'. congruence.
    + now rewrite IH.
Qed.

Lemma get_In k v m : get k m = Some v -> In (k, v) m.
Proof.
  induction m as [|[k' v'] r IH]; simpl; [discriminate|].
  destruct (JSString.eqb k k') eqn:E.
  - apply JSStringFacts.eqb_eq in E. intros [= ->]. subst. now left.
  - auto.
Qed.

Lemma get_None k m : get k m = None <-> ~ In k (keys m).
Proof.
  induction m as [|[k' v'] r IH]; simpl; [tauto|].
  destruct (JSString.eqb k k') eqn:E.
  - apply JSStringFacts.eqb_eq in E. subst. split; [discriminate | tauto].
  - apply JSStringFacts.eqb_neq in E. rewrite IH. split; [|tauto].
    intros H [H'|H']; [congruence | tauto].
Qed.

Lemma has_true k m : has k m = true <-> In k (keys m).
Proof.
  unfold has. pose proof (get_None k m) as H.
  destruct (get k m); split; intros; try discriminate; auto.
  - destruct (in_dec (list_eq_dec N.eq_dec) k (keys m)); [assumption|].
    apply H in n. discriminate.
  - exfalso. now apply (proj1 H).
Qed.

Lemma In_get k v m : wf m -> In (k, v) m -> get k m = Some v.
Proof.
  unfold wf. induction m as [|[k' v'] r IH]; simpl; [tauto|].
  intros W. inversion W as [|? ? Hn Hr]; subst.
  intros [[= -> ->] | H].
  - now rewrite JSStringFacts.eqb_refl.
  - destruct (JSString.eqb k k') eqn:E; [|auto].
    apply JSStringFacts.eqb_eq in E. subst. exfalso. apply Hn.
    change k' with (fst (k', v)). now apply in_map.
Qed.

Lemma set_fresh k v m : get k m = None -> set k v m = m ++ [(k, v)].
Proof.
  induction m as [|[k' v'] r IH]; simpl; [reflexivity|].
  destruct (JSString.eqb k k'); [discriminate|].
  intros H. now rewrite IH.
Qed.

Lemma In_set e k v m : In e (set k v m) -> e = (k, v) \/ In e m.
Proof.
  induction m as [|[k' v'] r IH]; simpl.
  - intros [<-|[]]. now left.
  - destruct (JSString.eqb k k'); simpl.
    + intros [<-|H]; auto.
    + intros [<-|H]; auto. destruct (IH H); auto.
Qed.

Lemma keys_set_present k v m :
  get k m <> None -> keys (set k v m) = keys m.
Proof.
  induction m as [|[k' v'] r IH]; simpl; [congruence|].
  destruct (JSString.eqb k k') eqn:E; simpl.
  - apply JSStringFacts.eqb_eq in E. now subst.
  - intros H. now rewrite IH.
Qed.

Lemma wf_set k v m : wf m -> wf (set k v m).
Proof.
  unfold wf. intros W. destruct (get k m) eqn:G.
  - rewrite keys_set_present; [assumption | congruence].
  - rewrite set_fresh by assumption. unfold keys. rewrite map_app. simpl.
    apply NoDup_app; [assumption | repeat constructor; simpl; tauto | ].
    intros x Hx [<-|[]]. apply get_None in G. contradiction.
Qed.

Lemma keys_filter_incl (p : jsstring * V -> bool) m :
  incl (keys (filter p m)) (keys m).
Proof.
  intros k H. unfold keys in *. apply in_map_iff in H.
  destruct H as [e [<- He]]. apply filter_In in He. apply in_map. tauto.
Qed.

Lemma wf_filter (p : jsstring * V -> bool) m : wf m -> wf (filter p m).
Proof.
  unfold wf. induction m as [|[k v] r IH]; simpl; [auto|].
  intros W. inversion W as [|? ? Hn Hr]; subst.
  destruct (p (k, v)); simpl; [|auto].
  constructor; [|auto]. intros H. apply Hn.
  now apply (keys_filter_incl p r).
Qed.

Lemma wf_delete k m : wf m -> wf (delete k m).
Proof. apply wf_filter. Qed.

Lemma get_delete_same k m : get k (delete k m) = None.
Proof.
  apply get_None. unfold delete, keys. intros H.
  apply in_map_iff in H. destruct H as [[k' v] [E H]].
  apply filter_In in H. simpl in *. subst.
  rewrite JSStringFacts.eqb_refl in H. destruct H; discriminate.
Qed.

Lemma In_delete e k m : In e (delete k m) <-> In e m /\ fst e <> k.
Proof.
  unfold delete. rewrite filter_In, negb_true_iff, JSStringFacts.eqb_neq.
  intuition congruence.
Qed.

Lemma get_delete_other k k' m : k <> k' -> get k' (delete k m) = get k' m.
Proof.
  intros N. induction m as [|[k0 v0] r IH]; simpl; [reflexivity|].
  destruct (JSString.eqb k k0) eqn:E; simpl.
  - apply JSStringFacts.eqb_eq in E. subst k0.
    destruct (JSString.eqb k' k) eqn:E'; [|assumption].
    apply JSStringFacts.eqb_eq in E'. congruence.
  - now rewrite IH.
Qed.

(** Deleting a present key makes the map shorter. *)
Lemma length_delete_lt k m :
  In k (keys m) -> (length (delete k m) < length m)%nat.
Proof.
  unfold delete. induction m as [|[k' v'] r IH]; simpl; [tauto|].
  intros [->|H].
  - rewrite JSStringFacts.eqb_refl. simpl.
    pose proof (filter_length_le (fun e => negb (JSString.eqb k (fst e))) r).
    lia.
  - specialize (IH H).
    destruct (negb (JSString.eqb k k')); simpl; lia.
Qed.

(** In a map, deleting a present key removes exactly one entry. *)
Lemma length_delete_wf k m :
  wf m -> In k (keys m) -> S (length (delete k m)) = length m.
Proof.
  unfold wf, delete. induction m as [|[k' v'] r IH]; simpl; [tauto|].
  intros W. inversion W as [|? ? Hn Hr]; subst. intros [->|H].
  - rewrite JSStringFacts.eqb_refl. simpl. f_equal.
    f_equal. clear IH W Hr. induction r as [|[k1 v1] r IH]; simpl; [reflexivity|].
    simpl in Hn. destruct (JSString.eqb k k1) eqn:E.
    + apply JSStringFacts.eqb_eq in E. subst. tauto.
    + simpl. f_equal. apply IH. tauto.
  - destruct (JSString.eqb k k') eqn:E.
    + apply JSStringFacts.eqb_eq in E. subst. contradiction.
    + simpl. f_equal. now apply IH.
Qed.

End Facts.

End JSMapFacts.

(* ================================================================== *)
(** * The store *)

Module StorageFacts.

Import StorageService StorageSpec.

Section Service.

Context {host : JSDate.Host}.
Variable maxItems : Z.
Variable maxAgeInDays : Z.

Local Abbreviation isDuplicate := (StorageService.isDuplicate).
Local Abbreviation cleanupOldItems := (StorageService.cleanupOldItems maxAgeInDays).
Local Abbreviation cutoffDate := (StorageService.cutoffDate maxAgeInDays).
Local Abbreviation isOld := (StorageService.isOld maxAgeInDays).
Local Abbreviation enforceLoop := (StorageService.enforceLoop maxItems).
Local Abbreviation enforceMemoryLimit := (StorageService.enforceMemoryLimit maxItems).
Local Abbreviation saveNewsItem := (StorageService.saveNewsItem maxItems maxAgeInDays).
Local Abbreviation saveNewsItems := (StorageService.saveNewsItems maxItems maxAgeInDays).

Lemma isDuplicate_true (st : Store) (item : NewsItem.t) :
  isDuplicate st item = true <->
  getNewsItem st (NewsItem.id item) <> None
  \/ exists existing, In existing (JSMap.values st) /\ sameArticle existing item.
Proof.
  unfold StorageService.isDuplicate, getNewsItem, JSMap.has, sameArticle.
  destruct (JSMap.get (NewsItem.id item) st) eqn:G.
  - split; [left; discriminate | reflexivity].
  - rewrite existsb_exists. split.
    + intros [x [Hx H]]. right. exists x. split; [assumption|].
      apply andb_true_iff in H. destruct H as [H1 H2].
      apply JSStringFacts.eqb_eq in H1. apply Z.leb_le in H2. tauto.
    + intros [H | [x [Hx [H1 H2]]]]; [congruence|].
      exists x. split; [assumption|].
      apply andb_true_iff. split.
      * now apply JSStringFacts.eqb_eq.
      * now apply Z.leb_le.
Qed.

(** With every item under its own id, a stored item with the same [id]
    field is found by [has]. *)
Lemma keyed_same_id (st : Store) (item existing : NewsItem.t) :
  keyed st -> In existing (JSMap.values st) ->
  NewsItem.id existing = NewsItem.id item ->
  getNewsItem st (NewsItem.id item) <> None.
Proof.
  unfold keyed, getNewsItem, JSMap.values. intros K H E.
  apply in_map_iff in H. destruct H as [[k v] [<- H]].
  rewrite Forall_forall in K. specialize (K _ H). simpl in *.
  intros G. apply JSMapFacts.get_None in G. apply G.
  rewrite <- E, K. change k with (fst (k, v)). now apply in_map.
Qed.

Lemma saveNewsItem_duplicate now st item :
  isDuplicate st item = true -> saveNewsItem now st item = (false, st).
Proof. unfold StorageService.saveNewsItem. now intros ->. Qed.

Lemma saveNewsItem_fresh now st item :
  isDuplicate st item = false ->
  saveNewsItem now st item
  = (true,
     enforceMemoryLimit
       (cleanupOldItems now (JSMap.set (NewsItem.id item) item st))).
Proof. unfold StorageService.saveNewsItem. now intros ->. Qed.

Lemma saveNewsItem_true now st item :
  fst (saveNewsItem now st item) = true <-> isDuplicate st item = false.
Proof.
  unfold StorageService.saveNewsItem.
  destruct (isDuplicate st item); simpl; split; congruence.
Qed.

(** ** Retention *)

Lemma cleanupOldItems_In now st e :
  In e (cleanupOldItems now st) <->
  In e st /\ isOld now (snd e) = false.
Proof.
  unfold StorageService.cleanupOldItems.
  rewrite filter_In, negb_true_iff. tauto.
Qed.

Lemma cleanupOldItems_id now st :
  Forall (fun e => isOld now (snd e) = false) st ->
  cleanupOldItems now st = st.
Proof.
  unfold StorageService.cleanupOldItems.
  induction 1 as [|e r He Hr IH]; simpl; [reflexivity|].
  rewrite IH. now rewrite He.
Qed.

Lemma isOld_true now item :
  isOld now item = true <->
  exists cutoff,
    cutoffDate now = Some cutoff /\ NewsItem.pubDate item < cutoff.
Proof.
  unfold StorageService.isOld, JSDate.before.
  destruct (StorageService.cutoffDate maxAgeInDays now) as [cutoff|].
  - rewrite Z.ltb_lt. split.
    + intros H. exists cutoff. auto.
    + intros (c & [= <-] & H). exact H.
  - split; [discriminate|]. intros (c & H & _). discriminate.
Qed.

Lemma isOld_false now item cutoff :
  cutoffDate now = Some cutoff ->
  (isOld now item = false <-> cutoff <= NewsItem.pubDate item).
Proof.
  unfold StorageService.isOld, JSDate.before. intros ->.
  apply Z.ltb_ge.
Qed.

(** In a steady zone the cutoff lies within a day of [maxAgeInDays] days
    of 24 hours before [now]. *)
Lemma steady_cutoff now cutoff :
  steadyZone now maxAgeInDays ->
  cutoffDate now = Some cutoff ->
  now - (maxAgeInDays + 1) * msPerDay < cutoff
  <= now - (maxAgeInDays - 1) * msPerDay.
Proof.
  unfold steadyZone, StorageService.cutoffDate, JSDate.setDateBack,
    JSDate.TimeClip, JSDate.UTC, JSDate.LocalTime, msPerDay.
  intros Steady.
  destruct (Z.abs _ <=? 8640000000000000); [|discriminate].
  intros [= <-]. lia.
Qed.

(** On a host in the zone UTC the cutoff is [maxAgeInDays] days of 24
    hours before [now]. *)
Lemma utc_cutoff (days now : Z) :
  StorageService.cutoffDate (host := JSDate.utc) days now
  = JSDate.TimeClip (now - days * msPerDay).
Proof.
  unfold StorageService.cutoffDate, JSDate.setDateBack, JSDate.UTC,
    JSDate.LocalTime, msPerDay.
  cbn [JSDate.LocalTZA JSDate.utc]. f_equal. lia.
Qed.

(** ** Capacity *)

Lemma oldestFirst_byKey :
  oldestFirst
  = JSArray.byKey (fun e : jsstring * NewsItem.t => NewsItem.pubDate (snd e)) true.
Proof. reflexivity. Qed.

Lemma oldest_head (st : Store) id item rest :
  JSArray.sort oldestFirst st = (id, item) :: rest ->
  In (id, item) st
  /\ forall e, In e st -> NewsItem.pubDate item <= NewsItem.pubDate (snd e).
Proof.
  intros E. rewrite oldestFirst_byKey in E.
  apply JSArrayFacts.sort_head in E;
    [ | apply JSArrayFacts.byKey_total | apply JSArrayFacts.byKey_trans ].
  destruct E as [H1 H2]. split; [assumption|].
  intros e He. specialize (H2 e He). now apply Z.leb_le in H2.
Qed.

(** The loop needs at most one round per stored item. *)
Lemma enforceLoop_fuel (fuel fuel' : nat) (st : Store) :
  (length st <= fuel)%nat -> (length st <= fuel')%nat ->
  enforceLoop fuel st = enforceLoop fuel' st.
Proof.
  revert fuel' st. induction fuel as [|fuel IH]; intros fuel' st H H'.
  - destruct st; [|simpl in H; lia].
    destruct fuel'; simpl; [reflexivity|].
    now destruct (maxItems <? JSMap.size []).
  - destruct fuel' as [|fuel'].
    + destruct st; [|simpl in H'; lia]. simpl.
      now destruct (maxItems <? JSMap.size []).
    + simpl. destruct (maxItems <? JSMap.size st); [|reflexivity].
      destruct (JSArray.sort oldestFirst st) as [|[id item] rest] eqn:E;
        [reflexivity|].
      apply oldest_head in E. destruct E as [Hin _].
      assert (In id (JSMap.keys st))
        by (change id with (fst (id, item)); now apply in_map).
      pose proof (JSMapFacts.length_delete_lt id st H0).
      apply IH; lia.
Qed.

(** When the loop stops, its condition is false or it took the
    [break]: nothing is left to remove. *)
Lemma enforceMemoryLimit_done (st : Store) :
  JSMap.size (enforceMemoryLimit st) <= maxItems
  \/ enforceMemoryLimit st = [].
Proof.
  unfold StorageService.enforceMemoryLimit.
  remember (length st) as fuel eqn:F.
  assert (H : (length st <= fuel)%nat) by lia. clear F.
  revert st H. induction fuel as [|fuel IH]; intros st H.
  - destruct st; [|simpl in H; lia]. now right.
  - simpl. destruct (maxItems <? JSMap.size st) eqn:C.
    + destruct (JSArray.sort oldestFirst st) as [|[id item] rest] eqn:E.
      * right. eapply JSArrayFacts.sort_nil. exact E.
      * apply oldest_head in E. destruct E as [Hin _].
        assert (In id (JSMap.keys st))
          by (change id with (fst (id, item)); now apply in_map).
        pose proof (JSMapFacts.length_delete_lt id st H0).
        apply IH. lia.
    + left. now apply Z.ltb_ge in C.
Qed.

Lemma enforceMemoryLimit_size (st : Store) :
  0 <= maxItems -> JSMap.size (enforceMemoryLimit st) <= maxItems.
Proof.
  intros H. destruct (enforceMemoryLimit_done st) as [D|D]; [assumption|].
  rewrite D. assumption.
Qed.

Lemma enforceMemoryLimit_unfold (st : Store) :
  enforceMemoryLimit st
  = if maxItems <? JSMap.size st then
      match JSArray.sort oldestFirst st with
      | (id, _) :: _ => enforceMemoryLimit (JSMap.delete id st)
      | [] => st
      end
    else st.
Proof.
  unfold StorageService.enforceMemoryLimit.
  destruct (length st) as [|fuel] eqn:L.
  - destruct st; [|discriminate]. simpl.
    now destruct (maxItems <? JSMap.size []).
  - cbn [StorageService.enforceLoop].
    destruct (maxItems <? JSMap.size st); [|reflexivity].
    destruct (JSArray.sort oldestFirst st) as [|[id item] rest] eqn:E;
      [reflexivity|].
    apply oldest_head in E. destruct E as [Hin _].
    assert (H : In id (JSMap.keys st))
      by (change id with (fst (id, item)); now apply in_map).
    pose proof (JSMapFacts.length_delete_lt id st H).
    apply enforceLoop_fuel; lia.
Qed.

Lemma enforceMemoryLimit_within (st : Store) :
  JSMap.size st <= maxItems -> enforceMemoryLimit st = st.
Proof.
  intros H. rewrite enforceMemoryLimit_unfold.
  apply Z.ltb_ge in H. now rewrite H.
Qed.

Lemma evictsOldest_refl (st : Store) : evictsOldest st st.
Proof. split; [apply incl_refl | intros; contradiction]. Qed.

(** The loop removes oldest items only. *)
Lemma enforceMemoryLimit_evictsOldest (st : Store) :
  JSMap.wf st -> evictsOldest st (enforceMemoryLimit st).
Proof.
  remember (length st) as n eqn:L.
  assert (H : (length st <= n)%nat) by lia. clear L.
  revert st H. induction n as [|n IH]; intros st H W;
    rewrite enforceMemoryLimit_unfold;
    destruct (maxItems <? JSMap.size st); try apply evictsOldest_refl;
    destruct (JSArray.sort oldestFirst st) as [|[id item] rest] eqn:E;
    try apply evictsOldest_refl;
    apply oldest_head in E; destruct E as [Hin Hmin];
    assert (K : In id (JSMap.keys st))
      by (change id with (fst (id, item)); now apply in_map);
    pose proof (JSMapFacts.length_delete_lt id st K) as Hlt;
    [lia|].
  destruct (IH (JSMap.delete id st)) as [I1 I2];
    [lia | now apply JSMapFacts.wf_delete | ].
  assert (Sub : incl (JSMap.delete id st) st)
    by (intros e He; now apply JSMapFacts.In_delete in He).
  split.
  - intros e He. apply Sub, I1, He.
  - intros gone kept Hg Hng Hk.
    destruct (JSString.eqb (fst gone) id) eqn:Eg.
    + apply JSStringFacts.eqb_eq in Eg. destruct gone as [k v]. simpl in *. subst k.
      pose proof (JSMapFacts.In_get _ _ _ W Hg) as G1.
      pose proof (JSMapFacts.In_get _ _ _ W Hin) as G2.
      assert (v = item) by congruence. subst v.
      apply Hmin, Sub, I1, Hk.
    + apply JSStringFacts.eqb_neq in Eg. apply I2; [|assumption|assumption].
      apply JSMapFacts.In_delete. tauto.
Qed.

(** In a map the loop removes just as many items as exceed the limit. *)
Lemma enforceMemoryLimit_size_exact (st : Store) :
  JSMap.wf st -> 0 <= maxItems ->
  JSMap.size (enforceMemoryLimit st) = Z.min (JSMap.size st) maxItems.
Proof.
  intros W M. remember (length st) as n eqn:L.
  assert (H : (length st <= n)%nat) by lia. clear L.
  revert st H W. induction n as [|n IH]; intros st H W;
    rewrite enforceMemoryLimit_unfold;
    destruct (maxItems <? JSMap.size st) eqn:C;
    try (apply Z.ltb_ge in C; lia);
    apply Z.ltb_lt in C;
    (destruct (JSArray.sort oldestFirst st) as [|[id item] rest] eqn:E;
     [apply JSArrayFacts.sort_nil in E; subst st; unfold JSMap.size in *;
      simpl in *; lia|]);
    apply oldest_head in E; destruct E as [Hin Hmin];
    assert (K : In id (JSMap.keys st))
      by (change id with (fst (id, item)); now apply in_map);
    pose proof (JSMapFacts.length_delete_wf id st W K) as Hlen;
    [lia|].
  rewrite IH; [ | lia | now apply JSMapFacts.wf_delete ].
  unfold JSMap.size in *. lia.
Qed.

Lemma enforceMemoryLimit_incl (st : Store) : incl (enforceMemoryLimit st) st.
Proof.
  remember (length st) as n eqn:L.
  assert (H : (length st <= n)%nat) by lia. clear L.
  revert st H. induction n as [|n IH]; intros st H;
    rewrite enforceMemoryLimit_unfold;
    destruct (maxItems <? JSMap.size st); try apply incl_refl;
    destruct (JSArray.sort oldestFirst st) as [|[id item] rest] eqn:E;
    try apply incl_refl;
    apply oldest_head in E; destruct E as [Hin Hmin];
    assert (K : In id (JSMap.keys st))
      by (change id with (fst (id, item)); now apply in_map);
    pose proof (JSMapFacts.length_delete_lt id st K) as Hlt;
    [lia|].
  intros e He. apply IH in He; [|lia].
  now apply JSMapFacts.In_delete in He.
Qed.

Lemma enforceMemoryLimit_wf (st : Store) :
  JSMap.wf st -> JSMap.wf (enforceMemoryLimit st).
Proof.
  remember (length st) as n eqn:L.
  assert (H : (length st <= n)%nat) by lia. clear L.
  revert st H. induction n as [|n IH]; intros st H W;
    rewrite enforceMemoryLimit_unfold;
    destruct (maxItems <? JSMap.size st); try assumption;
    destruct (JSArray.sort oldestFirst st) as [|[id item] rest] eqn:E;
    try assumption;
    apply oldest_head in E; destruct E as [Hin Hmin];
    assert (K : In id (JSMap.keys st))
      by (change id with (fst (id, item)); now apply in_map);
    pose proof (JSMapFacts.length_delete_lt id st K) as Hlt;
    [lia|].
  apply IH; [lia | now apply JSMapFacts.wf_delete].
Qed.

(** ** One save *)

Lemma saveNewsItem_retention now st item e :
  fst (saveNewsItem now st item) = true ->
  In e (snd (saveNewsItem now st item)) ->
  isOld now (snd e) = false.
Proof.
  intros T. apply saveNewsItem_true in T.
  rewrite saveNewsItem_fresh by assumption. simpl. intros H.
  apply enforceMemoryLimit_incl in H.
  now apply cleanupOldItems_In in H.
Qed.

Lemma saveNewsItem_wf now st item :
  JSMap.wf st -> JSMap.wf (snd (saveNewsItem now st item)).
Proof.
  intros W. unfold StorageService.saveNewsItem.
  destruct (isDuplicate st item); simpl; [assumption|].
  apply enforceMemoryLimit_wf, JSMapFacts.wf_filter, JSMapFacts.wf_set, W.
Qed.

Lemma saveNewsItem_size now st item :
  0 <= maxItems -> JSMap.size st <= maxItems ->
  JSMap.size (snd (saveNewsItem now st item)) <= maxItems.
Proof.
  intros M H. unfold StorageService.saveNewsItem.
  destruct (isDuplicate st item); simpl; [assumption|].
  now apply enforceMemoryLimit_size.
Qed.

Lemma saveNewsItems_cons st now item rest :
  saveNewsItems st ((now, item) :: rest)
  = ((if fst (saveNewsItem now st item) then 1 else 0)
     + fst (saveNewsItems (snd (saveNewsItem now st item)) rest),
     snd (saveNewsItems (snd (saveNewsItem now st item)) rest)).
Proof.
  cbn [StorageService.saveNewsItems].
  destruct (saveNewsItem now st item) as [saved st'].
  cbn [fst snd]. now destruct (saveNewsItems st' rest).
Qed.

Lemma saveNewsItems_wf st batch :
  JSMap.wf st -> JSMap.wf (snd (saveNewsItems st batch)).
Proof.
  revert st. induction batch as [|[now item] rest IH]; intros st W; simpl.
  - assumption.
  - pose proof (saveNewsItem_wf now st item W) as W'.
    destruct (saveNewsItem now st item) as [saved st'].
    specialize (IH st' W').
    destruct (saveNewsItems st' rest). assumption.
Qed.

Lemma saveNewsItems_size st batch :
  0 <= maxItems -> JSMap.size st <= maxItems ->
  JSMap.size (snd (saveNewsItems st batch)) <= maxItems.
Proof.
  intros M. revert st.
  induction batch as [|[now item] rest IH]; intros st H; simpl.
  - assumption.
  - pose proof (saveNewsItem_size now st item M H) as H'.
    destruct (saveNewsItem now st item) as [saved st'].
    specialize (IH st' H').
    destruct (saveNewsItems st' rest). assumption.
Qed.

Lemma updateNewsItem_keys st id updates :
  JSMap.keys (snd (updateNewsItem st id updates)) = JSMap.keys st.
Proof.
  unfold updateNewsItem. destruct (JSMap.get id st) eqn:G; simpl.
  - apply JSMapFacts.keys_set_present. congruence.
  - reflexivity.
Qed.

Lemma deleteNewsItem_size st id :
  JSMap.size (snd (deleteNewsItem st id)) <= JSMap.size st.
Proof.
  unfold deleteNewsItem, JSMap.delete, JSMap.size. simpl.
  pose proof (filter_length_le
                (fun e : jsstring * NewsItem.t =>
                   negb (JSString.eqb id (fst e))) st).
  lia.
Qed.

(** ** Every state of a service object *)

Lemma reachable_wf st : reachable maxItems maxAgeInDays st -> JSMap.wf st.
Proof.
  induction 1.
  - constructor.
  - now apply saveNewsItem_wf.
  - now apply saveNewsItems_wf.
  - unfold JSMap.wf. now rewrite updateNewsItem_keys.
  - now apply JSMapFacts.wf_delete.
  - constructor.
Qed.

Lemma reachable_size st :
  0 <= maxItems -> reachable maxItems maxAgeInDays st ->
  JSMap.size st <= maxItems.
Proof.
  intros M. induction 1.
  - assumption.
  - now apply saveNewsItem_size.
  - now apply saveNewsItems_size.
  - pose proof (f_equal (@length _) (updateNewsItem_keys st id updates)) as E.
    unfold JSMap.keys in E. rewrite !length_map in E.
    unfold JSMap.size in *. rewrite E. assumption.
  - pose proof (deleteNewsItem_size st id). lia.
  - assumption.
Qed.

(** The first save into an empty store. *)
Lemma saveNewsItem_first now item :
  saveNewsItem now [] item
  = (true,
     if negb (isOld now item) && (1 <=? maxItems)
     then [(NewsItem.id item, item)] else []).
Proof.
  unfold StorageService.saveNewsItem. simpl. f_equal.
  unfold StorageService.cleanupOldItems. simpl.
  destruct (isOld now item); simpl.
  - rewrite enforceMemoryLimit_unfold. now destruct (maxItems <? JSMap.size []).
  - rewrite enforceMemoryLimit_unfold.
    change (JSMap.size [(NewsItem.id item, item)]) with 1.
    destruct (Z.leb_spec 1 maxItems) as [L|L].
    + apply Z.ltb_ge in L. now rewrite L.
    + apply Z.ltb_lt in L. rewrite L. simpl.
      rewrite JSStringFacts.eqb_refl. simpl.
      rewrite enforceMemoryLimit_unfold.
      now destruct (maxItems <? JSMap.size []).
Qed.

Lemma isDuplicate_false (st : Store) (item : NewsItem.t) :
  getNewsItem st (NewsItem.id item) = None ->
  (forall existing, In existing (JSMap.values st) -> ~ sameArticle existing item) ->
  isDuplicate st item = false.
Proof.
  intros G N. destruct (isDuplicate st item) eqn:D; [|reflexivity].
  apply isDuplicate_true in D. destruct D as [D | [x [Hx S]]].
  - contradiction.
  - exfalso. exact (N x Hx S).
Qed.

(** ** Items under their own id *)

Lemma keyed_set st item :
  keyed st -> keyed (JSMap.set (NewsItem.id item) item st).
Proof.
  unfold keyed. rewrite !Forall_forall. intros K e He.
  apply JSMapFacts.In_set in He. destruct He as [-> | He]; auto.
Qed.

Lemma keyed_incl st st' : incl st' st -> keyed st -> keyed st'.
Proof.
  unfold keyed. rewrite !Forall_forall. auto.
Qed.

Lemma saveNewsItem_keyed now st item :
  keyed st -> keyed (snd (saveNewsItem now st item)).
Proof.
  intros K. unfold StorageService.saveNewsItem.
  destruct (isDuplicate st item); cbn [snd]; [assumption|].
  eapply keyed_incl; [apply enforceMemoryLimit_incl|].
  apply (keyed_incl (JSMap.set (NewsItem.id item) item st));
    [ | apply keyed_set, K ].
  intros e He. apply cleanupOldItems_In in He. tauto.
Qed.

Lemma deleteNewsItem_keyed st id :
  keyed st -> keyed (snd (deleteNewsItem st id)).
Proof.
  apply keyed_incl. intros e He. simpl in He.
  now apply JSMapFacts.In_delete in He.
Qed.

(** An update that leaves the [id] alone keeps items under their id. *)
Lemma updateNewsItem_keyed st id updates :
  PartialNewsItem.id updates = None ->
  keyed st -> keyed (snd (updateNewsItem st id updates)).
Proof.
  intros U K. unfold updateNewsItem.
  destruct (JSMap.get id st) as [existing|] eqn:G; simpl; [|assumption].
  unfold keyed in *. rewrite Forall_forall in *. intros e He.
  apply JSMapFacts.In_set in He. destruct He as [-> | He]; [|auto].
  simpl. unfold PartialNewsItem.spread. simpl. rewrite U. simpl.
  apply JSMapFacts.get_In in G. exact (K _ G).
Qed.

End Service.

End StorageFacts.

Module StorageTheorems.

Import StorageService StorageSpec StorageFacts.

(** A save that is not a duplicate of anything stored, of an item older
    than the retention age, returns [true] and leaves the item out. *)
Lemma saveNewsItem_purges_old_item
      {host : JSDate.Host} maxItems maxAgeInDays now st item :
  isDuplicate st item = false ->
  isOld maxAgeInDays now item = true ->
  fst (saveNewsItem maxItems maxAgeInDays now st item) = true
  /\ getNewsItem (snd (saveNewsItem maxItems maxAgeInDays now st item))
                 (NewsItem.id item) = None.
Proof.
  intros D Old. rewrite saveNewsItem_fresh by assumption. simpl.
  split; [reflexivity|].
  unfold getNewsItem. apply JSMapFacts.get_None. intros H.
  unfold JSMap.keys in H. apply in_map_iff in H.
  destruct H as [[k v] [E H]]. simpl in E. subst k.
  apply enforceMemoryLimit_incl, cleanupOldItems_In in H.
  destruct H as [H Fresh]. simpl in Fresh.
  apply JSMapFacts.In_set in H. destruct H as [H|H].
  - inversion H; subst. congruence.
  - unfold isDuplicate in D.
    destruct (JSMap.has (NewsItem.id item) st) eqn:Has; [discriminate|].
    assert (In (NewsItem.id item) (JSMap.keys st))
      by (change (NewsItem.id item) with (fst (NewsItem.id item, v));
          now apply in_map).
    apply JSMapFacts.has_true in H0. congruence.
Qed.

(** ** Three saves into a store of two *)

Section ThreeSaves.

Context {host : JSDate.Host}.
Variable maxAgeInDays : Z.
Variables t1 t2 t3 : Z.
Variables a b c : NewsItem.t.

Hypothesis clock : t1 <= t2 <= t3.
Hypothesis recent :
  forall t x, In t [t1; t2; t3] -> In x [a; b; c] ->
              isOld maxAgeInDays t x = false.
Hypothesis distinct_ab : distinctArticles a b.
Hypothesis distinct_ac : distinctArticles a c.
Hypothesis distinct_bc : distinctArticles b c.

Let ea := (NewsItem.id a, a).
Let eb := (NewsItem.id b, b).
Let ec := (NewsItem.id c, c).

Lemma recent_at t x :
  In t [t1; t2; t3] -> In x [a; b; c] ->
  isOld maxAgeInDays t x = false.
Proof. apply recent. Qed.

Lemma three_saves :
  saveNewsItems 2 maxAgeInDays [] [(t1, a); (t2, b); (t3, c)]
  = (3, enforceMemoryLimit 2 [ea; eb; ec]).
Proof.
  destruct distinct_ab as [Iab Sab], distinct_ac as [Iac Sac],
           distinct_bc as [Ibc Sbc].
  assert (E1 : saveNewsItem 2 maxAgeInDays t1 [] a = (true, [ea])).
  { rewrite saveNewsItem_first.
    rewrite (recent_at t1 a) by (simpl; auto). reflexivity. }
  assert (D2 : isDuplicate [ea] b = false).
  { apply isDuplicate_false.
    - unfold getNewsItem. simpl.
      destruct (JSString.eqb (NewsItem.id b) (NewsItem.id a)) eqn:E;
        [|reflexivity].
      apply JSStringFacts.eqb_eq in E. congruence.
    - intros x [<-|[]]. assumption. }
  assert (S2 : JSMap.set (NewsItem.id b) b [ea] = [ea; eb]).
  { simpl. destruct (JSString.eqb (NewsItem.id b) (NewsItem.id a)) eqn:E;
      [|reflexivity].
    apply JSStringFacts.eqb_eq in E. congruence. }
  assert (C2 : cleanupOldItems maxAgeInDays t2 [ea; eb] = [ea; eb]).
  { apply cleanupOldItems_id. repeat constructor; simpl;
      apply (recent_at t2); simpl; auto. }
  assert (E2 : saveNewsItem 2 maxAgeInDays t2 [ea] b = (true, [ea; eb])).
  { rewrite (saveNewsItem_fresh 2 maxAgeInDays t2 [ea] b D2), S2, C2.
    rewrite (enforceMemoryLimit_within 2 [ea; eb])
      by (unfold JSMap.size; simpl; lia).
    reflexivity. }
  assert (D3 : isDuplicate [ea; eb] c = false).
  { apply isDuplicate_false.
    - unfold getNewsItem. simpl.
      destruct (JSString.eqb (NewsItem.id c) (NewsItem.id a)) eqn:E.
      + apply JSStringFacts.eqb_eq in E. congruence.
      + destruct (JSString.eqb (NewsItem.id c) (NewsItem.id b)) eqn:E';
          [|reflexivity].
        apply JSStringFacts.eqb_eq in E'. congruence.
    - intros x [<-|[<-|[]]]; assumption. }
  assert (S3 : JSMap.set (NewsItem.id c) c [ea; eb] = [ea; eb; ec]).
  { simpl. destruct (JSString.eqb (NewsItem.id c) (NewsItem.id a)) eqn:E.
    - apply JSStringFacts.eqb_eq in E. congruence.
    - destruct (JSString.eqb (NewsItem.id c) (NewsItem.id b)) eqn:E';
        [|reflexivity].
      apply JSStringFacts.eqb_eq in E'. congruence. }
  assert (C3 : cleanupOldItems maxAgeInDays t3 [ea; eb; ec] = [ea; eb; ec]).
  { apply cleanupOldItems_id. repeat constructor; simpl;
      apply (recent_at t3); simpl; auto. }
  assert (E3 : saveNewsItem 2 maxAgeInDays t3 [ea; eb] c
               = (true, enforceMemoryLimit 2 [ea; eb; ec])).
  { now rewrite (saveNewsItem_fresh 2 maxAgeInDays t3 [ea; eb] c D3), S3, C3. }
  rewrite saveNewsItems_cons, E1. cbn [fst snd].
  rewrite saveNewsItems_cons, E2. cbn [fst snd].
  rewrite saveNewsItems_cons, E3. cbn [fst snd].
  reflexivity.
Qed.

Hypothesis pub_ab : NewsItem.pubDate a <> NewsItem.pubDate b.
Hypothesis pub_ac : NewsItem.pubDate a <> NewsItem.pubDate c.
Hypothesis pub_bc : NewsItem.pubDate b <> NewsItem.pubDate c.

(** The oldest of the three is evicted, whichever it is. *)
Lemma three_saves_evict (o : NewsItem.t) :
  In o [a; b; c] ->
  (forall x, In x [a; b; c] -> NewsItem.pubDate o <= NewsItem.pubDate x) ->
  enforceMemoryLimit 2 [ea; eb; ec]
  = JSMap.delete (NewsItem.id o) [ea; eb; ec].
Proof.
  intros Ho Min.
  rewrite enforceMemoryLimit_unfold.
  change (2 <? JSMap.size [ea; eb; ec]) with true. cbv iota.
  destruct (JSArray.sort oldestFirst [ea; eb; ec]) as [|[id item] rest] eqn:E.
  - apply JSArrayFacts.sort_nil in E. discriminate.
  - apply oldest_head in E. destruct E as [Hin Hmin].
    assert (item = o /\ id = NewsItem.id o) as [-> ->].
    { assert (Hle : NewsItem.pubDate item <= NewsItem.pubDate o).
      { destruct Ho as [<-|[<-|[<-|[]]]].
        - apply (Hmin ea). simpl; auto.
        - apply (Hmin eb). simpl; auto.
        - apply (Hmin ec). simpl; auto. }
      assert (Hin' : In item [a; b; c]).
      { destruct Hin as [H|[H|[H|[]]]]; inversion H; simpl; auto. }
      specialize (Min item Hin').
      assert (Heq : NewsItem.pubDate item = NewsItem.pubDate o) by lia.
      assert (item = o).
      { destruct Hin' as [<-|[<-|[<-|[]]]], Ho as [<-|[<-|[<-|[]]]];
          try reflexivity; congruence. }
      subst item. split; [reflexivity|].
      destruct Hin as [H|[H|[H|[]]]]; inversion H; congruence. }
    apply enforceMemoryLimit_within.
    assert (K : In (NewsItem.id o) (JSMap.keys [ea; eb; ec]))
      by (change (NewsItem.id o) with (fst (NewsItem.id o, o));
          now apply in_map).
    pose proof (JSMapFacts.length_delete_lt (NewsItem.id o) [ea; eb; ec] K) as L.
    unfold JSMap.size. change (length [ea; eb; ec]) with 3%nat in L. lia.
Qed.

Lemma three_saves_result (o : NewsItem.t) :
  In o [a; b; c] ->
  (forall x, In x [a; b; c] -> NewsItem.pubDate o <= NewsItem.pubDate x) ->
  let st3 :=
    snd (saveNewsItems 2 maxAgeInDays [] [(t1, a); (t2, b); (t3, c)]) in
  getItemCount st3 = 2
  /\ getNewsItem st3 (NewsItem.id o) = None
  /\ forall x, In x [a; b; c] ->
               NewsItem.pubDate o < NewsItem.pubDate x ->
               getNewsItem st3 (NewsItem.id x) = Some x.
Proof.
  intros Ho Min st3. subst st3.
  rewrite three_saves. cbn [snd].
  rewrite (three_saves_evict o Ho Min).
  destruct distinct_ab as [Iab _], distinct_ac as [Iac _],
           distinct_bc as [Ibc _].
  assert (W : JSMap.wf [ea; eb; ec]).
  { unfold JSMap.wf. simpl. repeat constructor; simpl; intuition congruence. }
  split; [|split].
  - assert (K : In (NewsItem.id o) (JSMap.keys [ea; eb; ec])).
    { destruct Ho as [<-|[<-|[<-|[]]]]; simpl; auto. }
    pose proof (JSMapFacts.length_delete_wf _ _ W K) as L.
    unfold getItemCount, JSMap.size.
    change (length [ea; eb; ec]) with 3%nat in L. lia.
  - apply JSMapFacts.get_delete_same.
  - intros x Hx Lt. unfold getNewsItem.
    assert (N : NewsItem.id o <> NewsItem.id x).
    { destruct Ho as [<-|[<-|[<-|[]]]], Hx as [<-|[<-|[<-|[]]]];
        try lia; congruence. }
    rewrite JSMapFacts.get_delete_other by assumption.
    apply JSMapFacts.In_get; [assumption|].
    destruct Hx as [<-|[<-|[<-|[]]]]; simpl; auto.
Qed.

End ThreeSaves.

(** ** The query *)

Lemma filter_twice {A : Type} (p q : A -> bool) (l : list A) :
  filter p (filter q l) = filter (fun x => q x && p x) l.
Proof.
  induction l as [|x r IH]; simpl; [reflexivity|].
  destruct (q x); simpl; [|assumption].
  destruct (p x); now rewrite IH.
Qed.

Lemma filter_true {A : Type} (l : list A) : filter (fun _ => true) l = l.
Proof. induction l as [|x r IH]; simpl; congruence. Qed.

Lemma newestFirst_byKey :
  newestFirst = JSArray.byKey NewsItem.pubDate false.
Proof. reflexivity. Qed.

Lemma sort_newestToOldest (items : list NewsItem.t) :
  newestToOldest (JSArray.sort newestFirst items).
Proof.
  unfold newestToOldest.
  pose proof (JSArrayFacts.sort_sorted
                newestFirst
                (JSArrayFacts.byKey_total NewsItem.pubDate false)
                (JSArrayFacts.byKey_trans NewsItem.pubDate false) items) as S.
  induction S as [|x r Sr IH Hx]; constructor.
  - assumption.
  - rewrite Forall_forall in *. intros y Hy.
    specialize (Hx y Hy). unfold newestFirst in Hx. now apply Z.leb_le in Hx.
Qed.

Lemma four_filters {A : Type} (c s a b : A -> bool) (l : list A) :
  filter s (filter b (filter a (filter c l)))
  = filter (fun x => c x && s x && a x && b x) l.
Proof.
  rewrite !filter_twice. apply filter_ext. intros x.
  destruct (c x), (s x), (a x), (b x); reflexivity.
Qed.

(** The four filters of [getNewsItems], taken together. *)
Lemma getNewsItems_unpaged (st : Store) (options : StorageFilterOptions) :
  limit options = None -> offset options = None ->
  getNewsItems st options
  = JSArray.sort newestFirst
                 (filter (passes (effective options)) (JSMap.values st)).
Proof.
  destruct options as [cat sd ed src lim off]. simpl. intros -> ->.
  unfold getNewsItems, passes, effective. simpl. f_equal.
  rewrite <- four_filters.
  destruct cat as [[|c]|], sd as [d1|], ed as [d2|], src as [[|u s]|];
    simpl; rewrite ?filter_true; reflexivity.
Qed.

Lemma getNewsItems_paged (st : Store) (options : StorageFilterOptions) :
  (forall o, offset options = Some o -> 0 <= o) ->
  (forall n, limit options = Some n -> 0 <= n) ->
  getNewsItems st options = queryAsStated st (effective options).
Proof.
  intros Ho Hn.
  pose proof (getNewsItems_unpaged
                st
                {| category := category options;
                   startDate := startDate options;
                   endDate := endDate options;
                   source := source options;
                   limit := None; offset := None |} eq_refl eq_refl) as U.
  destruct options as [cat sd ed src lim off]. simpl in *.
  unfold queryAsStated.
  change (passes (effective (Build_StorageFilterOptions cat sd ed src lim off)))
    with (passes (effective (Build_StorageFilterOptions cat sd ed src None None))).
  rewrite <- U. clear U. unfold getNewsItems. simpl.
  set (sorted := JSArray.sort newestFirst _).
  assert (P : match off with
              | Some o => if o =? 0 then sorted else JSArray.slice sorted o None
              | None => sorted
              end
              = match (match off with
                       | Some o => if o =? 0 then None else Some o
                       | None => None
                       end) with
                | Some o => skipn (Z.to_nat o) sorted
                | None => sorted
                end).
  { destruct off as [o|]; [|reflexivity].
    destruct (o =? 0); [reflexivity|].
    apply JSArrayFacts.slice_from. now apply Ho. }
  rewrite P. set (paged := match _ with Some o => skipn _ sorted | None => sorted end).
  destruct lim as [n|]; [|reflexivity].
  destruct (n =? 0); [reflexivity|].
  apply JSArrayFacts.slice_upto. now apply Hn.
Qed.

(** C1. Whatever the store and the item, [saveNewsItem] returns [false]
    and leaves the store as it was (nothing inserted, purged or evicted)
    when an item is already stored under the item's id, or when a stored
    item has the same link and a [pubDate] at most one hour away. Where
    every item is stored under its own id, a stored item with the same
    [id] field is rejected alike. In particular, when a first save into
    the empty store has stored the item, saving it again returns [false]
    and the store still holds that one item. *)
Theorem duplicate_save_rejected {host : JSDate.Host} :
  (forall maxItems maxAgeInDays now st item,
      getNewsItem st (NewsItem.id item) <> None
      \/ (exists existing,
             In existing (JSMap.values st) /\ sameArticle existing item) ->
      saveNewsItem maxItems maxAgeInDays now st item = (false, st))
  /\ (forall maxItems maxAgeInDays now st item existing,
         keyed st -> In existing (JSMap.values st) ->
         NewsItem.id existing = NewsItem.id item ->
         saveNewsItem maxItems maxAgeInDays now st item = (false, st))
  /\ (forall maxItems maxAgeInDays now1 now2 item,
         let st1 := snd (saveNewsItem maxItems maxAgeInDays now1 [] item) in
         getNewsItem st1 (NewsItem.id item) <> None ->
         saveNewsItem maxItems maxAgeInDays now2 st1 item = (false, st1)
         /\ getItemCount st1 = 1).
Proof.
  split; [|split].
  - intros maxItems maxAgeInDays now st item H.
    apply saveNewsItem_duplicate, isDuplicate_true, H.
  - intros maxItems maxAgeInDays now st item existing K H E.
    apply saveNewsItem_duplicate, isDuplicate_true. left.
    eapply keyed_same_id; eauto.
  - intros maxItems maxAgeInDays now1 now2 item st1 Stored. split.
    + apply saveNewsItem_duplicate, isDuplicate_true. now left.
    + subst st1. rewrite saveNewsItem_first in *. simpl in *.
      destruct (negb (isOld maxAgeInDays now1 item)
                && (1 <=? maxItems)).
      * reflexivity.
      * simpl in Stored. congruence.
Qed.

(** C3, as the code has it. A [saveNewsItem] call that returns [true]
    leaves no item in the store that is published before the cutoff date
    of the call: the same local time of day, [maxAgeInDays] days of the
    calendar before the call, as [setDate] gives it on the host (when
    that is no valid date, no item counts as published before it). An
    item that is not published before the cutoff date, the new one or one
    stored before, stays when the items that are not fit the capacity. A
    call that returns [false] changes nothing (C1), so it purges nothing.
    With [maxAgeInDays = 1], in a zone whose offset from UTC changed by
    less than a day in between, an item published two days of 24 hours
    before the call is absent after a call that returns [true], and an
    item published at the time of the call, the new one or one stored
    before, is stored when the items that are not too old fit the
    capacity. *)
Theorem successful_save_enforces_retention
        {host : JSDate.Host} maxItems maxAgeInDays now st item :
  fst (saveNewsItem maxItems maxAgeInDays now st item) = true ->
  let st' := snd (saveNewsItem maxItems maxAgeInDays now st item) in
  (forall e, In e st' -> isOld maxAgeInDays now (snd e) = false)
  /\ (forall cutoff,
         JSDate.TimeClip
           (JSDate.UTC (JSDate.LocalTime now - maxAgeInDays * msPerDay))
         = Some cutoff ->
         forall e, In e st' -> cutoff <= NewsItem.pubDate (snd e))
  /\ (forall e,
         In e (JSMap.set (NewsItem.id item) item st) ->
         isOld maxAgeInDays now (snd e) = false ->
         JSMap.size
           (cleanupOldItems maxAgeInDays now
                            (JSMap.set (NewsItem.id item) item st))
         <= maxItems ->
         In e st')
  /\ (maxAgeInDays = 1 ->
      steadyZone now 1 ->
      cutoffDate 1 now <> None ->
      (forall e, In e st' -> NewsItem.pubDate (snd e) <> now - 2 * msPerDay)
      /\ (forall e,
             In e (JSMap.set (NewsItem.id item) item st) ->
             NewsItem.pubDate (snd e) = now ->
             JSMap.size
               (cleanupOldItems 1 now (JSMap.set (NewsItem.id item) item st))
             <= maxItems ->
             In e st')).
Proof.
  intros T st'.
  assert (Purged : forall e, In e st' -> isOld maxAgeInDays now (snd e) = false)
    by (intros e He;
        now apply (saveNewsItem_retention maxItems maxAgeInDays now st item)).
  assert (Kept : forall e,
             In e (JSMap.set (NewsItem.id item) item st) ->
             isOld maxAgeInDays now (snd e) = false ->
             JSMap.size
               (cleanupOldItems maxAgeInDays now
                                (JSMap.set (NewsItem.id item) item st))
             <= maxItems ->
             In e st').
  { intros e He Fresh Fits. subst st'.
    apply saveNewsItem_true in T. rewrite saveNewsItem_fresh by assumption.
    simpl. rewrite enforceMemoryLimit_within by assumption.
    apply cleanupOldItems_In. split; assumption. }
  split; [exact Purged|]. split; [|split; [exact Kept|]].
  - intros cutoff C e He.
    apply (isOld_false maxAgeInDays now (snd e) cutoff C). now apply Purged.
  - intros -> Steady Valid.
    destruct (cutoffDate 1 now) as [cutoff|] eqn:C; [|congruence].
    pose proof (steady_cutoff 1 now cutoff Steady C) as Near.
    split.
    + intros e He E.
      pose proof (Purged e He) as Fresh.
      apply (isOld_false 1 now (snd e) cutoff C) in Fresh. lia.
    + intros e He Now Fits. apply Kept; [exact He| |exact Fits].
      apply (isOld_false 1 now (snd e) cutoff C). lia.
Qed.

(** C10. Some save returns [true] and yet leaves its item out of the
    store: the item is not a duplicate, is inserted, and is purged at once
    by the retention clean-up of the same call, being older than the
    retention age. *)
Theorem saved_item_may_be_absent :
  exists (host : JSDate.Host) maxItems maxAgeInDays now st item,
    isDuplicate st item = false
    /\ isOld maxAgeInDays now item = true
    /\ fst (saveNewsItem maxItems maxAgeInDays now st item) = true
    /\ getNewsItem (snd (saveNewsItem maxItems maxAgeInDays now st item))
                   (NewsItem.id item) = None.
Proof.
  exists JSDate.utc, 1000, 7, (100 * msPerDay), [],
    (NewsItem.mk (js "old-item") (js "Old News") (js "Old Description")
                 (js "https://example.com/news/old") (92 * msPerDay)
                 (js "Source A") AI_MODELS None (100 * msPerDay)).
  assert (D : isDuplicate []
                (NewsItem.mk (js "old-item") (js "Old News")
                   (js "Old Description") (js "https://example.com/news/old")
                   (92 * msPerDay) (js "Source A") AI_MODELS None
                   (100 * msPerDay)) = false) by reflexivity.
  assert (O : isOld (host := JSDate.utc) 7 (100 * msPerDay)
                    (NewsItem.mk (js "old-item") (js "Old News")
                       (js "Old Description")
                       (js "https://example.com/news/old")
                       (92 * msPerDay) (js "Source A") AI_MODELS None
                       (100 * msPerDay)) = true)
    by (vm_compute; reflexivity).
  split; [exact D|]. split; [exact O|].
  apply saveNewsItem_purges_old_item; assumption.
Qed.

(** ** On a host in the zone UTC *)

Section SavesOnUTC.

#[local] Existing Instance JSDate.utc.

Lemma duplicate_save_rejected_witness :
  saveNewsItem 1000 7 Examples.now [(js "test-1", Examples.test1)] Examples.test1
  = (false, [(js "test-1", Examples.test1)])
  /\ saveNewsItem 1000 7 Examples.now [(js "test-1", Examples.test1)]
                  (Examples.newsItem "test-9" "https://example.com/news/1"
                                     (Examples.now - Examples.hours 2))
     = (false, [(js "test-1", Examples.test1)])
  /\ saveNewsItem 1000 7 Examples.now [(js "test-1", Examples.test1)]
                  (Examples.newsItem "test-1" "https://example.com/news/7"
                                     Examples.now)
     = (false, [(js "test-1", Examples.test1)])
  /\ saveNewsItem 1000 7 Examples.now
                  (snd (saveNewsItem 1000 7 Examples.now [] Examples.test1))
                  Examples.test1
     = (false, snd (saveNewsItem 1000 7 Examples.now [] Examples.test1))
  /\ getItemCount (snd (saveNewsItem 1000 7 Examples.now [] Examples.test1)) = 1.
Proof.
  destruct duplicate_save_rejected as (General & Keyed & Twice).
  split; [|split].
  - apply General. left. vm_compute. discriminate.
  - apply General. right. exists Examples.test1. split.
    + left. reflexivity.
    + split; [vm_compute; reflexivity | vm_compute; discriminate].
  - split.
    + apply (Keyed 1000 7 Examples.now [(js "test-1", Examples.test1)]
                   (Examples.newsItem "test-1" "https://example.com/news/7"
                                      Examples.now)
                   Examples.test1).
      * repeat constructor.
      * left. reflexivity.
      * reflexivity.
    + apply (Twice 1000 7 Examples.now Examples.now Examples.test1).
      vm_compute. discriminate.
Defined.

Lemma successful_save_enforces_retention_witness :
  fst (saveNewsItem 1000 1 Examples.now
                    [(js "old-item", Examples.oldItem)] Examples.recentItem)
  = true
  /\ In (js "recent-item", Examples.recentItem)
        (snd (saveNewsItem 1000 1 Examples.now
                           [(js "old-item", Examples.oldItem)]
                           Examples.recentItem))
  /\ (forall e,
         In e (snd (saveNewsItem 1000 1 Examples.now
                                 [(js "old-item", Examples.oldItem)]
                                 Examples.recentItem)) ->
         Examples.now - 1 * msPerDay <= NewsItem.pubDate (snd e))
  /\ (forall e,
         In e (snd (saveNewsItem (host := JSDate.newYork)
                                 1000 1 Examples.newYorkAfternoon
                                 [(js "old-item", Examples.oldItem)]
                                 Examples.dayOldItem)) ->
         Examples.newYorkAfternoon - 90000000 <= NewsItem.pubDate (snd e)).
Proof.
  assert (T : fst (saveNewsItem 1000 1 Examples.now
                                [(js "old-item", Examples.oldItem)]
                                Examples.recentItem) = true)
    by reflexivity.
  assert (N : fst (saveNewsItem (host := JSDate.newYork)
                                1000 1 Examples.newYorkAfternoon
                                [(js "old-item", Examples.oldItem)]
                                Examples.dayOldItem) = true)
    by reflexivity.
  destruct (successful_save_enforces_retention
              1000 1 Examples.now [(js "old-item", Examples.oldItem)]
              Examples.recentItem T) as (_ & Purged & _ & Day).
  destruct (successful_save_enforces_retention
              (host := JSDate.newYork)
              1000 1 Examples.newYorkAfternoon
              [(js "old-item", Examples.oldItem)]
              Examples.dayOldItem N) as (_ & PurgedNY & _).
  split; [exact T|]. split; [|split].
  - destruct (Day eq_refl) as (_ & Stored).
    + vm_compute. split; [discriminate | reflexivity].
    + vm_compute. discriminate.
    + apply Stored.
      * vm_compute. right. left. reflexivity.
      * vm_compute. reflexivity.
      * vm_compute. discriminate.
  - apply Purged. vm_compute. reflexivity.
  - apply PurgedNY. vm_compute. reflexivity.
Defined.

(** The statement of C3 fails in three ways. For a call that returns
    [false]: a service with one day of retention stored an item when it
    was published; two days later the same item is saved again, the call
    is rejected as a duplicate, and the item, by now two days old, is
    still stored. For days of 24 hours: in New York, on the day on which
    the clocks went back, an item published twenty-four and a half hours
    before the call is stored by a call that returns [true], with one day
    of retention. For an item published now: a service of capacity one
    that holds an item published at the time of the call loses it to the
    call, which stores another item published at the same instant. *)
Lemma rejected_save_keeps_old_item :
  (saveNewsItem 1000 1 (Examples.now + Examples.days 2)
                Examples.storedRecent Examples.recentItem
   = (false, Examples.storedRecent)
   /\ getNewsItem Examples.storedRecent (js "recent-item")
      = Some Examples.recentItem
   /\ NewsItem.pubDate Examples.recentItem
      = (Examples.now + Examples.days 2) - 2 * msPerDay
   /\ isOld 1 (Examples.now + Examples.days 2) Examples.recentItem = true
   /\ reachable 1000 1 Examples.storedRecent)
  /\ (saveNewsItem (host := JSDate.newYork)
                   1000 1 Examples.newYorkAfternoon [] Examples.dayOldItem
      = (true, [(js "day-old", Examples.dayOldItem)])
      /\ NewsItem.pubDate Examples.dayOldItem
         < Examples.newYorkAfternoon - 1 * msPerDay)
  /\ (saveNewsItem 1 1 Examples.now
                   (snd (saveNewsItem 1 1 Examples.now [] Examples.recentItem))
                   Examples.sameInstant
      = (true, [(js "test-9", Examples.sameInstant)])
      /\ getNewsItem (snd (saveNewsItem 1 1 Examples.now [] Examples.recentItem))
                     (js "recent-item")
         = Some Examples.recentItem
      /\ NewsItem.pubDate Examples.recentItem = Examples.now).
Proof.
  split; [|split].
  - split; [vm_compute; reflexivity|]. split; [vm_compute; reflexivity|].
    split; [vm_compute; reflexivity|]. split; [vm_compute; reflexivity|].
    unfold Examples.storedRecent. apply reach_save, reach_new.
  - split; [vm_compute; reflexivity | vm_compute; reflexivity].
  - split; [vm_compute; reflexivity|].
    split; vm_compute; reflexivity.
Qed.

End SavesOnUTC.

(** C4. With a capacity that is not negative: every state of a service
    object, hence the state after each [saveNewsItem] call, holds at most
    [maxItems] items, and so does the state after a call that returns
    [true] or that starts within the capacity, whatever the store was; a
    save that returns [true] leaves [min (n, maxItems)] of the [n] items
    that are inside the retention window after the insertion, and whatever
    it removed from them was published no later than whatever it kept. In
    particular, with [maxItems = 2], three items inside the retention
    window at each of the saves, with distinct ids and dates and none
    repeating another, saved
    one after the other into the empty store, leave two items in it: the
    one published first cannot be retrieved, the other two can. *)
Theorem capacity_bounded_and_oldest_evicted
        {host : JSDate.Host} maxItems maxAgeInDays :
  0 <= maxItems ->
  (forall st, reachable maxItems maxAgeInDays st -> getItemCount st <= maxItems)
  /\ (forall now st item,
         getItemCount st <= maxItems
         \/ fst (saveNewsItem maxItems maxAgeInDays now st item) = true ->
         getItemCount (snd (saveNewsItem maxItems maxAgeInDays now st item))
         <= maxItems)
  /\ (forall now st item,
         JSMap.wf st ->
         fst (saveNewsItem maxItems maxAgeInDays now st item) = true ->
         let candidates :=
           cleanupOldItems maxAgeInDays now
                           (JSMap.set (NewsItem.id item) item st) in
         let st' := snd (saveNewsItem maxItems maxAgeInDays now st item) in
         getItemCount st' = Z.min (JSMap.size candidates) maxItems
         /\ evictsOldest candidates st')
  /\ (maxItems = 2 ->
      forall t1 t2 t3 a b c o,
        t1 <= t2 <= t3 ->
        (forall t x, In t [t1; t2; t3] -> In x [a; b; c] ->
                     isOld maxAgeInDays t x = false) ->
        distinctArticles a b -> distinctArticles a c -> distinctArticles b c ->
        NewsItem.pubDate a <> NewsItem.pubDate b ->
        NewsItem.pubDate a <> NewsItem.pubDate c ->
        NewsItem.pubDate b <> NewsItem.pubDate c ->
        In o [a; b; c] ->
        (forall x, In x [a; b; c] -> NewsItem.pubDate o <= NewsItem.pubDate x) ->
        let st3 :=
          snd (saveNewsItems maxItems maxAgeInDays []
                             [(t1, a); (t2, b); (t3, c)]) in
        getItemCount st3 = 2
        /\ getNewsItem st3 (NewsItem.id o) = None
        /\ forall x, In x [a; b; c] ->
                     NewsItem.pubDate o < NewsItem.pubDate x ->
                     getNewsItem st3 (NewsItem.id x) = Some x).
Proof.
  intros M. split; [|split; [|split]].
  - intros st R. now apply (reachable_size maxItems maxAgeInDays).
  - intros now st item [H|H].
    + now apply saveNewsItem_size.
    + apply saveNewsItem_true in H. rewrite saveNewsItem_fresh by assumption.
      now apply enforceMemoryLimit_size.
  - intros now st item W T candidates st'. subst candidates st'.
    apply saveNewsItem_true in T. rewrite saveNewsItem_fresh by assumption.
    cbn [snd].
    assert (W' : JSMap.wf (cleanupOldItems maxAgeInDays now
                             (JSMap.set (NewsItem.id item) item st)))
      by (apply JSMapFacts.wf_filter, JSMapFacts.wf_set, W).
    split.
    + now apply enforceMemoryLimit_size_exact.
    + now apply enforceMemoryLimit_evictsOldest.
  - intros -> t1 t2 t3 a b c o Clock Recent Dab Dac Dbc Pab Pac Pbc Ho Min.
    now apply three_saves_result.
Qed.

(** ** More on a host in the zone UTC *)

Section StoresOnUTC.

#[local] Existing Instance JSDate.utc.

Lemma capacity_bounded_and_oldest_evicted_witness :
  0 <= 2
  /\ getItemCount
       (snd (saveNewsItems 2 7 []
               [(Examples.now, Examples.test1); (Examples.now, Examples.test2);
                (Examples.now, Examples.test3)])) = 2
  /\ getNewsItem
       (snd (saveNewsItems 2 7 []
               [(Examples.now, Examples.test1); (Examples.now, Examples.test2);
                (Examples.now, Examples.test3)])) (js "test-1") = None
  /\ getNewsItem
       (snd (saveNewsItems 2 7 []
               [(Examples.now, Examples.test1); (Examples.now, Examples.test2);
                (Examples.now, Examples.test3)])) (js "test-3")
     = Some Examples.test3.
Proof.
  assert (M : 0 <= 2) by lia.
  destruct (capacity_bounded_and_oldest_evicted 2 7 M) as (_ & _ & _ & Three).
  specialize (Three eq_refl Examples.now Examples.now Examples.now
                    Examples.test1 Examples.test2 Examples.test3
                    Examples.test1).
  assert (D : forall x y,
             NewsItem.id x <> NewsItem.id y ->
             NewsItem.link x <> NewsItem.link y -> distinctArticles x y)
    by (intros x y I L; split; [exact I | intros [S _]; exact (L S)]).
  destruct Three as (Count & Gone & Kept).
  - lia.
  - intros t x [<-|[<-|[<-|[]]]] [<-|[<-|[<-|[]]]]; vm_compute; reflexivity.
  - apply D; vm_compute; discriminate.
  - apply D; vm_compute; discriminate.
  - apply D; vm_compute; discriminate.
  - vm_compute; discriminate.
  - vm_compute; discriminate.
  - vm_compute; discriminate.
  - left; reflexivity.
  - intros x [<-|[<-|[<-|[]]]]; vm_compute; discriminate.
  - split; [exact M|]. split; [exact Count|]. split; [exact Gone|].
    apply (Kept Examples.test3).
    + right; right; left; reflexivity.
    + vm_compute. reflexivity.
Defined.

(** C9 on the code: [updateNewsItem] takes an [id] among its updates and
    stores the changed item under the old key. The states below are
    reached by [saveNewsItem] and [updateNewsItem] alone; in the first the
    item stored under [test-1] has the id [test-2], which
    [checkDataIntegrity] reports as an ID mismatch, and in the second two
    stored items have the same id. *)
Theorem update_breaks_id_invariant :
  reachable 1000 7 Examples.renamedStore
  /\ option_map NewsItem.id (getNewsItem Examples.renamedStore (js "test-1"))
     = Some (js "test-2")
  /\ ~ keyed Examples.renamedStore
  /\ isValid (checkDataIntegrity Examples.renamedStore) = false
  /\ issues (checkDataIntegrity Examples.renamedStore)
     = [IDMismatch (js "test-1") (js "test-2")]
  /\ reachable 1000 7 Examples.clashingStore
  /\ JSMap.keys Examples.clashingStore = [js "test-1"; js "test-2"]
  /\ map NewsItem.id (JSMap.values Examples.clashingStore)
     = [js "test-2"; js "test-2"].
Proof.
  split; [|split; [|split; [|split; [|split; [|split; [|split]]]]]].
  - unfold Examples.renamedStore. apply reach_update, reach_save, reach_new.
  - reflexivity.
  - intros K. unfold keyed in K. rewrite Forall_forall in K.
    specialize (K (js "test-1",
                   PartialNewsItem.spread Examples.test1 Examples.renameToTest2)).
    assert (E : js "test-2" = js "test-1") by (apply K; vm_compute; auto).
    vm_compute in E. discriminate.
  - reflexivity.
  - reflexivity.
  - unfold Examples.clashingStore. apply reach_update, reach_saveAll, reach_new.
  - reflexivity.
  - reflexivity.
Qed.

(** C8, as the code has it. For options whose offset and limit are not
    negative, [getNewsItems] returns the stored items that pass the
    category filter (the wildcard and an absent category pass all), the
    source filter and the inclusive bounds on [pubDate], sorted by
    [pubDate] from newest to oldest, with the offset applied before the
    limit, where an empty source string and an offset or a limit of zero
    count as absent. The sorted array is a rearrangement of the items that
    pass, and items with equal dates keep their stored order. Without
    options the result is all stored items, newest first. *)
Theorem query_filters_sorts_paginates (st : Store)
        (options : StorageFilterOptions) :
  (forall o, offset options = Some o -> 0 <= o) ->
  (forall n, limit options = Some n -> 0 <= n) ->
  getNewsItems st options = queryAsStated st (effective options)
  /\ (let passing := filter (passes (effective options)) (JSMap.values st) in
      let sorted := JSArray.sort newestFirst passing in
      newestToOldest sorted
      /\ Permutation sorted passing
      /\ forall date,
          filter (fun x => NewsItem.pubDate x =? date) sorted
          = filter (fun x => NewsItem.pubDate x =? date) passing)
  /\ getNewsItems st noOptions = JSArray.sort newestFirst (JSMap.values st)
  /\ newestToOldest (getNewsItems st noOptions)
  /\ Permutation (getNewsItems st noOptions) (JSMap.values st).
Proof.
  intros Ho Hn.
  assert (N : getNewsItems st noOptions
              = JSArray.sort newestFirst (JSMap.values st)) by reflexivity.
  split; [now apply getNewsItems_paged|]. split; [|split; [|split]].
  - split; [apply sort_newestToOldest|]. split.
    + apply JSArrayFacts.sort_perm.
    + intros date. rewrite newestFirst_byKey.
      apply JSArrayFacts.sort_stable.
  - exact N.
  - rewrite N. apply sort_newestToOldest.
  - rewrite N. apply JSArrayFacts.sort_perm.
Qed.

Lemma query_filters_sorts_paginates_witness :
  getNewsItems Examples.threeStored Examples.secondPage
  = [Examples.test2; Examples.test1]
  /\ getNewsItems Examples.threeStored noOptions
     = [Examples.test3; Examples.test2; Examples.test1].
Proof.
  assert (Ho : forall o, offset Examples.secondPage = Some o -> 0 <= o)
    by (intros o [= <-]; lia).
  assert (Hn : forall n, limit Examples.secondPage = Some n -> 0 <= n)
    by (intros n [= <-]; lia).
  destruct (query_filters_sorts_paginates
              Examples.threeStored Examples.secondPage Ho Hn)
    as (Paged & _ & All & _).
  split.
  - rewrite Paged. reflexivity.
  - rewrite All. reflexivity.
Defined.

(** The statement of C8 fails for a limit of zero: of one stored item, the
    query as stated keeps none, and [getNewsItems] returns it. *)
Lemma limit_zero_is_no_limit :
  getNewsItems [(js "test-1", Examples.test1)] Examples.limitZero
  = [Examples.test1]
  /\ queryAsStated [(js "test-1", Examples.test1)] Examples.limitZero = []
  /\ getNewsItems [(js "test-1", Examples.test1)] Examples.limitZero
     <> queryAsStated [(js "test-1", Examples.test1)] Examples.limitZero.
Proof.
  split; [reflexivity|]. split; [reflexivity|]. discriminate.
Qed.

End StoresOnUTC.

End StorageTheorems.


(* ================================================================== *)
(** * The classifier *)

Module ClassificationFacts.

Import ClassificationService ClassificationSpec.

Lemma ltb_lt (a b : Q) : ltb a b = true <-> (a < b)%Q.
Proof.
  unfold ltb. rewrite negb_true_iff. split.
  - intros H. apply Qnot_le_lt. intros L.
    apply Qle_bool_iff in L. congruence.
  - intros H. destruct (Qle_bool b a) eqn:E; [|reflexivity].
    apply Qle_bool_iff in E. exfalso. exact (Qlt_not_le _ _ H E).
Qed.

Lemma ltb_ge (a b : Q) : ltb a b = false <-> (b <= a)%Q.
Proof.
  unfold ltb. rewrite negb_false_iff. apply Qle_bool_iff.
Qed.

(** ** Counting matches *)

Lemma countFrom_nonneg (pattern : jsstring) (skip : nat) (text : jsstring) :
  0 <= countFrom pattern skip text.
Proof.
  revert skip. induction text as [|c rest IH]; intros skip; cbn [countFrom].
  - destruct skip, pattern; lia.
  - destruct skip as [|skip]; [|apply IH].
    destruct (JSString.startsWith pattern (c :: rest)).
    + specialize (IH (Nat.pred (length pattern))). lia.
    + apply IH.
Qed.

Lemma countFrom_absent (pattern : jsstring) (skip : nat) (text : jsstring) :
  JSString.includes text pattern = false -> countFrom pattern skip text = 0.
Proof.
  revert skip. induction text as [|c rest IH]; intros skip H.
  - simpl in *. apply orb_false_iff in H. destruct H as [H _].
    destruct pattern; [discriminate|]. now destruct skip.
  - cbn [JSString.includes] in H. apply orb_false_iff in H.
    destruct H as [H1 H2]. cbn [countFrom].
    destruct skip as [|skip]; [|now apply IH].
    rewrite H1. now apply IH.
Qed.

Lemma matchCount_present (pattern text : jsstring) :
  JSString.includes text pattern = true -> 0 < matchCount pattern text.
Proof.
  unfold matchCount. induction text as [|c rest IH]; intros H.
  - simpl in *. rewrite orb_false_r in H.
    destruct pattern; [simpl; lia | discriminate].
  - cbn [JSString.includes] in H. cbn [countFrom].
    destruct (JSString.startsWith pattern (c :: rest)) eqn:E.
    + pose proof (countFrom_nonneg pattern (Nat.pred (length pattern)) rest). lia.
    + simpl in H. now apply IH.
Qed.

(** A pattern is counted at least once exactly when the text includes it. *)
Lemma matchCount_pos (pattern text : jsstring) :
  0 < matchCount pattern text <-> JSString.includes text pattern = true.
Proof.
  split; [|apply matchCount_present].
  intros H. destruct (JSString.includes text pattern) eqn:E; [reflexivity|].
  unfold matchCount in H. rewrite (countFrom_absent _ _ _ E) in H. lia.
Qed.

(** ** What the count of matches is *)

Lemma apart_weaken (width from from' : nat) (positions : list nat) :
  (from' <= from)%nat -> apart width from positions ->
  apart width from' positions.
Proof.
  destruct positions as [|i rest]; cbn [apart]; [auto|].
  intros L [H1 H2]. split; [lia | exact H2].
Qed.

Lemma apart_shift (width from : nat) (positions : list nat) :
  apart width (S from) positions ->
  exists earlier, positions = map S earlier /\ apart width from earlier.
Proof.
  revert from. induction positions as [|i rest IH]; intros from; cbn [apart].
  - intros _. exists []. split; [reflexivity | exact I].
  - intros [L A]. destruct i as [|j]; [lia|].
    change (S j + width)%nat with (S (j + width)) in A.
    destruct (IH _ A) as (earlier & -> & Ae).
    exists (j :: earlier). cbn [map apart].
    split; [reflexivity|]. split; [lia | exact Ae].
Qed.

Lemma apart_map_S (width from : nat) (positions : list nat) :
  apart width from positions -> apart width (S from) (map S positions).
Proof.
  revert from. induction positions as [|i rest IH]; intros from;
    cbn [map apart]; [auto|].
  intros [L A]. split; [lia|].
  change (S i + width)%nat with (S (i + width)). now apply IH.
Qed.

Lemma occursAt_shift (keyword : jsstring) (c : N) (rest : jsstring)
      (positions : list nat) :
  Forall (occursAt keyword (c :: rest)) (map S positions)
  <-> Forall (occursAt keyword rest) positions.
Proof.
  rewrite Forall_map.
  split; apply Forall_impl; intros i; unfold occursAt; cbn [length skipn];
    intros [A B]; (split; [lia | exact B]).
Qed.

(** The count of the loop over the text is the largest number of
    occurrences, none before [skip], no two of which overlap. *)
Lemma countFrom_spec (pattern text : jsstring) (skip : nat) :
  let width := Nat.max 1 (length pattern) in
  (exists positions,
      apart width skip positions
      /\ Forall (occursAt pattern text) positions
      /\ Z.of_nat (length positions) = countFrom pattern skip text)
  /\ (forall positions,
         apart width skip positions ->
         Forall (occursAt pattern text) positions ->
         Z.of_nat (length positions) <= countFrom pattern skip text).
Proof.
  cbv zeta. revert skip.
  induction text as [|c rest IH]; intros skip; cbn [countFrom].
  - destruct skip as [|skip].
    + destruct pattern as [|k pattern].
      * split.
        -- exists [0%nat]. cbn [apart length]. split; [split; [lia | exact I]|].
           split; [|reflexivity].
           constructor; [|constructor]. split; [cbn; lia | reflexivity].
        -- intros positions A F.
           destruct positions as [|i [|j more]]; cbn [length]; try lia.
           exfalso. cbn [apart] in A. destruct A as (_ & A & _).
           inversion F as [|? ? _ F']. inversion F' as [|? ? [J _] _].
           cbn in J, A. lia.
      * split.
        -- exists []. cbn. repeat split; constructor.
        -- intros positions _ F.
           destruct positions as [|i more]; cbn [length]; [lia|].
           exfalso. inversion F as [|? ? [_ O] _].
           destruct i; cbn in O; discriminate.
    + assert (None_ : forall positions,
                 apart (Nat.max 1 (length pattern)) (S skip) positions ->
                 Forall (occursAt pattern []) positions ->
                 Z.of_nat (length positions) <= 0).
      { intros positions A F.
        destruct positions as [|i more]; cbn [length]; [lia|].
        exfalso. cbn [apart] in A. destruct A as [A _].
        inversion F as [|? ? [J _] _]. cbn in J. lia. }
      destruct pattern as [|k pattern]; (split; [|exact None_]);
        exists []; cbn; repeat split; constructor.
  - assert (W : Nat.max 1 (length pattern) = S (Nat.pred (length pattern)))
      by lia.
    rewrite W in *.
    destruct skip as [|skip].
    + destruct (JSString.startsWith pattern (c :: rest)) eqn:E.
      * destruct (IH (Nat.pred (length pattern)))
          as ((earlier & A & F & L) & Upper).
        split.
        -- exists (0%nat :: map S earlier). cbn [apart length].
           split.
           { split; [lia|]. cbn [Nat.add]. now apply apart_map_S. }
           split.
           { constructor; [|now apply occursAt_shift].
             split; [cbn; lia | exact E]. }
           rewrite length_map. lia.
        -- intros positions A' F'.
           destruct positions as [|i more]; cbn [length].
           { pose proof (countFrom_nonneg pattern (Nat.pred (length pattern))
                                          rest). lia. }
           cbn [apart] in A'. destruct A' as [_ A'].
           apply (apart_weaken _ _ (S (Nat.pred (length pattern)))) in A';
             [|lia].
           destruct (apart_shift _ _ _ A') as (before & -> & Ab).
           inversion F' as [|? ? _ Fm]. apply occursAt_shift in Fm.
           specialize (Upper before Ab Fm). rewrite length_map. lia.
      * destruct (IH 0%nat) as ((earlier & A & F & L) & Upper).
        split.
        -- exists (map S earlier).
           split; [apply (apart_weaken _ 1); [lia | now apply apart_map_S]|].
           split; [now apply occursAt_shift|].
           rewrite length_map. exact L.
        -- intros positions A' F'.
           assert (A1 : apart (S (Nat.pred (length pattern))) 1 positions).
           { destruct positions as [|i more]; cbn [apart]; [exact I|].
             cbn [apart] in A'. destruct A' as [_ A'].
             split; [|exact A'].
             destruct i as [|i]; [|lia].
             inversion F' as [|? ? [_ O] _]. cbn [skipn] in O. congruence. }
           destruct (apart_shift _ _ _ A1) as (before & -> & Ab).
           apply occursAt_shift in F'.
           specialize (Upper before Ab F'). rewrite length_map. exact Upper.
    + destruct (IH skip) as ((earlier & A & F & L) & Upper).
      split.
      * exists (map S earlier).
        split; [now apply apart_map_S|].
        split; [now apply occursAt_shift|].
        rewrite length_map. exact L.
      * intros positions A' F'.
        destruct (apart_shift _ _ _ A') as (before & -> & Ab).
        apply occursAt_shift in F'.
        specialize (Upper before Ab F'). rewrite length_map. exact Upper.
Qed.

Lemma matchCount_occurrenceCount (pattern text : jsstring) :
  occurrenceCount pattern text (matchCount pattern text).
Proof.
  destruct (countFrom_spec pattern text 0) as ((positions & A & F & L) & Upper).
  cbv zeta in *. unfold occurrenceCount, disjointOccurrences, matchCount.
  split.
  - exists positions. auto.
  - intros others [A' F']. now apply Upper.
Qed.

Lemma occurrenceCount_unique (pattern text : jsstring) (n m : Z) :
  occurrenceCount pattern text n -> occurrenceCount pattern text m -> n = m.
Proof.
  intros ((ps & Dn & Ln) & Un) ((qs & Dm & Lm) & Um).
  specialize (Un qs Dm). specialize (Um ps Dn). lia.
Qed.

(** ** Keywords that cannot overlap themselves *)

Lemma startsWith_both (a b text : jsstring) :
  JSString.startsWith a text = true -> JSString.startsWith b text = true ->
  (length a <= length b)%nat -> JSString.startsWith a b = true.
Proof.
  revert b text. induction a as [|x a IH]; intros b text Ha Hb L;
    [reflexivity|].
  destruct b as [|y b]; [cbn in L; lia|].
  destruct text as [|z text]; [discriminate|].
  cbn [JSString.startsWith] in *.
  apply andb_prop in Ha. destruct Ha as [Ha1 Ha2].
  apply andb_prop in Hb. destruct Hb as [Hb1 Hb2].
  apply N.eqb_eq in Ha1. apply N.eqb_eq in Hb1. subst.
  rewrite N.eqb_refl. cbn [andb]. apply (IH b text); auto.
  cbn in L. lia.
Qed.

Lemma startsWith_skipn (a text : jsstring) (k : nat) :
  JSString.startsWith a text = true ->
  JSString.startsWith (skipn k a) (skipn k text) = true.
Proof.
  revert a text. induction k as [|k IH]; intros a text H; [exact H|].
  destruct a as [|x a]; [reflexivity|].
  destruct text as [|z text]; [discriminate|].
  cbn [JSString.startsWith] in H. apply andb_prop in H.
  cbn [skipn]. apply IH. tauto.
Qed.

Lemma no_overlap (pattern text : jsstring) (k : nat) :
  overlapsItself pattern = false ->
  JSString.startsWith pattern text = true ->
  (0 < k < length pattern)%nat ->
  JSString.startsWith pattern (skipn k text) = false.
Proof.
  intros N H Hk.
  destruct (JSString.startsWith pattern (skipn k text)) eqn:E; [|reflexivity].
  pose proof (startsWith_skipn pattern text k H) as S.
  assert (B : JSString.startsWith (skipn k pattern) pattern = true).
  { apply (startsWith_both _ _ (skipn k text)); auto.
    rewrite length_skipn. lia. }
  assert (X : overlapsItself pattern = true).
  { unfold overlapsItself. apply existsb_exists. exists k.
    split; [|exact B]. apply in_seq. lia. }
  congruence.
Qed.

(** For such a keyword every position at which it stands is counted. *)
Lemma countFrom_occurrences (pattern : jsstring) :
  pattern <> [] -> overlapsItself pattern = false ->
  forall (text : jsstring) (skip : nat),
    (forall k, (k < skip)%nat ->
               JSString.startsWith pattern (skipn k text) = false) ->
    countFrom pattern skip text = occurrences pattern text.
Proof.
  intros NE N. induction text as [|c rest IH]; intros skip H.
  - cbn. destruct skip, pattern; try reflexivity. contradiction.
  - cbn [countFrom occurrences]. destruct skip as [|skip].
    + destruct (JSString.startsWith pattern (c :: rest)) eqn:E.
      * rewrite IH; [reflexivity|].
        intros k Hk.
        apply (no_overlap pattern (c :: rest) (S k) N E). lia.
      * rewrite IH; [lia|]. intros k Hk. lia.
    + pose proof (H 0%nat ltac:(lia)) as H0. cbn [skipn] in H0.
      rewrite H0. rewrite (IH skip); [lia|].
      intros k Hk. apply (H (S k)). lia.
Qed.

Lemma matchCount_occurrences (pattern text : jsstring) :
  pattern <> [] -> overlapsItself pattern = false ->
  matchCount pattern text = occurrences pattern text.
Proof.
  intros NE N. unfold matchCount.
  apply countFrom_occurrences; auto. intros k Hk. lia.
Qed.

(** The keywords of the dictionary that can overlap themselves; of every
    other keyword each position is counted. *)
Lemma keywords_that_overlap :
  filter (fun keyword => overlapsItself (JSString.asciiLower keyword))
         (flat_map snd keywordDictionary)
  = [js "Large Language Model"; js "Alexa"; js "workflow"; js "SaaS";
     js "enterprise"; js "オーディオ"; js "template"; js "dashboard";
     js "statistics"].
Proof. vm_compute. reflexivity. Qed.

(** The keywords of the dictionary hold no operator of regular
    expressions, in whatever case their ASCII letters are. *)
Lemma keywords_literal :
  forallb (fun entry : AICategory * list jsstring =>
             forallb (fun keyword =>
                        literalPattern keyword
                        && literalPattern (JSString.asciiLower keyword))
                     (snd entry))
          keywordDictionary = true.
Proof. vm_compute. reflexivity. Qed.

Lemma dictionary_categories :
  map fst keywordDictionary = AICategories.values.
Proof. vm_compute. reflexivity. Qed.

Lemma keywordsOf_In (dictionary : KeywordDictionary) (category : AICategory) :
  In category (map fst dictionary) ->
  In (category, keywordsOf dictionary category) dictionary.
Proof.
  induction dictionary as [|[c keywords] rest IH]; simpl; [tauto|].
  intros H. destruct (AICategories.eqb c category) eqn:E.
  - apply AICategoryFacts.category_eqb_eq in E. subst. now left.
  - right. apply IH. destruct H as [H|H]; [|assumption].
    subst. destruct category; discriminate.
Qed.

Section Runtime.

Variable toLowerCase : jsstring -> jsstring.

Local Abbreviation addKeyword := (ClassificationService.addKeyword toLowerCase).
Local Abbreviation scoreKeywords := (ClassificationService.scoreKeywords toLowerCase).
Local Abbreviation scoresOf := (ClassificationService.scoresOf toLowerCase).
Local Abbreviation getKeywordMatches := (ClassificationService.getKeywordMatches toLowerCase).
Local Abbreviation pickBest := (ClassificationService.pickBest toLowerCase).
Local Abbreviation combine := (ClassificationService.combine toLowerCase).
Local Abbreviation analyzeContent := (ClassificationService.analyzeContent toLowerCase).
Local Abbreviation classifyNews := (ClassificationService.classifyNews toLowerCase).
Local Abbreviation scoreAsStated := (ClassificationSpec.scoreAsStated toLowerCase).
Local Abbreviation bestScoreAsStated := (ClassificationSpec.bestScoreAsStated toLowerCase).
Local Abbreviation noKeyword := (ClassificationSpec.noKeyword toLowerCase).

(** ** Scores *)

Lemma addKeyword_sum (text : jsstring) (categoryScore : Z) (keyword : jsstring) :
  addKeyword text categoryScore keyword
  = categoryScore
    + matchCount (toLowerCase keyword) text * getKeywordWeight keyword.
Proof.
  unfold ClassificationService.addKeyword.
  pose proof (countFrom_nonneg (toLowerCase keyword) O text) as P.
  fold (matchCount (toLowerCase keyword) text) in P.
  destruct (Z.ltb_spec 0 (matchCount (toLowerCase keyword) text)) as [H|H].
  - reflexivity.
  - replace (matchCount (toLowerCase keyword) text) with 0 by lia. lia.
Qed.

Lemma fold_addKeyword (text : jsstring) (keywords : list jsstring) (start : Z) :
  fold_left (addKeyword text) keywords start
  = start + scoreAsStated text keywords.
Proof.
  revert start. induction keywords as [|keyword rest IH]; intros start.
  - unfold ClassificationSpec.scoreAsStated. cbn [fold_left map fold_right]. lia.
  - cbn [fold_left]. rewrite IH, addKeyword_sum.
    unfold ClassificationSpec.scoreAsStated. cbn [map fold_right]. lia.
Qed.

(** The loop over the keywords computes the stated sum. *)
Lemma scoreKeywords_stated (text : jsstring) (keywords : list jsstring) :
  scoreKeywords text keywords = scoreAsStated text keywords.
Proof.
  unfold ClassificationService.scoreKeywords. now rewrite fold_addKeyword.
Qed.

Lemma getKeywordWeight_pos (keyword : jsstring) : 0 < getKeywordWeight keyword.
Proof.
  unfold getKeywordWeight.
  destruct (10 <? Z.of_nat (length keyword)); [lia|].
  destruct (6 <? Z.of_nat (length keyword)); lia.
Qed.

Lemma scoreAsStated_nonneg (text : jsstring) (keywords : list jsstring) :
  0 <= scoreAsStated text keywords.
Proof.
  unfold ClassificationSpec.scoreAsStated.
  induction keywords as [|keyword rest IH]; cbn [map fold_right]; [lia|].
  pose proof (countFrom_nonneg (toLowerCase keyword) O text) as P.
  pose proof (getKeywordWeight_pos keyword) as W.
  assert (0 <= matchCount (toLowerCase keyword) text * getKeywordWeight keyword)
    by (apply Z.mul_nonneg_nonneg; [exact P | lia]).
  lia.
Qed.

Lemma scoreAsStated_absent (text : jsstring) (keywords : list jsstring) :
  (forall keyword, In keyword keywords ->
                   JSString.includes text (toLowerCase keyword) = false) ->
  scoreAsStated text keywords = 0.
Proof.
  unfold ClassificationSpec.scoreAsStated.
  induction keywords as [|keyword rest IH]; intros H; cbn [map fold_right];
    [reflexivity|].
  rewrite IH by (intros k Hk; apply H; now right).
  unfold matchCount. rewrite countFrom_absent by (apply H; now left). lia.
Qed.

Lemma getKeywordMatches_stated (text : jsstring) :
  getKeywordMatches text
  = map (fun entry => (fst entry, scoreAsStated text (snd entry)))
        keywordDictionary.
Proof.
  unfold ClassificationService.getKeywordMatches, ClassificationService.scoresOf.
  apply map_ext. intros entry. now rewrite scoreKeywords_stated.
Qed.

Lemma getKeywordMatches_category (text : jsstring) (category : AICategory) :
  In (category, scoreAsStated text (keywordsOf keywordDictionary category))
     (getKeywordMatches text).
Proof.
  rewrite getKeywordMatches_stated.
  apply (in_map (fun entry => (fst entry, scoreAsStated text (snd entry)))
                keywordDictionary
                (category, keywordsOf keywordDictionary category)).
  apply keywordsOf_In. rewrite dictionary_categories.
  destruct category; simpl; tauto.
Qed.

(** ** The best category *)

Lemma fold_max_start (scores : list Z) (start score : Z) :
  fold_right Z.max (Z.max start score) scores
  = Z.max score (fold_right Z.max start scores).
Proof.
  induction scores as [|s rest IH]; simpl; [lia|]. rewrite IH. lia.
Qed.

Lemma fold_max_ge (scores : list Z) (start : Z) :
  start <= fold_right Z.max start scores
  /\ forall s, In s scores -> s <= fold_right Z.max start scores.
Proof.
  induction scores as [|s rest [IH1 IH2]]; simpl.
  - split; [lia | tauto].
  - split; [lia|]. intros x [<-|H]; [lia|]. specialize (IH2 x H). lia.
Qed.

(** The loop over the scores ends with the highest score above the start,
    at the first category that has it, or where it started. *)
Lemma fold_pickBest (text : jsstring) (scores : list (AICategory * Z))
      (category0 : AICategory) (score0 : Z) (matched0 : list jsstring) :
  let best := fold_left (pickBest text) scores (category0, score0, matched0) in
  snd (fst best) = fold_right Z.max score0 (map snd scores)
  /\ (snd (fst best) = score0 -> best = (category0, score0, matched0))
  /\ (score0 < snd (fst best) -> In (fst (fst best), snd (fst best)) scores).
Proof.
  revert category0 score0 matched0.
  induction scores as [|[category score] rest IH]; intros category0 score0 matched0.
  - simpl. split; [reflexivity|]. split; [reflexivity | lia].
  - cbn [fold_left map fold_right].
    change (snd (category, score)) with score.
    assert (Step : pickBest text (category0, score0, matched0) (category, score)
                   = if score0 <? score
                     then (category, score,
                           ClassificationService.getMatchedKeywordsForCategory
                             toLowerCase text category)
                     else (category0, score0, matched0)) by reflexivity.
    rewrite Step. clear Step.
    destruct (Z.ltb_spec score0 score) as [L|L].
    + specialize (IH category score
                     (ClassificationService.getMatchedKeywordsForCategory
                        toLowerCase text category)).
      cbv zeta in IH. destruct IH as (I1 & I2 & I3).
      pose proof (fold_max_ge (map snd rest) score) as [G _].
      pose proof (fold_max_start (map snd rest) score0 score) as F.
      replace (Z.max score0 score) with score in F by lia.
      cbv zeta. split; [lia|]. split; [lia|].
      intros _.
      destruct (Z.eq_dec
                  (snd (fst (fold_left
                               (pickBest text) rest
                               (category, score,
                                ClassificationService.getMatchedKeywordsForCategory
                                  toLowerCase text category))))
                  score) as [E|N].
      * rewrite (I2 E). simpl. now left.
      * right. apply I3. lia.
    + specialize (IH category0 score0 matched0).
      cbv zeta in IH. destruct IH as (I1 & I2 & I3).
      pose proof (fold_max_start (map snd rest) score0 score) as F.
      replace (Z.max score0 score) with score0 in F by lia.
      pose proof (fold_max_ge (map snd rest) score0) as [G _].
      cbv zeta. split; [lia|]. split.
      * intros E. apply I2. lia.
      * intros H. right. apply I3. lia.
Qed.

Lemma analyzeContent_fields (self : t) (title description : jsstring) :
  let text := combine title description in
  let best :=
    fold_left (pickBest text) (getKeywordMatches text)
              (defaultCategory self, 0, []) in
  category (analyzeContent self title description) = fst (fst best)
  /\ confidence (analyzeContent self title description)
     = confidenceAsStated (snd (fst best)) (Z.of_nat (length text))
  /\ matchedKeywords (analyzeContent self title description) = snd best.
Proof.
  cbv zeta. unfold ClassificationService.analyzeContent.
  destruct (fold_left _ _ _) as [[c s] m]. simpl. auto.
Qed.

Lemma bestScore_stated (self : t) (title description : jsstring) :
  let text := combine title description in
  snd (fst (fold_left (pickBest text) (getKeywordMatches text)
                      (defaultCategory self, 0, [])))
  = bestScoreAsStated text.
Proof.
  cbv zeta.
  destruct (fold_pickBest (combine title description)
                          (getKeywordMatches (combine title description))
                          (defaultCategory self) 0 []) as (E & _).
  cbv zeta in E. rewrite E, getKeywordMatches_stated, map_map.
  reflexivity.
Qed.

Lemma bestScoreAsStated_bounds (text : jsstring) :
  0 <= bestScoreAsStated text
  /\ forall category score,
      In (category, score) (getKeywordMatches text) ->
      score <= bestScoreAsStated text.
Proof.
  unfold ClassificationSpec.bestScoreAsStated.
  pose proof (fold_max_ge
                (map (fun entry : AICategory * list jsstring =>
                        scoreAsStated text (snd entry)) keywordDictionary) 0)
    as [G1 G2].
  split; [exact G1|]. intros category score H. apply G2.
  rewrite getKeywordMatches_stated in H. apply in_map_iff in H.
  destruct H as [entry [E H]]. inversion E; subst.
  apply (in_map (fun entry : AICategory * list jsstring =>
                   scoreAsStated text (snd entry)) _ _ H).
Qed.

Lemma bestScoreAsStated_absent (text : jsstring) :
  noKeyword text -> bestScoreAsStated text = 0.
Proof.
  unfold ClassificationSpec.noKeyword, ClassificationSpec.bestScoreAsStated.
  generalize keywordDictionary. intros dictionary H.
  induction dictionary as [|[category keywords] rest IH]; simpl; [reflexivity|].
  rewrite IH by (intros c ks k Hin; apply (H c ks k); now right).
  rewrite scoreAsStated_absent; [reflexivity|].
  intros k Hk. apply (H category keywords k); [now left | assumption].
Qed.

Lemma noKeywordb_noKeyword (text : jsstring) :
  noKeywordb toLowerCase text = true -> noKeyword text.
Proof.
  unfold noKeywordb, ClassificationSpec.noKeyword. intros H c ks k Hin Hk.
  rewrite forallb_forall in H. specialize (H _ Hin). simpl in H.
  rewrite forallb_forall in H. specialize (H _ Hk).
  now apply negb_true_iff in H.
Qed.

(** A score of zero gives a confidence below every positive threshold. *)
Lemma confidence_zero (textLength : Z) (threshold : Q) :
  (0 < threshold)%Q -> (confidenceAsStated 0 textLength < threshold)%Q.
Proof.
  intros H. unfold confidenceAsStated.
  eapply Qle_lt_trans; [apply Q.le_min_l|].
  unfold Qdiv. change (inject_Z 0) with 0%Q. now rewrite Qmult_0_l.
Qed.

Lemma classifyNews_cases (self : t) (item : NewsItem.t) :
  classifyNews self item
  = if ltb (confidence (analyzeContent self (NewsItem.title item)
                                       (NewsItem.description item)))
           (minConfidenceThreshold self)
    then NewsItem.category item
    else category (analyzeContent self (NewsItem.title item)
                                  (NewsItem.description item)).
Proof. reflexivity. Qed.

End Runtime.

End ClassificationFacts.

Module ClassificationTheorems.

Import ClassificationService ClassificationSpec ClassificationFacts.

(** C6. For every title and description, with [text] the lower-cased
    title, a space and the description: the score map holds, for each
    category, the sum over the category's keywords of the occurrence count
    of the lower-cased keyword in [text] times the weight of the keyword.
    The occurrence count is the number of occurrences told apart, the
    largest number of occurrences no two of which overlap: the count of
    the code is that number, and whatever counts so gives the code's
    scores and confidence. For a keyword that cannot overlap itself it is
    the number of positions of [text] at which the keyword stands, and it
    is positive exactly when the keyword is a substring of [text]. The
    weight is 3 for a keyword longer than 10, 2 for one longer than 6, and
    1 otherwise; the confidence is
    [min (best / max (length text / 100, 1), 1)], [best] being the highest
    category score. *)
Theorem scores_and_confidence_as_stated
        (toLowerCase : jsstring -> jsstring) (self : t)
        (title description : jsstring) :
  let text := toLowerCase (title ++ js " " ++ description) in
  getKeywordMatches toLowerCase text
  = map (fun entry => (fst entry, scoreAsStated toLowerCase text (snd entry)))
        keywordDictionary
  /\ (forall category,
         In (category,
             scoreAsStated toLowerCase text
                           (keywordsOf keywordDictionary category))
            (getKeywordMatches toLowerCase text))
  /\ map fst (getKeywordMatches toLowerCase text) = AICategories.values
  /\ (forall keyword,
         getKeywordWeight keyword
         = if 10 <? Z.of_nat (length keyword) then 3
           else if 6 <? Z.of_nat (length keyword) then 2 else 1)
  /\ (forall keyword,
         0 < matchCount (toLowerCase keyword) text
         <-> JSString.includes text (toLowerCase keyword) = true)
  /\ confidence (analyzeContent toLowerCase self title description)
     = Qmin (inject_Z (bestScoreAsStated toLowerCase text)
             / Qmax (inject_Z (Z.of_nat (length text)) / 100) 1) 1
  /\ (forall keyword,
         occurrenceCount (toLowerCase keyword) text
                         (matchCount (toLowerCase keyword) text))
  /\ (forall keyword,
         toLowerCase keyword <> [] ->
         overlapsItself (toLowerCase keyword) = false ->
         matchCount (toLowerCase keyword) text
         = occurrences (toLowerCase keyword) text)
  /\ (forall count : jsstring -> Z,
         (forall keyword,
             occurrenceCount (toLowerCase keyword) text (count keyword)) ->
         getKeywordMatches toLowerCase text
         = map (fun entry => (fst entry, scoreWith count (snd entry)))
               keywordDictionary
         /\ confidence (analyzeContent toLowerCase self title description)
            = Qmin (inject_Z
                      (fold_right Z.max 0
                                  (map (fun entry => scoreWith count (snd entry))
                                       keywordDictionary))
                    / Qmax (inject_Z (Z.of_nat (length text)) / 100) 1) 1).
Proof.
  intros text.
  assert (Confidence :
            confidence (analyzeContent toLowerCase self title description)
            = Qmin (inject_Z (bestScoreAsStated toLowerCase text)
                    / Qmax (inject_Z (Z.of_nat (length text)) / 100) 1) 1).
  { destruct (analyzeContent_fields toLowerCase self title description)
      as (_ & C & _).
    cbv zeta in C. rewrite C.
    rewrite (bestScore_stated toLowerCase self title description).
    reflexivity. }
  split; [|split; [|split; [|split; [|split; [|split; [|split; [|split]]]]]]].
  - apply getKeywordMatches_stated.
  - intros category. apply getKeywordMatches_category.
  - rewrite getKeywordMatches_stated, map_map. simpl.
    apply dictionary_categories.
  - reflexivity.
  - intros keyword. apply matchCount_pos.
  - exact Confidence.
  - intros keyword. apply matchCount_occurrenceCount.
  - intros keyword NE N. now apply matchCount_occurrences.
  - intros count Counts.
    assert (Same : forall keywords,
               scoreWith count keywords
               = scoreAsStated toLowerCase text keywords).
    { intros keywords. unfold scoreWith, ClassificationSpec.scoreAsStated.
      f_equal. apply map_ext. intros keyword.
      rewrite (occurrenceCount_unique
                 _ _ _ _ (Counts keyword)
                 (matchCount_occurrenceCount (toLowerCase keyword) text)).
      reflexivity. }
    split.
    + rewrite getKeywordMatches_stated. apply map_ext. intros entry.
      now rewrite Same.
    + rewrite Confidence. unfold ClassificationSpec.bestScoreAsStated.
      do 4 f_equal. apply map_ext. intros entry. now rewrite Same.
Qed.

(** C5. For every item, [classifyNews] returns the category carried by
    the item when the confidence is strictly below the threshold of the
    service, and the candidate category otherwise. The candidate has the
    highest score when some score is positive, and is the service's default
    category when none is. In particular, under a positive threshold (0.1
    by default), a text in which no keyword of any category occurs gets the
    category carried by the item. *)
Theorem classification_threshold
        (toLowerCase : jsstring -> jsstring) (self : t) (item : NewsItem.t) :
  let result :=
    analyzeContent toLowerCase self (NewsItem.title item)
                   (NewsItem.description item) in
  let text :=
    combine toLowerCase (NewsItem.title item) (NewsItem.description item) in
  ((confidence result < minConfidenceThreshold self)%Q ->
   classifyNews toLowerCase self item = NewsItem.category item)
  /\ (~ (confidence result < minConfidenceThreshold self)%Q ->
      classifyNews toLowerCase self item = category result)
  /\ (forall c score,
         In (c, score) (getKeywordMatches toLowerCase text) ->
         score <= bestScoreAsStated toLowerCase text)
  /\ (0 < bestScoreAsStated toLowerCase text ->
      In (category result, bestScoreAsStated toLowerCase text)
         (getKeywordMatches toLowerCase text))
  /\ (bestScoreAsStated toLowerCase text = 0 ->
      category result = defaultCategory self)
  /\ ((0 < minConfidenceThreshold self)%Q ->
      noKeyword toLowerCase text ->
      classifyNews toLowerCase self item = NewsItem.category item)
  /\ minConfidenceThreshold new = 1 # 10.
Proof.
  intros result text.
  pose proof (analyzeContent_fields toLowerCase self (NewsItem.title item)
                                    (NewsItem.description item)) as F.
  cbv zeta in F. fold result text in F. destruct F as (Fc & Fq & _).
  pose proof (bestScore_stated toLowerCase self (NewsItem.title item)
                               (NewsItem.description item)) as B.
  cbv zeta in B. fold text in B.
  pose proof (fold_pickBest toLowerCase text
                            (getKeywordMatches toLowerCase text)
                            (defaultCategory self) 0 []) as P.
  cbv zeta in P. destruct P as (_ & P2 & P3).
  rewrite B in *.
  split; [|split; [|split; [|split; [|split; [|split]]]]].
  - intros L. rewrite classifyNews_cases. fold result.
    apply ltb_lt in L. now rewrite L.
  - intros L. rewrite classifyNews_cases. fold result.
    destruct (ltb (confidence result) (minConfidenceThreshold self)) eqn:E;
      [|reflexivity].
    apply ltb_lt in E. contradiction.
  - apply bestScoreAsStated_bounds.
  - intros H. rewrite Fc. exact (P3 H).
  - intros H. rewrite Fc, (P2 H). reflexivity.
  - intros T N. rewrite classifyNews_cases. fold result.
    rewrite Fq, (bestScoreAsStated_absent toLowerCase text N).
    pose proof (confidence_zero (Z.of_nat (length text)) _ T) as L.
    apply ltb_lt in L. now rewrite L.
  - reflexivity.
Qed.

Lemma classification_threshold_witness :
  classifyNews JSString.asciiLower new Examples.weather = AI_NOCODE
  /\ classifyNews JSString.asciiLower new Examples.gptNews = AI_MODELS.
Proof.
  destruct (classification_threshold JSString.asciiLower new Examples.weather)
    as (_ & _ & _ & _ & _ & Absent & _).
  destruct (classification_threshold JSString.asciiLower new Examples.gptNews)
    as (_ & High & _).
  split.
  - apply Absent.
    + reflexivity.
    + apply noKeywordb_noKeyword. vm_compute. reflexivity.
  - rewrite High.
    + vm_compute. reflexivity.
    + vm_compute. intros H. discriminate H.
Defined.

Lemma scores_and_confidence_as_stated_witness :
  let text :=
    JSString.asciiLower
      (NewsItem.title Examples.gptNews ++ js " "
       ++ NewsItem.description Examples.gptNews) in
  matchCount (JSString.asciiLower (js "GPT")) text = 2
  /\ matchCount (JSString.asciiLower (js "model")) text = 2
  /\ In (AI_MODELS, 6) (getKeywordMatches JSString.asciiLower text).
Proof.
  cbv zeta.
  destruct (scores_and_confidence_as_stated
              JSString.asciiLower new
              (NewsItem.title Examples.gptNews)
              (NewsItem.description Examples.gptNews))
    as (_ & _ & _ & _ & _ & _ & _ & Positions & Scores).
  cbv zeta in Positions, Scores.
  split; [|split].
  - rewrite (Positions (js "GPT")).
    + vm_compute. reflexivity.
    + vm_compute. discriminate.
    + vm_compute. reflexivity.
  - rewrite (Positions (js "model")).
    + vm_compute. reflexivity.
    + vm_compute. discriminate.
    + vm_compute. reflexivity.
  - destruct (Scores
                (fun keyword =>
                   matchCount
                     (JSString.asciiLower keyword)
                     (JSString.asciiLower
                        (NewsItem.title Examples.gptNews ++ js " "
                         ++ NewsItem.description Examples.gptNews))))
      as [Map _].
    + intros keyword. apply matchCount_occurrenceCount.
    + rewrite Map. vm_compute. left. reflexivity.
Defined.

End ClassificationTheorems.

(* ================================================================== *)
(** * The collector *)

Module CollectorTheorems.

Import NewsCollectorService CollectorSpec.

(** The loop over the settled results, started at the index the results
    start at, appends the contributions in order. *)
Lemma forEachFrom_appends
      (done rest : list (RSSSource.t * PromiseSettledResult (list NewsItem.t)))
      (acc : Collected) :
  forEachFrom (map fst (done ++ rest)) (length done) (map snd rest) acc
  = {| allNews := allNews acc ++ successfulRecords rest;
       successCount :=
         successCount acc + countWhere (fun t => isFulfilled (snd t)) rest;
       errorCount :=
         errorCount acc
         + countWhere (fun t => negb (isFulfilled (snd t))) rest |}.
Proof.
  revert done acc. induction rest as [|[source result] rest IH]; intros done acc.
  - unfold countWhere, successfulRecords. simpl.
    rewrite app_nil_r, !Z.add_0_r. now destruct acc.
  - cbn [map snd forEachFrom].
    assert (N : nth_error (map fst (done ++ (source, result) :: rest)) (length done)
                = Some source).
    { rewrite map_app, nth_error_app2 by (rewrite length_map; lia).
      rewrite length_map, Nat.sub_diag. reflexivity. }
    unfold collectResult. rewrite N.
    replace (done ++ (source, result) :: rest)
      with ((done ++ [(source, result)]) ++ rest)
      by (rewrite <- app_assoc; reflexivity).
    replace (S (length done)) with (length (done ++ [(source, result)]))
      by (rewrite length_app; simpl; lia).
    rewrite IH. unfold countWhere, successfulRecords.
    destruct result as [value|reason]; cbn [allNews successCount errorCount];
      cbn [flat_map filter snd isFulfilled negb contribution length];
      rewrite ?app_assoc, ?app_nil_r; f_equal; lia.
Qed.

Lemma successfulRecords_none
      (tasks : list (RSSSource.t * PromiseSettledResult (list NewsItem.t))) :
  (forall task, In task tasks -> isFulfilled (snd task) = false) ->
  successfulRecords tasks = [].
Proof.
  unfold successfulRecords.
  induction tasks as [|[source result] rest IH]; intros H; simpl; [reflexivity|].
  rewrite IH by (intros t Ht; apply H; now right).
  specialize (H (source, result) (or_introl eq_refl)). simpl in H.
  destruct result; [discriminate | reflexivity].
Qed.

(** C7. Whatever the sources and however each source's task settles, the
    promise of [collectFromAllSources] is fulfilled, never rejected: with
    the records of the successful sources, in the order of the sources and
    each source's records in their own order. A failed source contributes
    nothing and is counted as an error, and when every source fails the
    value is the empty array. *)
Theorem collection_tolerates_failures
        (tasks : list (RSSSource.t * PromiseSettledResult (list NewsItem.t))) :
  collectFromAllSources tasks = fulfilled (successfulRecords tasks)
  /\ successCount (collectFromAllSourcesCounted tasks)
     = countWhere (fun t => isFulfilled (snd t)) tasks
  /\ errorCount (collectFromAllSourcesCounted tasks)
     = countWhere (fun t => negb (isFulfilled (snd t))) tasks
  /\ (forall before source reason after,
         tasks = before ++ (source, rejected reason) :: after ->
         successfulRecords tasks
         = successfulRecords before ++ successfulRecords after)
  /\ (forall before source value after,
         tasks = before ++ (source, fulfilled value) :: after ->
         successfulRecords tasks
         = successfulRecords before ++ value ++ successfulRecords after)
  /\ ((forall task, In task tasks -> isFulfilled (snd task) = false) ->
      collectFromAllSources tasks = fulfilled []).
Proof.
  assert (E : collectFromAllSourcesCounted tasks
              = {| allNews := successfulRecords tasks;
                   successCount :=
                     countWhere (fun t => isFulfilled (snd t)) tasks;
                   errorCount :=
                     countWhere (fun t => negb (isFulfilled (snd t))) tasks |}).
  { unfold collectFromAllSourcesCounted.
    exact (forEachFrom_appends
             [] tasks {| allNews := []; successCount := 0; errorCount := 0 |}). }
  unfold collectFromAllSources. rewrite E. cbn [allNews successCount errorCount].
  split; [reflexivity|]. split; [reflexivity|]. split; [reflexivity|].
  split; [|split].
  - intros before source reason after ->. unfold successfulRecords.
    rewrite flat_map_app. reflexivity.
  - intros before source value after ->. unfold successfulRecords.
    rewrite flat_map_app. reflexivity.
  - intros H. now rewrite successfulRecords_none.
Qed.

Lemma collection_tolerates_failures_witness :
  collectFromAllSources Examples.mixedTasks
  = fulfilled [Examples.test1; Examples.test2; Examples.test3]
  /\ collectFromAllSources Examples.failingTasks = fulfilled [].
Proof.
  split.
  - rewrite (proj1 (collection_tolerates_failures Examples.mixedTasks)).
    reflexivity.
  - destruct (collection_tolerates_failures Examples.failingTasks)
      as (_ & _ & _ & _ & _ & AllFail).
    apply AllFail.
    intros task H. unfold Examples.failingTasks in H.
    apply in_map_iff in H. destruct H as [source [<- _]]. reflexivity.
Defined.

End CollectorTheorems.

(* ================================================================== *)
(** * The scheduler *)

Module SchedulerTheorems.

Import SchedulerService SchedulerSpec.

Lemma executeCollection_running (now : Z) (self : t) :
  isRunning self = true -> executeCollection now self = (returned conflict, self).
Proof. unfold executeCollection. now intros ->. Qed.

Lemma executeCollection_idle (now : Z) (self : t) :
  isRunning self = false ->
  fst (executeCollection now self) = awaiting now
  /\ isRunning (snd (executeCollection now self)) = true
  /\ totalRuns (stats (snd (executeCollection now self)))
     = totalRuns (stats self) + 1
  /\ storage (snd (executeCollection now self)) = storage self
  /\ classifier (snd (executeCollection now self)) = classifier self.
Proof. unfold executeCollection. intros ->. simpl. auto. Qed.

Lemma completeCollection_result (self : t) (startTime endTime : Z)
      (ok : bool) (count : Z) (message : option jsstring) :
  fst (completeCollection self startTime endTime ok count message)
  = Build_RunResult ok count (endTime - startTime) message
  /\ isRunning (snd (completeCollection self startTime endTime ok count message))
     = false.
Proof. split; reflexivity. Qed.

(** A collection whose sources have settled ends in success. *)
Lemma resumeCollection_fulfilled {host : JSDate.Host}
      (toLowerCase : jsstring -> jsstring) (maxItems maxAgeInDays : Z)
      (self : t) (startTime : Z) (collectedNews : list NewsItem.t)
      (clock : nat -> Z) (endTime : Z) :
  let finished :=
    resumeCollection toLowerCase maxItems maxAgeInDays self startTime
                     (NewsCollectorService.fulfilled collectedNews)
                     clock endTime in
  success (fst finished) = true
  /\ error (fst finished) = None
  /\ isRunning (snd finished) = false.
Proof.
  cbv zeta. unfold resumeCollection.
  destruct collectedNews as [|item rest].
  - repeat split.
  - destruct (ClassificationService.classifyNewsBatch _ _ _) as [classified c'].
    destruct (StorageService.saveNewsItems _ _ _ _) as [saved st'].
    repeat split.
Qed.

(** C2, as the code has it. A trigger that finds a collection in flight,
    from the timer or by hand, returns at once the result with
    [success = false], [itemsCollected = 0] and the error string
    "Collection already in progress"; it leaves the scheduler, its
    statistics, the classifier and the store as they were, so nothing is
    fetched, classified, stored or queued, and nothing is thrown. Of two
    triggers of which the first is still awaiting its sources, the second
    gets that result, and the first ends in success once the promise of
    [collectFromAllSources] is fulfilled, as it always is. *)
Theorem running_collection_rejects_triggers {host : JSDate.Host}
        (toLowerCase : jsstring -> jsstring) (maxItems maxAgeInDays : Z) :
  (forall now self,
      isRunning self = true ->
      executeCollection now self = (returned conflict, self)
      /\ executeCollectionManually now self = (returned conflict, self)
      /\ scheduledTask now self = (returned conflict, self))
  /\ success conflict = false
  /\ itemsCollected conflict = 0
  /\ error conflict = Some (js "Collection already in progress")
  /\ JSString.includes (js "Collection already in progress")
                       (js "already in progress") = true
  /\ (forall now1 now2 self tasks clock endTime,
         isRunning self = false ->
         let first := executeCollectionManually now1 self in
         let second := executeCollectionManually now2 (snd first) in
         let finished :=
           resumeCollection toLowerCase maxItems maxAgeInDays (snd second) now1
                            (NewsCollectorService.collectFromAllSources tasks)
                            clock endTime in
         fst first = awaiting now1
         /\ second = (returned conflict, snd first)
         /\ success (fst finished) = true
         /\ error (fst finished) = None
         /\ isRunning (snd finished) = false).
Proof.
  split; [|split; [|split; [|split; [|split]]]]; try reflexivity.
  - intros now self R. unfold executeCollectionManually, scheduledTask.
    rewrite (executeCollection_running now self R). auto.
  - intros now1 now2 self tasks clock endTime Idle first second finished.
    destruct (executeCollection_idle now1 self Idle) as (A & R & _).
    assert (S : second = (returned conflict, snd first))
      by (apply executeCollection_running; exact R).
    split; [exact A|]. split; [exact S|].
    subst finished. rewrite S. cbn [snd].
    apply resumeCollection_fulfilled.
Qed.

Lemma running_collection_rejects_triggers_witness :
  executeCollectionManually Examples.now Examples.runningScheduler
  = (returned conflict, Examples.runningScheduler)
  /\ fst (executeCollectionManually
            Examples.now (new ClassificationService.new []))
     = awaiting Examples.now.
Proof.
  destruct (running_collection_rejects_triggers
              (host := JSDate.utc) JSString.asciiLower 1000 7)
    as (Running & _ & _ & _ & _ & Two).
  split.
  - apply Running. reflexivity.
  - apply (Two Examples.now Examples.now (new ClassificationService.new [])
               Examples.mixedTasks (fun _ => Examples.now) Examples.now).
    reflexivity.
Defined.

(** The statement of C2 fails on the error string: the trigger that finds a
    collection in flight does not return the string "already in
    progress". *)
Lemma conflict_error_is_longer :
  isRunning Examples.runningScheduler = true
  /\ fst (executeCollectionManually Examples.now Examples.runningScheduler)
     = returned conflict
  /\ error conflict <> Some (js "already in progress")
  /\ fst (executeCollectionManually Examples.now Examples.runningScheduler)
     <> returned conflictAsStated.
Proof.
  split; [reflexivity|]. split; [reflexivity|]. split.
  - vm_compute. discriminate.
  - vm_compute. discriminate.
Qed.

End SchedulerTheorems.

(* ================================================================== *)
(** * More about the store *)

Module StorageExtraFacts.

Import StorageService StorageSpec StorageFacts.

Lemma In_firstn {A : Type} (n : nat) (l : list A) (x : A) :
  In x (firstn n l) -> In x l.
Proof.
  intros H. rewrite <- (firstn_skipn n l). apply in_or_app. now left.
Qed.

Lemma In_skipn {A : Type} (n : nat) (l : list A) (x : A) :
  In x (skipn n l) -> In x l.
Proof.
  intros H. rewrite <- (firstn_skipn n l). apply in_or_app. now right.
Qed.

Lemma slice_In {A : Type} (l : list A) (start : Z) (end_ : option Z) (x : A) :
  In x (JSArray.slice l start end_) -> In x l.
Proof.
  unfold JSArray.slice. intros H.
  apply In_firstn in H. eapply In_skipn. exact H.
Qed.

Lemma slice_sorted {A : Type} (R : A -> A -> Prop) (l : list A)
      (start : Z) (end_ : option Z) :
  StronglySorted R l -> StronglySorted R (JSArray.slice l start end_).
Proof.
  unfold JSArray.slice. intros S.
  assert (K : forall n (m : list A), StronglySorted R m -> StronglySorted R (skipn n m)).
  { induction n as [|n IH]; intros m Sm; [assumption|].
    destruct m as [|y m]; [constructor|]. simpl. apply IH.
    now inversion Sm. }
  assert (F : forall n (m : list A), StronglySorted R m -> StronglySorted R (firstn n m)).
  { induction n as [|n IH]; intros m Sm; [constructor|].
    destruct m as [|y m]; [constructor|]. simpl.
    inversion Sm as [|? ? Sm' Hy]; subst. constructor; [now apply IH|].
    rewrite Forall_forall in *. intros z Hz. apply Hy.
    eapply In_firstn. exact Hz. }
  apply F, K, S.
Qed.

Lemma slice_length_upto {A : Type} (l : list A) (n : Z) :
  0 < n -> Z.of_nat (length (JSArray.slice l 0 (Some n))) <= n.
Proof.
  intros H. rewrite JSArrayFacts.slice_upto by lia.
  rewrite length_firstn. lia.
Qed.

(** The array that [getNewsItems] sorts, and what it then cuts out. *)
Lemma getNewsItems_cut (st : Store) (options : StorageFilterOptions) :
  exists paged,
    getNewsItems st options
    = match limit options with
      | Some n => if n =? 0 then paged else JSArray.slice paged 0 (Some n)
      | None => paged
      end
    /\ (forall x, In x paged ->
                  In x (JSMap.values st)
                  /\ passes (effective options) x = true)
    /\ newestToOldest paged.
Proof.
  pose proof (StorageTheorems.getNewsItems_unpaged
                st
                {| category := category options;
                   startDate := startDate options;
                   endDate := endDate options;
                   source := source options;
                   limit := None; offset := None |} eq_refl eq_refl) as U.
  destruct options as [cat sd ed src lim off]. simpl in U.
  change (passes (effective (Build_StorageFilterOptions cat sd ed src None None)))
    with (passes (effective (Build_StorageFilterOptions cat sd ed src lim off)))
    in U.
  unfold getNewsItems in *. simpl in *.
  set (sorted := JSArray.sort newestFirst _) in *.
  assert (Sin : forall x, In x sorted ->
                          In x (JSMap.values st)
                          /\ passes (effective
                                       (Build_StorageFilterOptions
                                          cat sd ed src lim off)) x = true).
  { intros x Hx. rewrite U in Hx. apply JSArrayFacts.sort_In in Hx.
    now apply filter_In in Hx. }
  assert (Ss : newestToOldest sorted)
    by (unfold sorted; apply StorageTheorems.sort_newestToOldest).
  exists (match off with
          | Some o => if o =? 0 then sorted else JSArray.slice sorted o None
          | None => sorted
          end).
  split; [reflexivity|]. split.
  - intros x Hx. apply Sin.
    destruct off as [o|]; [|assumption].
    destruct (o =? 0); [assumption|]. eapply slice_In. exact Hx.
  - destruct off as [o|]; [|assumption].
    destruct (o =? 0); [assumption|]. now apply slice_sorted.
Qed.

(** ** Lookup after a save *)

Lemma cleanupOldItems_length
      {host : JSDate.Host} maxAgeInDays now (st : Store) :
  (length (cleanupOldItems maxAgeInDays now st) <= length st)%nat.
Proof. unfold cleanupOldItems. apply filter_length_le. Qed.

Lemma set_length_fresh (st : Store) id item :
  JSMap.get id st = None ->
  length (JSMap.set id item st) = S (length st).
Proof.
  intros G. rewrite JSMapFacts.set_fresh by assumption.
  rewrite length_app. simpl. lia.
Qed.

Lemma get_filter_last (p : jsstring * NewsItem.t -> bool) (st : Store) id item :
  JSMap.get id st = None -> p (id, item) = true ->
  JSMap.get id (filter p (st ++ [(id, item)])) = Some item.
Proof.
  induction st as [|[k v] rest IH]; simpl; intros G P.
  - rewrite P. simpl. now rewrite JSStringFacts.eqb_refl.
  - destruct (JSString.eqb id k) eqn:E; [discriminate|].
    destruct (p (k, v)); simpl; rewrite ?E; now apply IH.
Qed.

Lemma isDuplicate_false_get (st : Store) item :
  isDuplicate st item = false -> JSMap.get (NewsItem.id item) st = None.
Proof.
  unfold isDuplicate, JSMap.has.
  destruct (JSMap.get (NewsItem.id item) st); [discriminate | reflexivity].
Qed.

(** A save that is not a duplicate, of an item inside the retention
    window, into a store with room for it, stores the item. *)
Lemma saveNewsItem_stores
      {host : JSDate.Host} maxItems maxAgeInDays now (st : Store) item :
  isDuplicate st item = false ->
  isOld maxAgeInDays now item = false ->
  getItemCount st < maxItems ->
  saveNewsItem maxItems maxAgeInDays now st item
  = (true, cleanupOldItems maxAgeInDays now (st ++ [(NewsItem.id item, item)]))
  /\ getNewsItem (snd (saveNewsItem maxItems maxAgeInDays now st item))
                 (NewsItem.id item) = Some item.
Proof.
  intros D Fresh Room.
  pose proof (isDuplicate_false_get st item D) as G.
  rewrite saveNewsItem_fresh by assumption.
  rewrite JSMapFacts.set_fresh by assumption.
  pose proof (cleanupOldItems_length maxAgeInDays now
                                     (st ++ [(NewsItem.id item, item)])) as L.
  rewrite length_app in L. simpl in L.
  rewrite enforceMemoryLimit_within
    by (unfold getItemCount, JSMap.size in *; lia).
  split; [reflexivity|]. cbn [snd]. unfold getNewsItem, cleanupOldItems.
  apply get_filter_last; [assumption|].
  simpl. apply negb_true_iff. assumption.
Qed.

(** ** Batches *)

Lemma saveNewsItems_app
      {host : JSDate.Host} maxItems maxAgeInDays (st : Store) batch1 batch2 :
  saveNewsItems maxItems maxAgeInDays st (batch1 ++ batch2)
  = (fst (saveNewsItems maxItems maxAgeInDays st batch1)
     + fst (saveNewsItems
              maxItems maxAgeInDays
              (snd (saveNewsItems maxItems maxAgeInDays st batch1)) batch2),
     snd (saveNewsItems
            maxItems maxAgeInDays
            (snd (saveNewsItems maxItems maxAgeInDays st batch1)) batch2)).
Proof.
  revert st. induction batch1 as [|[now item] rest IH]; intros st.
  - simpl. now destruct (saveNewsItems maxItems maxAgeInDays st batch2).
  - rewrite <- app_comm_cons, !saveNewsItems_cons, IH. cbn [fst snd].
    f_equal. lia.
Qed.

Lemma enforceMemoryLimit_length maxItems (s : Store) :
  (length (enforceMemoryLimit maxItems s) <= length s)%nat.
Proof.
  remember (length s) as n eqn:Hn.
  assert (Hle : (length s <= n)%nat) by lia.
  rewrite Hn. clear Hn.
  revert s Hle. induction n as [|n IH]; intros s Hle;
    rewrite enforceMemoryLimit_unfold;
    destruct (maxItems <? JSMap.size s); try lia;
    destruct (JSArray.sort oldestFirst s) as [|[id0 item0] rest] eqn:E;
    try lia;
    apply oldest_head in E; destruct E as [Hin _];
    assert (K : In id0 (JSMap.keys s))
      by (change id0 with (fst (id0, item0)); now apply in_map);
    pose proof (JSMapFacts.length_delete_lt id0 s K) as Hlt;
    [lia|].
  specialize (IH (JSMap.delete id0 s)). lia.
Qed.

Lemma saveNewsItem_grows
      {host : JSDate.Host} maxItems maxAgeInDays now (st : Store) item :
  getItemCount (snd (saveNewsItem maxItems maxAgeInDays now st item))
  <= getItemCount st
     + (if fst (saveNewsItem maxItems maxAgeInDays now st item) then 1 else 0).
Proof.
  unfold saveNewsItem. destruct (isDuplicate st item) eqn:D; cbn [fst snd].
  - lia.
  - pose proof (isDuplicate_false_get st item D) as G.
    pose proof (enforceMemoryLimit_length
                  maxItems
                  (cleanupOldItems maxAgeInDays now
                                   (JSMap.set (NewsItem.id item) item st))) as L1.
    pose proof (cleanupOldItems_length
                  maxAgeInDays now (JSMap.set (NewsItem.id item) item st)) as L2.
    rewrite (set_length_fresh st _ item G) in L2.
    unfold getItemCount, JSMap.size. lia.
Qed.

Lemma saveNewsItems_count
      {host : JSDate.Host} maxItems maxAgeInDays (st : Store) batch :
  0 <= fst (saveNewsItems maxItems maxAgeInDays st batch)
       <= Z.of_nat (length batch)
  /\ getItemCount (snd (saveNewsItems maxItems maxAgeInDays st batch))
     <= getItemCount st + fst (saveNewsItems maxItems maxAgeInDays st batch).
Proof.
  revert st. induction batch as [|[now item] rest IH]; intros st.
  - simpl. lia.
  - rewrite saveNewsItems_cons. cbn [fst snd].
    specialize (IH (snd (saveNewsItem maxItems maxAgeInDays now st item))).
    pose proof (saveNewsItem_grows maxItems maxAgeInDays now st item) as G.
    destruct (fst (saveNewsItem maxItems maxAgeInDays now st item));
      simpl length; lia.
Qed.

End StorageExtraFacts.

Module CountersFacts.

Import Counters.

Section Table.

Context {K : Type}.
Variable eqb : K -> K -> bool.
Hypothesis eqb_eq : forall a b, eqb a b = true <-> a = b.

Lemma eqb_same (a : K) : eqb a a = true.
Proof. now apply eqb_eq. Qed.

Lemma eqb_other (a b : K) : a <> b -> eqb a b = false.
Proof.
  intros N. destruct (eqb a b) eqn:E; [|reflexivity].
  apply eqb_eq in E. contradiction.
Qed.

Lemma get_increment_same (key : K) (counts : t K) :
  get eqb key (increment eqb key counts)
  = Some (orZero (get eqb key counts) + 1).
Proof.
  induction counts as [|[k n] rest IH]; simpl.
  - now rewrite eqb_same.
  - destruct (eqb key k) eqn:E; simpl; rewrite E; [reflexivity | exact IH].
Qed.

Lemma get_increment_other (key other : K) (counts : t K) :
  key <> other ->
  get eqb other (increment eqb key counts) = get eqb other counts.
Proof.
  intros N. induction counts as [|[k n] rest IH]; simpl.
  - rewrite eqb_other; [reflexivity | congruence].
  - destruct (eqb key k) eqn:E; simpl.
    + apply eqb_eq in E. subst k.
      rewrite eqb_other; [reflexivity | congruence].
    + now rewrite IH.
Qed.

Lemma total_increment (key : K) (counts : t K) :
  total (increment eqb key counts) = total counts + 1.
Proof.
  unfold total. induction counts as [|[k n] rest IH]; simpl; [reflexivity|].
  destruct (eqb key k); simpl; lia.
Qed.

(** Counting a list of things by a key of theirs. *)
Lemma count_by_key {A : Type} (key : A -> K) (items : list A)
      (counts : t K) (k : K) :
  let final := fold_left (fun c item => increment eqb (key item) c) items counts in
  orZero (get eqb k final)
  = orZero (get eqb k counts)
    + Z.of_nat (length (filter (fun item => eqb (key item) k) items))
  /\ total final = total counts + Z.of_nat (length items)
  /\ (get eqb k final = None ->
      get eqb k counts = None
      /\ filter (fun item => eqb (key item) k) items = []).
Proof.
  revert counts. induction items as [|item rest IH]; intros counts; cbv zeta.
  - simpl. split; [lia|]. split; [lia | auto].
  - cbn [fold_left filter length].
    specialize (IH (increment eqb (key item) counts)). cbv zeta in IH.
    destruct IH as (I1 & I2 & I3).
    rewrite I1, I2, total_increment.
    destruct (eqb (key item) k) eqn:E.
    + apply eqb_eq in E. subst k.
      rewrite get_increment_same. simpl orZero. cbn [length].
      split; [lia|]. split; [lia|].
      intros H. apply I3 in H. destruct H as [H _].
      rewrite get_increment_same in H. discriminate.
    + assert (N : key item <> k)
        by (intros F; apply eqb_eq in F; congruence).
      rewrite (get_increment_other _ _ _ N).
      split; [reflexivity|]. split; [cbn [length]; lia|].
      intros H. apply I3 in H. rewrite (get_increment_other _ _ _ N) in H.
      exact H.
Qed.

Lemma increment_keys (key : K) (counts : t K) :
  NoDup (map fst counts) -> NoDup (map fst (increment eqb key counts)).
Proof.
  induction counts as [|[k n] rest IH]; simpl; intros N.
  - repeat constructor. simpl. tauto.
  - inversion N as [|? ? Hk Hr]; subst.
    destruct (eqb key k) eqn:E; simpl; [constructor; assumption|].
    constructor; [|auto]. intros H. apply Hk.
    clear IH N Hr Hk. induction rest as [|[k' n'] rest IH]; simpl in *.
    + destruct H as [H|[]]. subst. rewrite eqb_same in E. discriminate.
    + destruct (eqb key k') eqn:E'; simpl in H; [exact H|].
      destruct H as [H|H]; [now left | right; auto].
Qed.

Lemma increment_positive (key : K) (counts : t K) :
  Forall (fun entry => 0 < snd entry) counts ->
  Forall (fun entry => 0 < snd entry) (increment eqb key counts).
Proof.
  induction 1 as [|[k n] rest Hn Hr IH]; simpl.
  - repeat constructor.
  - destruct (eqb key k); constructor; simpl in *; auto; lia.
Qed.

Lemma counter_In_get (key : K) (n : Z) (counts : t K) :
  NoDup (map fst counts) -> In (key, n) counts -> get eqb key counts = Some n.
Proof.
  induction counts as [|[k m] rest IH]; simpl; [tauto|].
  intros N. inversion N as [|? ? Hk Hr]; subst.
  intros [[= -> ->]|H].
  - now rewrite eqb_same.
  - destruct (eqb key k) eqn:E; [|auto].
    apply eqb_eq in E. subst. exfalso. apply Hk.
    change k with (fst (k, n)). now apply in_map.
Qed.

(** A table filled by counting has each key once, with a positive count. *)
Lemma counted_table {A : Type} (key : A -> K) (items : list A) (counts : t K) :
  NoDup (map fst counts) ->
  Forall (fun entry => 0 < snd entry) counts ->
  let final := fold_left (fun c item => increment eqb (key item) c) items counts in
  NoDup (map fst final) /\ Forall (fun entry => 0 < snd entry) final.
Proof.
  revert counts. induction items as [|item rest IH]; intros counts N P; cbv zeta.
  - simpl. auto.
  - cbn [fold_left]. apply IH.
    + now apply increment_keys.
    + now apply increment_positive.
Qed.

End Table.

End CountersFacts.

Module StorageReportFacts.

Import StorageService StorageReports.

Lemma tally_byCategory (items : list NewsItem.t) (acc : Tally) :
  byCategory (fold_left tally items acc)
  = fold_left (fun c item =>
                 Counters.increment AICategories.eqb (NewsItem.category item) c)
              items (byCategory acc).
Proof.
  revert acc. induction items as [|item rest IH]; intros acc; simpl;
    [reflexivity|]. now rewrite IH.
Qed.

Lemma tally_bySource (items : list NewsItem.t) (acc : Tally) :
  bySource (fold_left tally items acc)
  = fold_left (fun c item => countSource (NewsItem.source item) c)
              items (bySource acc).
Proof.
  revert acc. induction items as [|item rest IH]; intros acc; simpl;
    [reflexivity|]. now rewrite IH.
Qed.

(** The values of the enum are distinct strings, none of them the name of
    an inherited property. *)
Lemma labels_are_plain_keys :
  NoDup (map AICategories.label AICategories.values)
  /\ forallb (fun c => negb (inherited (AICategories.label c)))
             AICategories.values = true.
Proof.
  split; [|vm_compute; reflexivity].
  assert (D : forall a b : jsstring, JSString.eqb a b = false -> a <> b)
    by (intros a b H; now apply JSStringFacts.eqb_neq).
  vm_compute.
  repeat (constructor;
          [cbn [In]; intros H;
           repeat (destruct H as [H|H]; [discriminate H|]); exact H|]).
  constructor.
Qed.

Lemma filter_within {A : Type} (p q : A -> bool) (l : list A) :
  (forall x, p x = true -> q x = true) ->
  filter p (filter q l) = filter p l.
Proof.
  intros H. induction l as [|x rest IH]; [reflexivity|]. cbn [filter].
  destruct (p x) eqn:P.
  - rewrite (H x P). cbn [filter]. rewrite P. now rewrite IH.
  - destruct (q x); cbn [filter]; [rewrite P|]; exact IH.
Qed.

Lemma proto_inherited (source : jsstring) :
  JSString.eqb source (js "__proto__") = true -> inherited source = true.
Proof.
  intros H. apply JSStringFacts.eqb_eq in H. subst. vm_compute. reflexivity.
Qed.

Lemma countSource_numeric (source : jsstring)
      (counts : list (jsstring * SourceCount)) :
  plainKeys counts ->
  plainKeys (countSource source counts)
  /\ numericCounts (countSource source counts)
     = if inherited source then numericCounts counts
       else Counters.increment JSString.eqb source (numericCounts counts).
Proof.
  unfold plainKeys. induction counts as [|[key value] rest IH]; intros P.
  - cbn [countSource].
    destruct (JSString.eqb source (js "__proto__")) eqn:Proto.
    + rewrite (proto_inherited _ Proto). split; [constructor | reflexivity].
    + destruct (inherited source) eqn:I; cbn [numericCounts Counters.increment].
      * split; [|reflexivity]. constructor; [exact I | constructor].
      * split; [|reflexivity]. constructor; [exact I | constructor].
  - inversion P as [|? ? Pk Pr]; subst. cbn [fst snd] in Pk.
    specialize (IH Pr). destruct IH as [IH1 IH2].
    cbn [countSource].
    destruct (JSString.eqb source key) eqn:E.
    + apply JSStringFacts.eqb_eq in E. subst key.
      destruct value as [n|]; rewrite Pk; cbn [numericCounts Counters.increment].
      * rewrite JSStringFacts.eqb_refl.
        split; [|reflexivity]. constructor; [exact Pk | exact Pr].
      * split; [|reflexivity]. constructor; [exact Pk | exact Pr].
    + split; [constructor; [exact Pk | exact IH1]|].
      destruct value as [n|]; cbn [numericCounts]; rewrite IH2;
        destruct (inherited source); cbn [Counters.increment];
        try rewrite E; reflexivity.
Qed.

Lemma fold_countSource_numeric (items : list NewsItem.t)
      (counts : list (jsstring * SourceCount)) :
  plainKeys counts ->
  let final :=
    fold_left (fun c item => countSource (NewsItem.source item) c)
              items counts in
  plainKeys final
  /\ numericCounts final
     = fold_left (fun c item =>
                    Counters.increment JSString.eqb (NewsItem.source item) c)
                 (filter (fun item => negb (inherited (NewsItem.source item)))
                         items)
                 (numericCounts counts).
Proof.
  revert counts. induction items as [|item rest IH]; intros counts P;
    cbv zeta.
  - cbn. auto.
  - cbn [fold_left filter].
    destruct (countSource_numeric (NewsItem.source item) counts P) as [P' N].
    destruct (IH _ P') as [IH1 IH2]. cbv zeta in IH1, IH2.
    split; [exact IH1|]. rewrite IH2, N.
    destruct (inherited (NewsItem.source item)); reflexivity.
Qed.

Lemma plainKeys_get (counts : list (jsstring * SourceCount))
      (source : jsstring) :
  plainKeys counts -> inherited source = true ->
  Counters.get JSString.eqb source (numericCounts counts) = None.
Proof.
  unfold plainKeys. induction counts as [|[key value] rest IH]; intros P I;
    [reflexivity|].
  inversion P as [|? ? Pk Pr]; subst. cbn [fst snd] in Pk.
  destruct value as [n|]; cbn [numericCounts Counters.get]; [|now apply IH].
  destruct (JSString.eqb source key) eqn:E; [|now apply IH].
  apply JSStringFacts.eqb_eq in E. subst. congruence.
Qed.

(** Once a date is held, the loop ends with the earliest date seen. *)
Lemma tally_oldest (items : list NewsItem.t) (acc : Tally) (start : Z) :
  oldestDate acc = Some start ->
  exists oldest,
    oldestDate (fold_left tally items acc) = Some oldest
    /\ oldest <= start
    /\ (oldest = start \/ In oldest (map NewsItem.pubDate items))
    /\ forall item, In item items -> oldest <= NewsItem.pubDate item.
Proof.
  revert acc start. induction items as [|item rest IH]; intros acc start H.
  - exists start. simpl. repeat split; auto; try lia; intros item [].
  - cbn [fold_left].
    destruct (NewsItem.pubDate item <? start) eqn:E.
    + destruct (IH (tally acc item) (NewsItem.pubDate item)) as (o & O1 & O2 & O3 & O4).
      { simpl. now rewrite H, E. }
      apply Z.ltb_lt in E. exists o. split; [exact O1|]. split; [lia|]. split.
      * right. simpl. destruct O3 as [->|O3]; auto.
      * intros x [<-|Hx]; [lia | auto].
    + destruct (IH (tally acc item) start) as (o & O1 & O2 & O3 & O4).
      { simpl. now rewrite H, E. }
      apply Z.ltb_ge in E. exists o. split; [exact O1|]. split; [lia|]. split.
      * destruct O3 as [->|O3]; [now left | right; simpl; auto].
      * intros x [<-|Hx]; [lia | auto].
Qed.

Lemma tally_newest (items : list NewsItem.t) (acc : Tally) (start : Z) :
  newestDate acc = Some start ->
  exists newest,
    newestDate (fold_left tally items acc) = Some newest
    /\ start <= newest
    /\ (newest = start \/ In newest (map NewsItem.pubDate items))
    /\ forall item, In item items -> NewsItem.pubDate item <= newest.
Proof.
  revert acc start. induction items as [|item rest IH]; intros acc start H.
  - exists start. simpl. repeat split; auto; try lia; intros item [].
  - cbn [fold_left].
    destruct (start <? NewsItem.pubDate item) eqn:E.
    + destruct (IH (tally acc item) (NewsItem.pubDate item)) as (o & O1 & O2 & O3 & O4).
      { simpl. now rewrite H, E. }
      apply Z.ltb_lt in E. exists o. split; [exact O1|]. split; [lia|]. split.
      * right. simpl. destruct O3 as [->|O3]; auto.
      * intros x [<-|Hx]; [lia | auto].
    + destruct (IH (tally acc item) start) as (o & O1 & O2 & O3 & O4).
      { simpl. now rewrite H, E. }
      apply Z.ltb_ge in E. exists o. split; [exact O1|]. split; [lia|]. split.
      * destruct O3 as [->|O3]; [now left | right; simpl; auto].
      * intros x [<-|Hx]; [lia | auto].
Qed.

End StorageReportFacts.

Module StorageExtras.

Import StorageService StorageSpec StorageFacts StorageExtraFacts.
Import StorageReports StorageReportFacts.

(** The examples run on a host in the zone UTC; the theorems hold on every
    host. *)
#[local] Existing Instance JSDate.utc.

Lemma delete_absent (st : Store) (id : jsstring) :
  JSMap.get id st = None -> JSMap.delete id st = st.
Proof.
  unfold JSMap.delete. induction st as [|[k v] rest IH]; simpl; [reflexivity|].
  destruct (JSString.eqb id k); [discriminate|]. simpl.
  intros H. now rewrite IH.
Qed.

Lemma has_get (st : Store) (id : jsstring) :
  JSMap.has id st = true <-> JSMap.get id st <> None.
Proof.
  unfold JSMap.has. destruct (JSMap.get id st); split; congruence.
Qed.

(** X1. [deleteNewsItem] returns [true] exactly when an item was stored
    under the id. Afterwards nothing is stored under the id, every other id
    gives what it gave before, and deleting the id again returns [false]
    and changes nothing; so does deleting an id that was never stored. *)
Theorem delete_removes_only_its_key (st : Store) (id : jsstring) :
  (fst (deleteNewsItem st id) = true <-> getNewsItem st id <> None)
  /\ getNewsItem (snd (deleteNewsItem st id)) id = None
  /\ (forall other, other <> id ->
                    getNewsItem (snd (deleteNewsItem st id)) other
                    = getNewsItem st other)
  /\ deleteNewsItem (snd (deleteNewsItem st id)) id
     = (false, snd (deleteNewsItem st id))
  /\ (getNewsItem st id = None -> deleteNewsItem st id = (false, st)).
Proof.
  unfold deleteNewsItem, getNewsItem. cbn [fst snd].
  split; [apply has_get|]. split; [apply JSMapFacts.get_delete_same|].
  split; [|split].
  - intros other N. apply JSMapFacts.get_delete_other. congruence.
  - pose proof (JSMapFacts.get_delete_same id st) as G.
    rewrite (delete_absent _ _ G). unfold JSMap.has. now rewrite G.
  - intros G. rewrite (delete_absent _ _ G). unfold JSMap.has. now rewrite G.
Qed.

Lemma delete_removes_only_its_key_witness :
  fst (deleteNewsItem Examples.threeStored (js "test-2")) = true
  /\ getNewsItem (snd (deleteNewsItem Examples.threeStored (js "test-2")))
                 (js "test-3")
     = Some Examples.test3
  /\ deleteNewsItem [] (js "test-2") = (false, []).
Proof.
  destruct (delete_removes_only_its_key Examples.threeStored (js "test-2"))
    as (Found & _ & Others & _).
  destruct (delete_removes_only_its_key [] (js "test-2"))
    as (_ & _ & _ & _ & Absent).
  split; [|split].
  - apply Found. vm_compute. discriminate.
  - rewrite Others; [reflexivity | vm_compute; discriminate].
  - apply Absent. reflexivity.
Defined.

(** X2. [updateNewsItem] on an id that is not stored returns [false] and
    changes nothing. On a stored id it returns [true]; the id then gives
    the stored item with the updated fields laid over it, every other id
    gives what it gave before, and the keys keep their number and order. *)
Theorem update_merges_in_place (st : Store) (id : jsstring)
        (updates : PartialNewsItem.t) :
  (getNewsItem st id = None -> updateNewsItem st id updates = (false, st))
  /\ (forall existing,
         getNewsItem st id = Some existing ->
         fst (updateNewsItem st id updates) = true
         /\ getNewsItem (snd (updateNewsItem st id updates)) id
            = Some (PartialNewsItem.spread existing updates)
         /\ (forall other, other <> id ->
                           getNewsItem (snd (updateNewsItem st id updates)) other
                           = getNewsItem st other)
         /\ JSMap.keys (snd (updateNewsItem st id updates)) = JSMap.keys st).
Proof.
  unfold getNewsItem. split.
  - intros G. unfold updateNewsItem. now rewrite G.
  - intros existing G.
    pose proof (updateNewsItem_keys st id updates) as Keys.
    unfold updateNewsItem in *. rewrite G in *. cbn [fst snd] in *.
    split; [reflexivity|]. split; [apply JSMapFacts.get_set_same|].
    split; [|exact Keys].
    intros other N. apply JSMapFacts.get_set_other. congruence.
Qed.

Lemma update_merges_in_place_witness :
  updateNewsItem [] (js "non-existent") Examples.retitle = (false, [])
  /\ option_map NewsItem.title
                (getNewsItem
                   (snd (updateNewsItem Examples.threeStored (js "test-1")
                                        Examples.retitle))
                   (js "test-1"))
     = Some (js "Updated Title")
  /\ getNewsItem
       (snd (updateNewsItem Examples.threeStored (js "test-1") Examples.retitle))
       (js "test-2")
     = Some Examples.test2.
Proof.
  destruct (update_merges_in_place [] (js "non-existent") Examples.retitle)
    as (Missing & _).
  destruct (update_merges_in_place Examples.threeStored (js "test-1")
                                   Examples.retitle) as (_ & Present).
  destruct (Present Examples.test1 eq_refl) as (_ & Merged & Others & _).
  split; [|split].
  - apply Missing. reflexivity.
  - rewrite Merged. reflexivity.
  - rewrite Others; [reflexivity | vm_compute; discriminate].
Defined.

(** X3. A save of an item that is no duplicate of a stored one and is
    inside the retention window, into a store with room for one more,
    returns [true]; the item can then be retrieved by its id, as saved, and
    saving it again, whenever, returns [false] and changes nothing. *)
Theorem saved_item_is_retrievable {host : JSDate.Host}
        (maxItems maxAgeInDays now : Z) (st : Store) (item : NewsItem.t) :
  isDuplicate st item = false ->
  isOld maxAgeInDays now item = false ->
  getItemCount st < maxItems ->
  let st' := snd (saveNewsItem maxItems maxAgeInDays now st item) in
  fst (saveNewsItem maxItems maxAgeInDays now st item) = true
  /\ getNewsItem st' (NewsItem.id item) = Some item
  /\ forall later, saveNewsItem maxItems maxAgeInDays later st' item = (false, st').
Proof.
  intros D Fresh Room st'.
  destruct (saveNewsItem_stores maxItems maxAgeInDays now st item D Fresh Room)
    as (E & G).
  split; [now rewrite E|]. split; [exact G|].
  intros later. apply saveNewsItem_duplicate, isDuplicate_true. left.
  subst st'. rewrite G. discriminate.
Qed.

Lemma saved_item_is_retrievable_witness :
  getNewsItem (snd (saveNewsItem 1000 7 Examples.now
                                 [(js "test-1", Examples.test1)] Examples.test2))
              (js "test-2")
  = Some Examples.test2.
Proof.
  apply (saved_item_is_retrievable
           1000 7 Examples.now [(js "test-1", Examples.test1)] Examples.test2).
  - reflexivity.
  - vm_compute. reflexivity.
  - vm_compute. reflexivity.
Defined.

(** X4. Two items with the same link and different ids whose dates are more
    than one hour apart are both kept: saved one after the other into an
    empty store of capacity two or more, both inside the retention window,
    each can be retrieved afterwards. *)
Theorem same_link_far_apart_both_kept {host : JSDate.Host}
        (maxItems maxAgeInDays now1 now2 : Z) (a b : NewsItem.t) :
  2 <= maxItems ->
  NewsItem.link a = NewsItem.link b ->
  oneHour < Z.abs (NewsItem.pubDate a - NewsItem.pubDate b) ->
  NewsItem.id a <> NewsItem.id b ->
  isOld maxAgeInDays now1 a = false ->
  isOld maxAgeInDays now2 a = false ->
  isOld maxAgeInDays now2 b = false ->
  let st1 := snd (saveNewsItem maxItems maxAgeInDays now1 [] a) in
  let st2 := snd (saveNewsItem maxItems maxAgeInDays now2 st1 b) in
  fst (saveNewsItem maxItems maxAgeInDays now2 st1 b) = true
  /\ getNewsItem st2 (NewsItem.id a) = Some a
  /\ getNewsItem st2 (NewsItem.id b) = Some b
  /\ getItemCount st2 = 2.
Proof.
  intros M L Far N Fa1 Fa2 Fb st1 st2.
  assert (E1 : st1 = [(NewsItem.id a, a)]).
  { subst st1. rewrite saveNewsItem_first. cbn [snd].
    rewrite Fa1. cbn [negb andb].
    assert ((1 <=? maxItems) = true) as -> by (apply Z.leb_le; lia).
    reflexivity. }
  assert (D : isDuplicate st1 b = false).
  { rewrite E1. apply isDuplicate_false.
    - unfold getNewsItem. simpl.
      destruct (JSString.eqb (NewsItem.id b) (NewsItem.id a)) eqn:E;
        [|reflexivity].
      apply JSStringFacts.eqb_eq in E. congruence.
    - intros x [<-|[]] [_ Near]. cbn [snd] in Near. lia. }
  destruct (saveNewsItem_stores maxItems maxAgeInDays now2 st1 b D Fb)
    as (E2 & G).
  { rewrite E1. unfold getItemCount, JSMap.size. simpl. lia. }
  fold st2 in G. split; [now rewrite E2|].
  assert (S2 : st2 = [(NewsItem.id a, a); (NewsItem.id b, b)]).
  { subst st2. rewrite E2, E1. cbn [snd app].
    apply cleanupOldItems_id. repeat constructor; assumption. }
  split; [|split; [exact G|]].
  - rewrite S2. unfold getNewsItem. simpl.
    now rewrite JSStringFacts.eqb_refl.
  - now rewrite S2.
Qed.

Lemma same_link_far_apart_both_kept_witness :
  getItemCount
    (snd (saveNewsItem 1000 7 Examples.now
            (snd (saveNewsItem 1000 7 Examples.now [] Examples.test1))
            Examples.test1Republished)) = 2.
Proof.
  apply (same_link_far_apart_both_kept
           1000 7 Examples.now Examples.now Examples.test1
           Examples.test1Republished);
    vm_compute; try reflexivity; discriminate.
Defined.

(** X5. Whatever the options, negative offsets and limits included,
    [getNewsItems] returns only stored items that pass the filters in
    force, newest first; under a positive limit it returns no more items
    than the limit, and from an empty store it returns nothing. *)
Theorem query_returns_only_matching_items
        (st : Store) (options : StorageFilterOptions) :
  (forall x, In x (getNewsItems st options) ->
             In x (JSMap.values st) /\ passes (effective options) x = true)
  /\ newestToOldest (getNewsItems st options)
  /\ (forall n, limit options = Some n -> 0 < n ->
                Z.of_nat (length (getNewsItems st options)) <= n)
  /\ (st = [] -> getNewsItems st options = []).
Proof.
  destruct (getNewsItems_cut st options) as (paged & E & Pin & Ps).
  assert (In1 : forall x, In x (getNewsItems st options) ->
                          In x (JSMap.values st)
                          /\ passes (effective options) x = true).
  { intros x Hx. apply Pin. rewrite E in Hx.
    destruct (limit options) as [n|]; [|assumption].
    destruct (n =? 0); [assumption|]. eapply slice_In. exact Hx. }
  split; [exact In1|]. split; [|split].
  - rewrite E. destruct (limit options) as [n|]; [|assumption].
    destruct (n =? 0); [assumption|]. now apply slice_sorted.
  - intros n Hn Pos. rewrite E, Hn.
    destruct (Z.eqb_spec n 0) as [Z0|_]; [lia|].
    now apply slice_length_upto.
  - intros ->. destruct (getNewsItems [] options) as [|x rest] eqn:R;
      [reflexivity|].
    destruct (In1 x (or_introl eq_refl)) as [[] _].
Qed.

Lemma query_returns_only_matching_items_witness :
  Z.of_nat (length (getNewsItems Examples.threeStored Examples.secondPage)) <= 2
  /\ getNewsItems [] Examples.secondPage = [].
Proof.
  destruct (query_returns_only_matching_items
              Examples.threeStored Examples.secondPage) as (_ & _ & Bound & _).
  destruct (query_returns_only_matching_items [] Examples.secondPage)
    as (_ & _ & _ & Empty).
  split.
  - apply Bound; [reflexivity | lia].
  - apply Empty. reflexivity.
Defined.

(** X6. The statistics count the stored items: [totalItems] is their
    number, and so is the sum of the category counts; the count read under
    a category is the number of stored items with it, and the array of
    [getCategoryCounts] has one entry for each category that has stored
    items, with that number, which is positive. In [sourceCounts], a plain
    object, the count read under a source that is not the name of an
    inherited property is the number of stored items with that source; no
    number is held under the name of an inherited property, an item with
    such a source is counted under no source, and the numbers sum to the
    number of the other items, which is every stored item when no source
    is such a name. *)
Theorem stats_count_every_item (st : Store) :
  StorageReports.totalItems (getStats st) = getItemCount st
  /\ Counters.total (categoryCounts (getStats st)) = getItemCount st
  /\ (forall c,
         Counters.orZero
           (Counters.get AICategories.eqb c (categoryCounts (getStats st)))
         = countItems (fun item => AICategories.eqb (NewsItem.category item) c) st)
  /\ NoDup (map fst (getCategoryCounts st))
  /\ (forall c n,
         In (c, n) (getCategoryCounts st) ->
         0 < n
         /\ n = countItems
                  (fun item => AICategories.eqb (NewsItem.category item) c) st)
  /\ (forall s,
         inherited s = false ->
         Counters.orZero
           (Counters.get JSString.eqb s
                         (numericCounts (sourceCounts (getStats st))))
         = countItems (fun item => JSString.eqb (NewsItem.source item) s) st)
  /\ (forall s,
         inherited s = true ->
         Counters.get JSString.eqb s
                      (numericCounts (sourceCounts (getStats st))) = None)
  /\ Counters.total (numericCounts (sourceCounts (getStats st)))
     = countItems (fun item => negb (inherited (NewsItem.source item))) st
  /\ (Forall (fun item => inherited (NewsItem.source item) = false)
             (JSMap.values st) ->
      Counters.total (numericCounts (sourceCounts (getStats st)))
      = getItemCount st).
Proof.
  unfold getCategoryCounts, getStats, countItems, getItemCount, JSMap.size.
  cbn [StorageReports.totalItems categoryCounts sourceCounts].
  rewrite tally_byCategory, tally_bySource. cbn [byCategory bySource].
  set (items := JSMap.values st).
  assert (Len : length items = length st)
    by (unfold items, JSMap.values; apply length_map).
  assert (Cat : forall c,
             Counters.orZero
               (Counters.get
                  AICategories.eqb c
                  (fold_left
                     (fun t item =>
                        Counters.increment AICategories.eqb
                                           (NewsItem.category item) t)
                     items []))
             = Z.of_nat
                 (length
                    (filter
                       (fun item => AICategories.eqb (NewsItem.category item) c)
                       items))).
  { intros c.
    destruct (CountersFacts.count_by_key
                AICategories.eqb AICategoryFacts.category_eqb_eq
                NewsItem.category items [] c) as (H & _).
    simpl in H. exact H. }
  destruct (fold_countSource_numeric items [] (Forall_nil _)) as [Plain Numeric].
  cbv zeta in Plain, Numeric. cbn [numericCounts] in Numeric.
  set (table := fold_left (fun c item => countSource (NewsItem.source item) c)
                          items []) in *.
  clearbody table.
  set (plain := filter (fun item => negb (inherited (NewsItem.source item)))
                       items) in *.
  assert (Total : Counters.total (numericCounts table)
                  = Z.of_nat (length plain)).
  { rewrite Numeric.
    destruct (CountersFacts.count_by_key
                JSString.eqb JSStringFacts.eqb_eq
                NewsItem.source plain [] []) as (_ & T & _).
    cbv zeta in T. rewrite T. unfold Counters.total. simpl. lia. }
  split; [now rewrite Len|].
  split; [|split; [|split; [|split; [|split; [|split; [|split]]]]]].
  - destruct (CountersFacts.count_by_key
                AICategories.eqb AICategoryFacts.category_eqb_eq
                NewsItem.category items [] AI_MODELS) as (_ & T & _).
    cbv zeta in T. rewrite T. unfold Counters.total. simpl. lia.
  - exact Cat.
  - apply (CountersFacts.counted_table
             AICategories.eqb AICategoryFacts.category_eqb_eq
             NewsItem.category items []); constructor.
  - intros c n H.
    destruct (CountersFacts.counted_table
                AICategories.eqb AICategoryFacts.category_eqb_eq
                NewsItem.category items [] (NoDup_nil _) (Forall_nil _))
      as (N & P).
    cbv zeta in N, P. split.
    + rewrite Forall_forall in P. exact (P _ H).
    + rewrite <- Cat.
      rewrite (CountersFacts.counter_In_get
                 AICategories.eqb AICategoryFacts.category_eqb_eq c n _ N H).
      reflexivity.
  - intros s I. rewrite Numeric.
    destruct (CountersFacts.count_by_key
                JSString.eqb JSStringFacts.eqb_eq
                NewsItem.source plain [] s) as (H & _).
    cbv zeta in H. simpl Counters.get in H. simpl Counters.orZero in H.
    rewrite H. rewrite Z.add_0_l. do 2 f_equal.
    unfold plain. apply filter_within. intros item E.
    apply JSStringFacts.eqb_eq in E. rewrite E, I. reflexivity.
  - intros s I. now apply plainKeys_get.
  - exact Total.
  - intros Plain_. rewrite Total. f_equal. rewrite <- Len. f_equal.
    unfold plain. clear - Plain_.
    induction Plain_ as [|item rest H _ IH]; [reflexivity|].
    cbn [filter]. rewrite H. cbn [negb]. now rewrite IH.
Qed.

Lemma stats_count_every_item_witness :
  countItems (fun item => AICategories.eqb (NewsItem.category item) AI_MODELS)
             Examples.threeStored = 3
  /\ Counters.get JSString.eqb (js "Source A")
                  (numericCounts (sourceCounts (getStats Examples.threeStored)))
     = Some 3
  /\ Counters.get JSString.eqb (js "constructor")
                  (numericCounts
                     (sourceCounts (getStats Examples.namedConstructor)))
     = None
  /\ getItemCount Examples.namedConstructor = 1.
Proof.
  destruct (stats_count_every_item Examples.threeStored)
    as (_ & _ & _ & _ & Entries & Sources & _).
  destruct (stats_count_every_item Examples.namedConstructor)
    as (_ & _ & _ & _ & _ & _ & Inherited & _).
  assert (H : In (AI_MODELS, 3) (getCategoryCounts Examples.threeStored))
    by (vm_compute; left; reflexivity).
  split; [|split; [|split]].
  - destruct (Entries AI_MODELS 3 H) as (_ & E). symmetry. exact E.
  - assert (I : inherited (js "Source A") = false)
      by (vm_compute; reflexivity).
    specialize (Sources (js "Source A") I).
    vm_compute. reflexivity.
  - apply Inherited. vm_compute. reflexivity.
  - vm_compute. reflexivity.
Defined.

(** X7. The statistics of an empty store have no oldest and no newest date.
    Those of any other store have both: each is the date of a stored item,
    and every stored item's date lies between them. *)
Theorem stats_date_range (st : Store) :
  (st = [] -> oldestItem (getStats st) = None /\ newestItem (getStats st) = None)
  /\ (st <> [] ->
      exists oldest newest,
        oldestItem (getStats st) = Some oldest
        /\ newestItem (getStats st) = Some newest
        /\ In oldest (map NewsItem.pubDate (JSMap.values st))
        /\ In newest (map NewsItem.pubDate (JSMap.values st))
        /\ forall item, In item (JSMap.values st) ->
                        oldest <= NewsItem.pubDate item <= newest).
Proof.
  split.
  - intros ->. split; reflexivity.
  - intros N. destruct st as [|[k first] rest]; [congruence|].
    unfold getStats. cbn [oldestItem newestItem].
    change (JSMap.values ((k, first) :: rest))
      with (first :: JSMap.values rest).
    cbn [fold_left]. set (items := JSMap.values rest).
    set (acc := tally _ first).
    destruct (tally_oldest items acc (NewsItem.pubDate first) eq_refl)
      as (o & O1 & O2 & O3 & O4).
    destruct (tally_newest items acc (NewsItem.pubDate first) eq_refl)
      as (n & N1 & N2 & N3 & N4).
    exists o, n. split; [exact O1|]. split; [exact N1|]. split; [|split].
    + simpl. destruct O3 as [->|O3]; auto.
    + simpl. destruct N3 as [->|N3]; auto.
    + intros item [<-|H]; [lia|]. specialize (O4 item H).
      specialize (N4 item H). lia.
Qed.

Lemma stats_witness_store : Examples.threeStored <> [].
Proof. vm_compute. discriminate. Qed.

Lemma stats_date_range_witness :
  oldestItem (getStats Examples.threeStored)
  = Some (NewsItem.pubDate Examples.test1)
  /\ newestItem (getStats Examples.threeStored)
     = Some (NewsItem.pubDate Examples.test3)
  /\ oldestItem (getStats []) = None.
Proof.
  destruct (stats_date_range []) as (Empty & _).
  destruct (stats_date_range Examples.threeStored) as (_ & Some3).
  destruct (Some3 stats_witness_store) as (o & n & O & N & _).
  split; [|split].
  - rewrite O. vm_compute in O. exact (eq_sym O).
  - rewrite N. vm_compute in N. exact (eq_sym N).
  - apply Empty. reflexivity.
Defined.

(** X9. [saveNewsItems] returns how many of the items it stored: a number
    between zero and the length of the batch, by which the store grew at
    most. When it returns zero the store is as it was. Saving a batch is
    saving its first part and then the rest, the counts adding up. *)
Theorem batch_save_counts {host : JSDate.Host}
        (maxItems maxAgeInDays : Z) (st : Store) (batch : list (Z * NewsItem.t)) :
  let saved := fst (saveNewsItems maxItems maxAgeInDays st batch) in
  let st' := snd (saveNewsItems maxItems maxAgeInDays st batch) in
  0 <= saved <= Z.of_nat (length batch)
  /\ getItemCount st' <= getItemCount st + saved
  /\ (saved = 0 -> st' = st)
  /\ (forall first rest,
         batch = first ++ rest ->
         let afterFirst := saveNewsItems maxItems maxAgeInDays st first in
         let afterRest :=
           saveNewsItems maxItems maxAgeInDays (snd afterFirst) rest in
         saved = fst afterFirst + fst afterRest /\ st' = snd afterRest).
Proof.
  cbv zeta.
  destruct (saveNewsItems_count maxItems maxAgeInDays st batch) as (C1 & C2).
  split; [exact C1|]. split; [exact C2|]. split.
  - clear C1 C2. revert st.
    induction batch as [|[now item] rest IH]; intros st; [reflexivity|].
    rewrite saveNewsItems_cons.
    destruct (isDuplicate st item) eqn:D.
    + rewrite (saveNewsItem_duplicate maxItems maxAgeInDays now st item D).
      cbn [fst snd]. intros H. apply IH. lia.
    + rewrite (saveNewsItem_fresh maxItems maxAgeInDays now st item D).
      cbn [fst snd]. intros H. exfalso.
      destruct (saveNewsItems_count
                  maxItems maxAgeInDays
                  (enforceMemoryLimit
                     maxItems
                     (cleanupOldItems maxAgeInDays now
                        (JSMap.set (NewsItem.id item) item st))) rest)
        as (R1 & _).
      lia.
  - intros first rest ->. rewrite saveNewsItems_app. cbn [fst snd]. auto.
Qed.

Lemma batch_save_counts_witness :
  fst (saveNewsItems 1000 7 []
         [(Examples.now, Examples.test1); (Examples.now, Examples.test1)]) = 1
  /\ snd (saveNewsItems 1000 7 [(js "test-1", Examples.test1)]
            [(Examples.now, Examples.test1)])
     = [(js "test-1", Examples.test1)].
Proof.
  destruct (batch_save_counts
              1000 7 []
              [(Examples.now, Examples.test1); (Examples.now, Examples.test1)])
    as (_ & _ & _ & Split).
  destruct (batch_save_counts
              1000 7 [(js "test-1", Examples.test1)]
              [(Examples.now, Examples.test1)]) as (_ & _ & Zero & _).
  split.
  - destruct (Split [(Examples.now, Examples.test1)]
                    [(Examples.now, Examples.test1)] eq_refl) as (S & _).
    rewrite S. reflexivity.
  - apply Zero. reflexivity.
Defined.

End StorageExtras.

(* ================================================================== *)
(** * More about the classifier *)

Module ClassificationExtraFacts.

Import ClassificationService ClassificationSpec ClassificationFacts.
Import ClassificationReports.

Lemma bump_increment (category : AICategory) (stats : list (AICategory * Z)) :
  bump category stats = Counters.increment AICategories.eqb category stats.
Proof.
  induction stats as [|[c n] rest IH]; simpl; [reflexivity|].
  destruct (AICategories.eqb category c); [reflexivity|]. now rewrite IH.
Qed.

Lemma sum_counts (stats : list (AICategory * Z)) (start : Z) :
  fold_left (fun sum count => sum + count) (map snd stats) start
  = start + Counters.total stats.
Proof.
  unfold Counters.total. revert start.
  induction stats as [|[c n] rest IH]; intros start; simpl; [lia|].
  rewrite IH. lia.
Qed.

(** ** Confidence *)

Lemma confidenceAsStated_bounds (bestScore textLength : Z) :
  0 <= bestScore ->
  (0 <= confidenceAsStated bestScore textLength
   /\ confidenceAsStated bestScore textLength <= 1)%Q.
Proof.
  intros B. unfold confidenceAsStated. split; [|apply Q.le_min_r].
  apply Q.min_glb; [|discriminate].
  assert (M : (0 < Qmax (inject_Z textLength / 100) 1)%Q).
  { eapply Qlt_le_trans; [|apply Q.le_max_r]. reflexivity. }
  unfold Qdiv. apply Qmult_le_0_compat.
  - change 0%Q with (inject_Z 0). rewrite <- Zle_Qle. exact B.
  - apply Qinv_le_0_compat. now apply Qlt_le_weak.
Qed.

Section Runtime.

Variable toLowerCase : jsstring -> jsstring.

Local Abbreviation pickBest := (ClassificationService.pickBest toLowerCase).
Local Abbreviation getKeywordMatches := (ClassificationService.getKeywordMatches toLowerCase).
Local Abbreviation getMatchedKeywordsForCategory := (ClassificationService.getMatchedKeywordsForCategory toLowerCase).
Local Abbreviation combine := (ClassificationService.combine toLowerCase).
Local Abbreviation analyzeContent := (ClassificationService.analyzeContent toLowerCase).
Local Abbreviation classifyNews := (ClassificationService.classifyNews toLowerCase).
Local Abbreviation classifyNewsBatch := (ClassificationService.classifyNewsBatch toLowerCase).
Local Abbreviation scoreAsStated := (ClassificationSpec.scoreAsStated toLowerCase).
Local Abbreviation bestScoreAsStated := (ClassificationSpec.bestScoreAsStated toLowerCase).

Lemma confidence_bounds (self : t) (title description : jsstring) :
  (0 <= confidence (analyzeContent self title description)
   /\ confidence (analyzeContent self title description) <= 1)%Q.
Proof.
  destruct (analyzeContent_fields toLowerCase self title description)
    as (_ & C & _).
  cbv zeta in C. rewrite C.
  rewrite (bestScore_stated toLowerCase self title description).
  apply confidenceAsStated_bounds.
  apply (bestScoreAsStated_bounds toLowerCase).
Qed.

(** The counters play no part in the classification. *)
Lemma classifyNews_ignores_stats (self : t) (category : AICategory)
      (item : NewsItem.t) :
  classifyNews (updateStats self category) item = classifyNews self item.
Proof.
  unfold ClassificationService.classifyNews, ClassificationService.analyzeContent,
    updateStats.
  cbn [defaultCategory minConfidenceThreshold]. reflexivity.
Qed.

Lemma classifyNews_config (self other : t) (item : NewsItem.t) :
  defaultCategory self = defaultCategory other ->
  minConfidenceThreshold self = minConfidenceThreshold other ->
  classifyNews self item = classifyNews other item.
Proof.
  destruct self as [d1 t1 s1], other as [d2 t2 s2].
  cbn [defaultCategory minConfidenceThreshold]. intros -> ->.
  unfold ClassificationService.classifyNews, ClassificationService.analyzeContent.
  cbn [defaultCategory minConfidenceThreshold]. reflexivity.
Qed.

Lemma classifyNewsBatch_from (self0 self : t) (items : list NewsItem.t) :
  defaultCategory self = defaultCategory self0 ->
  minConfidenceThreshold self = minConfidenceThreshold self0 ->
  fst (classifyNewsBatch self items)
  = map (fun item => NewsItem.withCategory item (classifyNews self0 item)) items
  /\ defaultCategory (snd (classifyNewsBatch self items)) = defaultCategory self0
  /\ minConfidenceThreshold (snd (classifyNewsBatch self items))
     = minConfidenceThreshold self0
  /\ classificationStats (snd (classifyNewsBatch self items))
     = fold_left (fun stats item =>
                    Counters.increment AICategories.eqb
                                       (classifyNews self0 item) stats)
                 items (classificationStats self).
Proof.
  revert self. induction items as [|item rest IH]; intros self D T.
  - cbn [ClassificationService.classifyNewsBatch fst snd map fold_left]. auto.
  - cbn [ClassificationService.classifyNewsBatch].
    specialize (IH (updateStats self (classifyNews self item)) D T).
    destruct (classifyNewsBatch (updateStats self (classifyNews self item)) rest)
      as [classified final].
    cbn [fst snd] in *. destruct IH as (I1 & I2 & I3 & I4).
    rewrite (classifyNews_config self self0 item D T) in *.
    split; [cbn [map]; now rewrite I1|]. split; [exact I2|].
    split; [exact I3|]. rewrite I4. cbn [fold_left].
    cbn [updateStats classificationStats]. now rewrite bump_increment.
Qed.

Lemma classifyNewsBatch_fields (self : t) (items : list NewsItem.t) :
  fst (classifyNewsBatch self items)
  = map (fun item => NewsItem.withCategory item (classifyNews self item)) items
  /\ defaultCategory (snd (classifyNewsBatch self items)) = defaultCategory self
  /\ minConfidenceThreshold (snd (classifyNewsBatch self items))
     = minConfidenceThreshold self
  /\ classificationStats (snd (classifyNewsBatch self items))
     = fold_left (fun stats item =>
                    Counters.increment AICategories.eqb
                                       (classifyNews self item) stats)
                 items (classificationStats self).
Proof. now apply classifyNewsBatch_from. Qed.

(** The keywords recorded with the best category are its own. *)
Lemma fold_pickBest_matched (text : jsstring) (scores : list (AICategory * Z))
      (category0 : AICategory) (score0 : Z) (matched0 : list jsstring) :
  let best := fold_left (pickBest text) scores (category0, score0, matched0) in
  score0 < snd (fst best) ->
  snd best = getMatchedKeywordsForCategory text (fst (fst best)).
Proof.
  revert category0 score0 matched0.
  induction scores as [|[category score] rest IH];
    intros category0 score0 matched0; cbv zeta.
  - simpl. lia.
  - cbn [fold_left].
    assert (Step : pickBest text (category0, score0, matched0) (category, score)
                   = if score0 <? score
                     then (category, score,
                           getMatchedKeywordsForCategory text category)
                     else (category0, score0, matched0)) by reflexivity.
    rewrite Step. clear Step.
    destruct (Z.ltb_spec score0 score) as [L|L].
    + intros _.
      destruct (fold_pickBest toLowerCase text rest category score
                              (getMatchedKeywordsForCategory text category))
        as (E & Same & _).
      cbv zeta in E, Same.
      pose proof (fold_max_ge (map snd rest) score) as [G _].
      destruct (Z.eq_dec
                  (snd (fst (fold_left
                               (pickBest text) rest
                               (category, score,
                                getMatchedKeywordsForCategory text category))))
                  score) as [Q|Q].
      * rewrite (Same Q). reflexivity.
      * apply IH. lia.
    + intros H. apply IH. exact H.
Qed.

Lemma keywordsOf_unique (dictionary : KeywordDictionary)
      (category : AICategory) (keywords : list jsstring) :
  NoDup (map fst dictionary) -> In (category, keywords) dictionary ->
  keywordsOf dictionary category = keywords.
Proof.
  induction dictionary as [|[c ks] rest IH]; simpl; [tauto|].
  intros N. inversion N as [|? ? Hc Hr]; subst. intros [[= -> ->]|H].
  - assert (AICategories.eqb category category = true) as ->
        by (now apply AICategoryFacts.category_eqb_eq).
    reflexivity.
  - destruct (AICategories.eqb c category) eqn:E; [|auto].
    apply AICategoryFacts.category_eqb_eq in E. subst. exfalso. apply Hc.
    change category with (fst (category, keywords)). now apply in_map.
Qed.

Lemma dictionary_keys_distinct : NoDup (map fst keywordDictionary).
Proof.
  rewrite dictionary_categories. unfold AICategories.values.
  repeat constructor; simpl; intuition discriminate.
Qed.

(** A positive score comes from a keyword that occurs. *)
Lemma scoreAsStated_positive (text : jsstring) (keywords : list jsstring) :
  0 < scoreAsStated text keywords ->
  exists keyword,
    In keyword keywords
    /\ JSString.includes text (toLowerCase keyword) = true.
Proof.
  intros H.
  destruct (existsb (fun k => JSString.includes text (toLowerCase k)) keywords)
    eqn:E.
  - apply existsb_exists in E. exact E.
  - rewrite (scoreAsStated_absent toLowerCase) in H; [lia|].
    intros k Hk.
    destruct (JSString.includes text (toLowerCase k)) eqn:I; [|reflexivity].
    assert (X : existsb (fun k => JSString.includes text (toLowerCase k))
                        keywords = true)
      by (apply existsb_exists; exists k; auto).
    congruence.
Qed.

End Runtime.

(** ** The loop of the accuracy report *)

Lemma compareCount_summarises (seen : list (AICategory * Z)) (acc : Extremes)
      (entry : AICategory * Z) :
  summarises seen acc -> summarises (seen ++ [entry]) (compareCount acc entry).
Proof.
  destruct entry as [c n]. intros [Most Least].
  assert (Split : forall c' n',
             In (c', n') (seen ++ [(c, n)]) ->
             In (c', n') seen \/ (c' = c /\ n' = n)).
  { intros c' n' H. apply in_app_or in H. destruct H as [H|[H|[]]]; auto.
    inversion H; auto. }
  assert (Last : In (c, n) (seen ++ [(c, n)]))
    by (apply in_or_app; right; now left).
  assert (Old : forall c' n', In (c', n') seen -> In (c', n') (seen ++ [(c, n)]))
    by (intros c' n' H; apply in_or_app; now left).
  unfold summarises, compareCount.
  cbn [mostCommon leastCommon maxCount minCount].
  split.
  - destruct Most as [(M1 & M2 & M3) | (c0 & M1 & M2 & M3 & M4)].
    + rewrite M1, M2. destruct (Z.ltb_spec 0 n) as [L|L].
      * right. exists c.
        split; [reflexivity|]. split; [exact Last|]. split; [exact L|].
        intros c' n' H. destruct (Split _ _ H) as [H'|[_ ->]]; [|lia].
        specialize (M3 _ _ H'). lia.
      * left. split; [reflexivity|]. split; [reflexivity|].
        intros c' n' H. destruct (Split _ _ H) as [H'|[_ ->]]; [|lia].
        exact (M3 _ _ H').
    + rewrite M1. destruct (Z.ltb_spec (maxCount acc) n) as [L|L].
      * right. exists c.
        split; [reflexivity|]. split; [exact Last|]. split; [lia|].
        intros c' n' H. destruct (Split _ _ H) as [H'|[_ ->]]; [|lia].
        specialize (M4 _ _ H'). lia.
      * right. exists c0.
        split; [reflexivity|]. split; [now apply Old|]. split; [exact M3|].
        intros c' n' H. destruct (Split _ _ H) as [H'|[_ ->]]; [|lia].
        exact (M4 _ _ H').
  - destruct Least as [(L1 & L2 & L3) | (c0 & m & L1 & L2 & L3 & L4 & L5)].
    + rewrite L1, L2. cbn [belowMin andb].
      destruct (Z.ltb_spec 0 n) as [P|P].
      * right. exists c, n.
        split; [reflexivity|]. split; [reflexivity|]. split; [exact Last|].
        split; [exact P|].
        intros c' n' H Pos. destruct (Split _ _ H) as [H'|[_ ->]]; [|lia].
        specialize (L3 _ _ H'). lia.
      * left. split; [reflexivity|]. split; [reflexivity|].
        intros c' n' H. destruct (Split _ _ H) as [H'|[_ ->]]; [|lia].
        exact (L3 _ _ H').
    + rewrite L1, L2. cbn [belowMin].
      assert (Keep : exists c1 m1,
                 Some c0 = Some c1 /\ Some m = Some m1
                 /\ In (c1, m1) (seen ++ [(c, n)]) /\ 0 < m1
                 /\ (n <= 0 \/ m <= n ->
                     forall c' n', In (c', n') (seen ++ [(c, n)]) ->
                                   0 < n' -> m1 <= n')).
      { exists c0, m. split; [reflexivity|]. split; [reflexivity|].
        split; [now apply Old|]. split; [exact L4|].
        intros Cond c' n' H Pos.
        destruct (Split _ _ H) as [H'|[_ ->]]; [|lia].
        exact (L5 _ _ H' Pos). }
      destruct Keep as (c1 & m1 & K1 & K2 & K3 & K4 & K5).
      destruct (Z.ltb_spec n m) as [B|B], (Z.ltb_spec 0 n) as [P|P];
        cbn [andb].
      * right. exists c, n.
        split; [reflexivity|]. split; [reflexivity|]. split; [exact Last|].
        split; [exact P|].
        intros c' n' H Pos. destruct (Split _ _ H) as [H'|[_ ->]]; [|lia].
        specialize (L5 _ _ H' Pos). lia.
      * right. exists c1, m1.
        split; [exact K1|]. split; [exact K2|]. split; [exact K3|].
        split; [exact K4|]. apply K5. lia.
      * right. exists c1, m1.
        split; [exact K1|]. split; [exact K2|]. split; [exact K3|].
        split; [exact K4|]. apply K5. lia.
      * right. exists c1, m1.
        split; [exact K1|]. split; [exact K2|]. split; [exact K3|].
        split; [exact K4|]. apply K5. lia.
Qed.

Lemma fold_summarises (stats seen : list (AICategory * Z)) (acc : Extremes) :
  summarises seen acc ->
  summarises (seen ++ stats) (fold_left compareCount stats acc).
Proof.
  revert seen acc. induction stats as [|entry rest IH]; intros seen acc H.
  - simpl. now rewrite app_nil_r.
  - cbn [fold_left].
    replace (seen ++ entry :: rest) with ((seen ++ [entry]) ++ rest)
      by (rewrite <- app_assoc; reflexivity).
    apply IH. now apply compareCount_summarises.
Qed.

End ClassificationExtraFacts.

(* ================================================================== *)
(** * The classifier: analysis, settings, batches and reports *)

Module ClassificationExtras.

Import ClassificationService ClassificationSpec ClassificationFacts.
Import ClassificationReports ClassificationExtraFacts.

Lemma confidenceAsStated_none (textLength : Z) :
  (confidenceAsStated 0 textLength == 0)%Q.
Proof.
  apply Qle_antisym.
  - unfold confidenceAsStated. eapply Qle_trans; [apply Q.le_min_l|].
    unfold Qdiv. change (inject_Z 0) with 0%Q. rewrite Qmult_0_l.
    apply Qle_refl.
  - apply confidenceAsStated_bounds. lia.
Qed.

Lemma initial_summarises :
  summarises [] {| mostCommon := None; leastCommon := None;
                   maxCount := 0; minCount := None |}.
Proof.
  unfold summarises. cbn [mostCommon leastCommon maxCount minCount].
  split; left; repeat split; intros c n [].
Qed.

Lemma report_summarises (self : t) :
  exists final,
    summarises (classificationStats self) final
    /\ mostCommonCategory (getAccuracyReport self) = mostCommon final
    /\ leastCommonCategory (getAccuracyReport self) = leastCommon final.
Proof.
  exists (fold_left compareCount (classificationStats self)
                    {| mostCommon := None; leastCommon := None;
                       maxCount := 0; minCount := None |}).
  split; [|split; reflexivity].
  apply (fold_summarises (classificationStats self) [] _ initial_summarises).
Qed.

Section Runtime.

Variable toLowerCase : jsstring -> jsstring.

Local Abbreviation combine := (ClassificationService.combine toLowerCase).
Local Abbreviation analyzeContent := (ClassificationService.analyzeContent toLowerCase).
Local Abbreviation classifyNews := (ClassificationService.classifyNews toLowerCase).
Local Abbreviation classifyNewsBatch := (ClassificationService.classifyNewsBatch toLowerCase).
Local Abbreviation validateClassification := (ClassificationReports.validateClassification toLowerCase).
Local Abbreviation pickBest := (ClassificationService.pickBest toLowerCase).
Local Abbreviation getKeywordMatches := (ClassificationService.getKeywordMatches toLowerCase).
Local Abbreviation getMatchedKeywordsForCategory := (ClassificationService.getMatchedKeywordsForCategory toLowerCase).

(** The analysis of a text in which no keyword occurs. *)
Lemma analyzeContent_absent (self : t) (title description : jsstring) :
  noKeyword toLowerCase (combine title description) ->
  category (analyzeContent self title description) = defaultCategory self
  /\ matchedKeywords (analyzeContent self title description) = []
  /\ (confidence (analyzeContent self title description) == 0)%Q.
Proof.
  intros Absent.
  destruct (analyzeContent_fields toLowerCase self title description)
    as (C & F & M).
  cbv zeta in C, F, M.
  pose proof (bestScore_stated toLowerCase self title description) as B.
  cbv zeta in B.
  rewrite (bestScoreAsStated_absent toLowerCase _ Absent) in B.
  destruct (fold_pickBest toLowerCase (combine title description)
                          (getKeywordMatches (combine title description))
                          (defaultCategory self) 0 []) as (_ & Start & _).
  cbv zeta in Start. specialize (Start B).
  rewrite C, M, F, B, Start. cbn [fst snd].
  split; [reflexivity|]. split; [reflexivity|].
  apply confidenceAsStated_none.
Qed.

(** X10. The result of [analyzeContent] hangs together: its confidence lies
    between 0 and 1; every matched keyword it lists is a keyword of the
    category it names and occurs in the text; for a text in which no
    keyword occurs it names the default category of the service, with
    confidence 0 and no keyword; and when the confidence is positive, and
    lower-casing the lower-cased text changes nothing, it lists at least
    one keyword. *)
Theorem analysis_is_coherent (self : t) (title description : jsstring) :
  let text := combine title description in
  let result := analyzeContent self title description in
  (0 <= confidence result /\ confidence result <= 1)%Q
  /\ (forall keyword,
         In keyword (matchedKeywords result) ->
         In keyword (keywordsOf keywordDictionary (category result))
         /\ JSString.includes (toLowerCase text) (toLowerCase keyword) = true)
  /\ (noKeyword toLowerCase text ->
      category result = defaultCategory self
      /\ matchedKeywords result = []
      /\ (confidence result == 0)%Q)
  /\ (toLowerCase text = text ->
      (0 < confidence result)%Q -> matchedKeywords result <> []).
Proof.
  cbv zeta.
  destruct (analyzeContent_fields toLowerCase self title description)
    as (C & F & M).
  cbv zeta in C, F, M.
  pose proof (bestScore_stated toLowerCase self title description) as B.
  cbv zeta in B.
  destruct (bestScoreAsStated_bounds toLowerCase (combine title description))
    as [Low _].
  destruct (fold_pickBest toLowerCase (combine title description)
                          (getKeywordMatches (combine title description))
                          (defaultCategory self) 0 [])
    as (_ & Start & Won).
  cbv zeta in Start, Won.
  pose proof (fold_pickBest_matched
                toLowerCase (combine title description)
                (getKeywordMatches (combine title description))
                (defaultCategory self) 0 []) as Matched.
  cbv zeta in Matched.
  split; [apply confidence_bounds|].
  split; [|split; [apply analyzeContent_absent|]];
    set (best := fold_left _ _ _) in *; clearbody best.
  - intros keyword. rewrite M, C.
    destruct (Z.eq_dec (bestScoreAsStated toLowerCase (combine title description))
                       0) as [Z|P].
    + rewrite Z in B. rewrite (Start B). cbn [fst snd]. intros [].
    + rewrite Matched by lia.
      unfold ClassificationService.getMatchedKeywordsForCategory.
      intros H. apply filter_In in H. exact H.
  - intros Stable Positive.
    assert (P : 0 < bestScoreAsStated toLowerCase (combine title description)).
    { destruct (Z.eq_dec
                  (bestScoreAsStated toLowerCase (combine title description)) 0)
        as [Z|P]; [|lia].
      exfalso. rewrite F, B, Z in Positive.
      rewrite confidenceAsStated_none in Positive.
      exact (Qlt_irrefl 0 Positive). }
    rewrite <- B in P. specialize (Won P). specialize (Matched P).
    rewrite M, Matched.
    rewrite (getKeywordMatches_stated toLowerCase) in Won.
    apply in_map_iff in Won. destruct Won as ([c ks] & E & Entry).
    cbn [fst snd] in E. injection E as Ec Es.
    pose proof (keywordsOf_unique keywordDictionary c ks
                                  dictionary_keys_distinct Entry) as K.
    rewrite <- Ec.
    assert (S : 0 < scoreAsStated toLowerCase (combine title description) ks)
      by (rewrite Es; exact P).
    destruct (scoreAsStated_positive toLowerCase _ _ S) as (keyword & Hk & Occurs).
    unfold ClassificationService.getMatchedKeywordsForCategory.
    rewrite K. intros Empty.
    assert (I : In keyword
                   (filter
                      (fun keyword0 =>
                         JSString.includes
                           (toLowerCase (combine title description))
                           (toLowerCase keyword0)) ks)).
    { apply filter_In. split; [exact Hk|]. rewrite Stable. exact Occurs. }
    rewrite Empty in I. exact I.
Qed.

(** X11. [validateClassification] reports as the actual category the
    category that [classifyNews] returns for the item, and it reports a
    correct classification exactly when that category is the expected
    one; the confidence it reports lies between 0 and 1. *)
Theorem validation_agrees_with_classification
        (self : t) (newsItem : NewsItem.t) (expected : AICategory) :
  let validation := validateClassification self newsItem expected in
  actualCategory validation = classifyNews self newsItem
  /\ (isCorrect validation = true <-> classifyNews self newsItem = expected)
  /\ expectedCategory validation = expected
  /\ (0 <= validatedConfidence validation
      /\ validatedConfidence validation <= 1)%Q.
Proof.
  cbv zeta.
  assert (A : actualCategory (validateClassification self newsItem expected)
              = classifyNews self newsItem).
  { rewrite (classifyNews_cases toLowerCase).
    unfold ClassificationReports.validateClassification, ltb.
    cbv zeta. cbn [actualCategory].
    generalize (analyzeContent self (NewsItem.title newsItem)
                               (NewsItem.description newsItem)).
    intros result.
    destruct (Qle_bool (minConfidenceThreshold self) (confidence result));
      reflexivity. }
  split; [exact A|]. split; [|split; [reflexivity|]].
  - rewrite <- A.
    unfold ClassificationReports.validateClassification.
    cbv zeta. cbn [isCorrect actualCategory].
    generalize (analyzeContent self (NewsItem.title newsItem)
                               (NewsItem.description newsItem)).
    intros result. apply AICategoryFacts.category_eqb_eq.
  - unfold ClassificationReports.validateClassification.
    cbv zeta. cbn [validatedConfidence].
    apply (confidence_bounds toLowerCase).
Qed.

(** X12. [setConfidenceThreshold] throws exactly for a threshold below 0
    or above 1, and otherwise changes the threshold only. With the
    threshold 0 the category of the item's source is never used:
    [classifyNews] returns the category of the analysis, which for a text
    without any keyword is the default category of the service. *)
Theorem zero_threshold_never_falls_back
        (self : t) (threshold : Q) (newsItem : NewsItem.t) :
  (setConfidenceThreshold self threshold = None
   <-> (threshold < 0 \/ 1 < threshold)%Q)
  /\ (forall self',
         setConfidenceThreshold self threshold = Some self' ->
         minConfidenceThreshold self' = threshold
         /\ defaultCategory self' = defaultCategory self
         /\ classificationStats self' = classificationStats self)
  /\ exists self',
      setConfidenceThreshold self 0 = Some self'
      /\ classifyNews self' newsItem
         = category (analyzeContent self (NewsItem.title newsItem)
                                    (NewsItem.description newsItem))
      /\ (noKeyword toLowerCase
                    (combine (NewsItem.title newsItem)
                             (NewsItem.description newsItem)) ->
          classifyNews self' newsItem = defaultCategory self).
Proof.
  split; [|split].
  - assert (Out : forall a b : Q, Qle_bool a b = false -> (b < a)%Q).
    { intros a b H. apply Qnot_le_lt. intros F. apply Qle_bool_iff in F.
      congruence. }
    unfold setConfidenceThreshold.
    destruct (Qle_bool 0 threshold) eqn:L, (Qle_bool threshold 1) eqn:U;
      cbn [andb]; split; intros H; try discriminate H; try reflexivity.
    + apply Qle_bool_iff in L. apply Qle_bool_iff in U.
      exfalso. destruct H as [H|H];
        [exact (Qlt_not_le _ _ H L) | exact (Qlt_not_le _ _ H U)].
    + right. now apply Out.
    + left. now apply Out.
    + left. now apply Out.
  - intros self'. unfold setConfidenceThreshold.
    destruct (Qle_bool 0 threshold && Qle_bool threshold 1); [|discriminate].
    intros [= <-]. cbn [minConfidenceThreshold defaultCategory classificationStats].
    auto.
  - pose (self' := {| defaultCategory := defaultCategory self;
                      minConfidenceThreshold := 0;
                      classificationStats := classificationStats self |}).
    exists self'. split; [reflexivity|].
    assert (Same : analyzeContent self' (NewsItem.title newsItem)
                                  (NewsItem.description newsItem)
                   = analyzeContent self (NewsItem.title newsItem)
                                    (NewsItem.description newsItem))
      by (unfold ClassificationService.analyzeContent, self';
          cbn [defaultCategory]; reflexivity).
    assert (E : classifyNews self' newsItem
                = category (analyzeContent self (NewsItem.title newsItem)
                                           (NewsItem.description newsItem))).
    { rewrite (classifyNews_cases toLowerCase), Same.
      destruct (confidence_bounds toLowerCase self (NewsItem.title newsItem)
                                  (NewsItem.description newsItem)) as [Low _].
      apply Qle_bool_iff in Low. unfold ltb, self'.
      cbn [minConfidenceThreshold]. now rewrite Low. }
    split; [exact E|].
    intros Absent. rewrite E.
    now destruct (analyzeContent_absent self _ _ Absent) as (-> & _).
Qed.

(** X13. [classifyNewsBatch] returns the items in their order, each with
    only its category replaced, by the category [classifyNews] gives it;
    it leaves the settings of the service alone; the counter of every
    category grows by the number of items of the batch classified into it,
    and the total of the accuracy report by the size of the batch. *)
Theorem batch_classifies_and_counts (self : t) (newsItems : list NewsItem.t) :
  let classified := fst (classifyNewsBatch self newsItems) in
  let final := snd (classifyNewsBatch self newsItems) in
  classified
  = map (fun item => NewsItem.withCategory item (classifyNews self item))
        newsItems
  /\ length classified = length newsItems
  /\ defaultCategory final = defaultCategory self
  /\ minConfidenceThreshold final = minConfidenceThreshold self
  /\ (forall c,
         Counters.orZero
           (Counters.get AICategories.eqb c (classificationStats final))
         = Counters.orZero
             (Counters.get AICategories.eqb c (classificationStats self))
           + Z.of_nat
               (length
                  (filter
                     (fun item =>
                        AICategories.eqb (classifyNews self item) c)
                     newsItems)))
  /\ totalClassifications (getAccuracyReport final)
     = totalClassifications (getAccuracyReport self)
       + Z.of_nat (length newsItems).
Proof.
  cbv zeta.
  destruct (classifyNewsBatch_fields toLowerCase self newsItems)
    as (Items & D & T & Stats).
  split; [exact Items|].
  split; [rewrite Items; apply length_map|].
  split; [exact D|]. split; [exact T|].
  split.
  - intros c. rewrite Stats.
    apply (CountersFacts.count_by_key
             AICategories.eqb AICategoryFacts.category_eqb_eq
             (fun item => classifyNews self item) newsItems
             (classificationStats self) c).
  - unfold getAccuracyReport. cbn [totalClassifications].
    rewrite !sum_counts, Stats.
    destruct (CountersFacts.count_by_key
                AICategories.eqb AICategoryFacts.category_eqb_eq
                (fun item => classifyNews self item) newsItems
                (classificationStats self) AI_MODELS) as (_ & Total & _).
    cbv zeta in Total. rewrite Total. lia.
Qed.

End Runtime.

(** X14. The accuracy report: its total is the sum of the counters and its
    distribution the counters themselves; it names no most common and no
    least common category exactly when no counter is positive; the most
    common category it names has a positive counter that no counter
    exceeds, and the least common one a positive counter that no positive
    counter falls below. After [resetStats] the report is empty. *)
Theorem report_names_extreme_counts (self : t) :
  let stats := classificationStats self in
  let report := getAccuracyReport self in
  totalClassifications report = Counters.total stats
  /\ categoryDistribution report = stats
  /\ (mostCommonCategory report = None
      <-> forall c n, In (c, n) stats -> n <= 0)
  /\ (forall c,
         mostCommonCategory report = Some c ->
         exists n, In (c, n) stats /\ 0 < n
                   /\ forall c' n', In (c', n') stats -> n' <= n)
  /\ (leastCommonCategory report = None
      <-> forall c n, In (c, n) stats -> n <= 0)
  /\ (forall c,
         leastCommonCategory report = Some c ->
         exists n, In (c, n) stats /\ 0 < n
                   /\ forall c' n', In (c', n') stats -> 0 < n' -> n <= n')
  /\ getAccuracyReport (resetStats self)
     = {| totalClassifications := 0;
          categoryDistribution := [];
          mostCommonCategory := None;
          leastCommonCategory := None |}.
Proof.
  cbv zeta.
  destruct (report_summarises self) as (final & [Most Least] & -> & ->).
  split; [unfold getAccuracyReport; cbn [totalClassifications];
          rewrite sum_counts; lia|].
  split; [reflexivity|].
  split; [|split; [|split; [|split; [|reflexivity]]]].
  - destruct Most as [(M1 & M2 & M3) | (c0 & M1 & M2 & M3 & M4)].
    + split; [intros _; exact M3 | intros _; exact M1].
    + split; [rewrite M1; discriminate|].
      intros H. specialize (H _ _ M2). lia.
  - intros c H.
    destruct Most as [(M1 & M2 & M3) | (c0 & M1 & M2 & M3 & M4)];
      [congruence|].
    rewrite M1 in H. injection H as <-.
    exists (maxCount final). auto.
  - destruct Least as [(L1 & L2 & L3) | (c0 & m & L1 & L2 & L3 & L4 & L5)].
    + split; [intros _; exact L3 | intros _; exact L1].
    + split; [rewrite L1; discriminate|].
      intros H. specialize (H _ _ L3). lia.
  - intros c H.
    destruct Least as [(L1 & L2 & L3) | (c0 & m & L1 & L2 & L3 & L4 & L5)];
      [congruence|].
    rewrite L1 in H. injection H as <-.
    exists m. auto.
Qed.

Lemma analysis_is_coherent_witness :
  matchedKeywords
    (analyzeContent JSString.asciiLower new
                    (NewsItem.title Examples.gptNews)
                    (NewsItem.description Examples.gptNews)) <> []
  /\ category
       (analyzeContent JSString.asciiLower new
                       (NewsItem.title Examples.weather)
                       (NewsItem.description Examples.weather)) = AI_MODELS.
Proof.
  destruct (analysis_is_coherent JSString.asciiLower new
                                 (NewsItem.title Examples.gptNews)
                                 (NewsItem.description Examples.gptNews))
    as (_ & _ & _ & Listed).
  destruct (analysis_is_coherent JSString.asciiLower new
                                 (NewsItem.title Examples.weather)
                                 (NewsItem.description Examples.weather))
    as (_ & _ & Absent & _).
  split.
  - apply Listed; vm_compute; reflexivity.
  - destruct Absent as (Default & _); [|exact Default].
    apply noKeywordb_noKeyword. vm_compute. reflexivity.
Defined.

Lemma validation_agrees_with_classification_witness :
  isCorrect (validateClassification JSString.asciiLower new
                                    Examples.gptNews AI_MODELS) = true.
Proof.
  destruct (validation_agrees_with_classification
              JSString.asciiLower new Examples.gptNews AI_MODELS)
    as (_ & [_ Correct] & _).
  apply Correct. vm_compute. reflexivity.
Defined.

Lemma zero_threshold_never_falls_back_witness :
  setConfidenceThreshold new (3 # 2) = None
  /\ exists self',
      setConfidenceThreshold new 0 = Some self'
      /\ classifyNews JSString.asciiLower self' Examples.weather = AI_MODELS.
Proof.
  destruct (zero_threshold_never_falls_back
              JSString.asciiLower new (3 # 2) Examples.weather)
    as ([_ Thrown] & _ & self' & Accepted & _ & Default).
  split.
  - apply Thrown. right. vm_compute. reflexivity.
  - exists self'. split; [exact Accepted|].
    apply Default. apply noKeywordb_noKeyword. vm_compute. reflexivity.
Defined.

Lemma report_names_extreme_counts_witness :
  exists n,
    In (AI_IDE, n) [(AI_MODELS, 2); (AI_IDE, 5); (AI_AGENT, 1)]
    /\ 0 < n
    /\ forall c' n',
        In (c', n') [(AI_MODELS, 2); (AI_IDE, 5); (AI_AGENT, 1)] -> n' <= n.
Proof.
  destruct (report_names_extreme_counts
              {| defaultCategory := AI_MODELS;
                 minConfidenceThreshold := 1 # 10;
                 classificationStats :=
                   [(AI_MODELS, 2); (AI_IDE, 5); (AI_AGENT, 1)] |})
    as (_ & _ & _ & Most & _).
  apply (Most AI_IDE). vm_compute. reflexivity.
Defined.

End ClassificationExtras.

(* ================================================================== *)
(** * The collector's retries *)

Module RetryFacts.

Import NewsCollectorService NewsCollectorRetry.

Lemma range_cons (from : Z) (count : nat) :
  range from (S count) = from :: range (from + 1) count.
Proof.
  unfold range. cbn [seq map]. f_equal; [lia|].
  rewrite <- seq_shift, map_map. apply map_ext. intros i. lia.
Qed.

Section Source.

Variable self : t.
Variable source : RSSSource.t.
Variable collectFromSource : Z -> PromiseSettledResult (list NewsItem.t).

(** The loop, entered at [attempt] with the rounds it has left. *)
Lemma attemptFrom_spec (rounds : nat) (attempt : Z)
      (lastError : option jsstring) (delays : list Z) :
  Z.of_nat rounds = Z.max 0 (maxRetries self - attempt + 1) ->
  let done :=
    attemptFrom self source collectFromSource rounds attempt lastError delays in
  attempt - 1 <= calls done <= Z.max (attempt - 1) (maxRetries self)
  /\ (attempt <= maxRetries self -> attempt <= calls done)
  /\ waited done
     = delays ++ map (fun j => retryDelay self * j)
                     (range attempt (Z.to_nat (calls done - attempt)))
  /\ (forall j, attempt <= j < calls done ->
                reason (collectFromSource j) <> None)
  /\ (forall items,
         outcome done = fulfilled items ->
         attempt <= calls done <= maxRetries self
         /\ collectFromSource (calls done) = fulfilled items)
  /\ (forall message,
         outcome done = rejected message ->
         calls done = Z.max (attempt - 1) (maxRetries self)
         /\ (forall j, attempt <= j <= maxRetries self ->
                       reason (collectFromSource j) <> None)
         /\ message
            = failure self source
                      (if attempt <=? maxRetries self
                       then reason (collectFromSource (maxRetries self))
                       else lastError)).
Proof.
  revert attempt lastError delays.
  induction rounds as [|rounds IH]; intros attempt lastError delays Hr;
    cbv zeta.
  - cbn [attemptFrom calls waited outcome].
    assert (Over : maxRetries self < attempt) by lia.
    split; [lia|]. split; [lia|]. split.
    { replace (Z.to_nat (attempt - 1 - attempt)) with 0%nat by lia.
      cbn. now rewrite app_nil_r. }
    split; [intros j Hj; lia|].
    split; [intros items H; discriminate H|].
    intros message H. injection H as <-.
    split; [lia|]. split; [intros j Hj; lia|].
    destruct (Z.leb_spec attempt (maxRetries self)); [lia | reflexivity].
  - cbn [attemptFrom].
    assert (In_range : attempt <= maxRetries self) by lia.
    destruct (Z.leb_spec attempt (maxRetries self)) as [_|F]; [|lia].
    destruct (collectFromSource attempt) as [value|message0] eqn:E.
    + cbn [calls waited outcome].
      split; [lia|]. split; [lia|]. split.
      { replace (Z.to_nat (attempt - attempt)) with 0%nat by lia.
        cbn. now rewrite app_nil_r. }
      split; [intros j Hj; lia|].
      split; [intros items H; injection H as <-; split; [lia | exact E]|].
      intros message H. discriminate H.
    + cbv zeta.
      assert (Hr' : Z.of_nat rounds
                    = Z.max 0 (maxRetries self - (attempt + 1) + 1)) by lia.
      specialize (IH (attempt + 1) (Some message0)
                     (if attempt <? maxRetries self
                      then delays ++ [retryDelay self * attempt]
                      else delays) Hr').
      cbv zeta in IH.
      destruct IH as (C & C' & W & Before & Ful & Rej).
      set (done := attemptFrom self source collectFromSource rounds
                              (attempt + 1) (Some message0) _) in *.
      clearbody done.
      split; [lia|]. split; [lia|]. split.
      { rewrite W. destruct (Z.ltb_spec attempt (maxRetries self)) as [L|L].
        - specialize (C' ltac:(lia)).
          replace (Z.to_nat (calls done - attempt))
            with (S (Z.to_nat (calls done - (attempt + 1)))) by lia.
          rewrite range_cons, <- app_assoc. reflexivity.
        - replace (Z.to_nat (calls done - (attempt + 1))) with 0%nat by lia.
          replace (Z.to_nat (calls done - attempt)) with 0%nat by lia.
          reflexivity. }
      split.
      { intros j Hj. destruct (Z.eq_dec j attempt) as [->|N].
        - rewrite E. discriminate.
        - apply Before. lia. }
      split.
      { intros items H. destruct (Ful items H) as [F1 F2].
        split; [lia | exact F2]. }
      intros message H. destruct (Rej message H) as (R1 & R2 & R3).
      split; [lia|]. split.
      { intros j Hj. destruct (Z.eq_dec j attempt) as [->|N].
        - rewrite E. discriminate.
        - apply R2. lia. }
      rewrite R3.
      destruct (Z.leb_spec (attempt + 1) (maxRetries self)) as [L|L];
        [reflexivity|].
      replace (maxRetries self) with attempt by lia.
      rewrite E. reflexivity.
Qed.

End Source.

End RetryFacts.

Module RetryTheorems.

Import NewsCollectorService NewsCollectorRetry RetryFacts.

(** X15. [collectFromSourceWithRetry] calls [collectFromSource] for the
    attempts 1, 2, ... and stops at the first one that is fulfilled, with
    its items; it makes no more than [maxRetries] calls. After the failed
    attempt [j] it waits [retryDelay * j], except after its last call. It
    rejects only when [maxRetries] attempts have failed, or when
    [maxRetries] is below one, in which case it calls nothing; its message
    ends with the message of the last failure ([undefined] when it
    called nothing). *)
Theorem retry_stops_at_first_success
        (self : t) (source : RSSSource.t)
        (collectFromSource : Z -> PromiseSettledResult (list NewsItem.t)) :
  let done := collectFromSourceWithRetry self source collectFromSource in
  0 <= calls done <= Z.max 0 (maxRetries self)
  /\ waited done
     = map (fun j => retryDelay self * j)
           (range 1 (Z.to_nat (calls done - 1)))
  /\ (forall j, 1 <= j < calls done -> reason (collectFromSource j) <> None)
  /\ (forall items,
         outcome done = fulfilled items ->
         1 <= calls done
         /\ collectFromSource (calls done) = fulfilled items)
  /\ (forall message,
         outcome done = rejected message ->
         calls done = Z.max 0 (maxRetries self)
         /\ (forall j, 1 <= j <= maxRetries self ->
                       reason (collectFromSource j) <> None)
         /\ message
            = failure self source
                      (if 1 <=? maxRetries self
                       then reason (collectFromSource (maxRetries self))
                       else None))
  /\ (forall k items,
         1 <= k <= maxRetries self ->
         collectFromSource k = fulfilled items ->
         (forall j, 1 <= j < k -> reason (collectFromSource j) <> None) ->
         outcome done = fulfilled items /\ calls done = k).
Proof.
  cbv zeta. unfold collectFromSourceWithRetry.
  assert (Hr : Z.of_nat (Z.to_nat (maxRetries self))
               = Z.max 0 (maxRetries self - 1 + 1)) by lia.
  pose proof (attemptFrom_spec self source collectFromSource
                               (Z.to_nat (maxRetries self)) 1 None [] Hr)
    as Spec.
  cbv zeta in Spec.
  set (done := attemptFrom self source collectFromSource
                          (Z.to_nat (maxRetries self)) 1 None []) in *.
  clearbody done.
  destruct Spec as (C & C' & W & Before & Ful & Rej).
  change (1 - 1) with 0 in *.
  split; [exact C|]. split; [exact W|]. split; [exact Before|].
  split; [intros items H; destruct (Ful items H); split; [lia | assumption]|].
  split; [exact Rej|].
  intros k items Hk Ek Failed.
  destruct (outcome done) as [value|message] eqn:O.
  - destruct (Ful value eq_refl) as [F1 F2].
    assert (calls done = k).
    { destruct (Z.lt_trichotomy (calls done) k) as [L|[L|L]]; [|exact L|].
      - exfalso. apply (Failed (calls done)); [lia|]. now rewrite F2.
      - exfalso. apply (Before k); [lia|]. now rewrite Ek. }
    subst k. split; [|reflexivity]. congruence.
  - destruct (Rej message eq_refl) as (_ & R2 & _).
    exfalso. apply (R2 k Hk). now rewrite Ek.
Qed.

Lemma retry_stops_at_first_success_witness :
  outcome (collectFromSourceWithRetry
             new (RSSSource.mk (js "AINOW") (js "https://ainow.ai/feed/")
                               AI_MODELS) thirdTime) = fulfilled []
  /\ calls (collectFromSourceWithRetry
              new (RSSSource.mk (js "AINOW") (js "https://ainow.ai/feed/")
                                AI_MODELS) thirdTime) = 3.
Proof.
  destruct (retry_stops_at_first_success
              new (RSSSource.mk (js "AINOW") (js "https://ainow.ai/feed/")
                                AI_MODELS) thirdTime)
    as (_ & _ & _ & _ & _ & First).
  apply (First 3 []).
  - vm_compute. split; discriminate.
  - reflexivity.
  - intros j Hj. assert (J : j = 1 \/ j = 2) by lia.
    destruct J as [-> | ->]; vm_compute; discriminate.
Defined.

End RetryTheorems.

(* ================================================================== *)
(** * The scheduler's statistics *)

Module SchedulerRunFacts.

Import NewsCollectorService SchedulerService SchedulerRuns.

Lemma completeCollection_books (self : t) (startTime endTime : Z)
      (ok : bool) (count : Z) (message : option jsstring) :
  let self' :=
    snd (completeCollection self startTime endTime ok count message) in
  isRunning self' = false
  /\ totalRuns (stats self') = totalRuns (stats self)
  /\ successfulRuns (stats self')
     = successfulRuns (stats self) + (if ok then 1 else 0)
  /\ failedRuns (stats self')
     = failedRuns (stats self) + (if ok then 0 else 1)
  /\ totalItemsCollected (stats self') = totalItemsCollected (stats self)
  /\ lastRun (stats self') = Some endTime
  /\ lastRunDuration (stats self') = endTime - startTime
  /\ stats_isRunning (stats self') = false
  /\ runDurations self'
     = (if maxDurationHistory
           <? Z.of_nat (length (runDurations self ++ [endTime - startTime]))
        then tl (runDurations self ++ [endTime - startTime])
        else runDurations self ++ [endTime - startTime])
  /\ averageRunDuration (stats self')
     = (inject_Z (sum (runDurations self'))
        / inject_Z (Z.of_nat (length (runDurations self'))))%Q
  /\ classifier self' = classifier self
  /\ storage self' = storage self.
Proof.
  cbv zeta. unfold completeCollection.
  cbn [snd isRunning stats runDurations classifier storage totalRuns
           successfulRuns failedRuns totalItemsCollected lastRun
           lastRunDuration stats_isRunning averageRunDuration].
  destruct ok;
    repeat (split; [first [reflexivity | lia]|]); reflexivity.
Qed.

Section Service.

Context {host : JSDate.Host}.
Variable toLowerCase : jsstring -> jsstring.
Variable maxItems : Z.
Variable maxAgeInDays : Z.

Local Abbreviation resumeCollection :=
  (SchedulerService.resumeCollection toLowerCase maxItems maxAgeInDays).
Local Abbreviation step := (SchedulerRuns.step toLowerCase maxItems maxAgeInDays).
Local Abbreviation run := (SchedulerRuns.run toLowerCase maxItems maxAgeInDays).

(** The books after a run, whatever was collected. *)
Lemma resumeCollection_books
      (self : t) (startTime : Z)
      (collected : PromiseSettledResult (list NewsItem.t))
      (clock : nat -> Z) (endTime : Z) :
  let finished := resumeCollection self startTime collected clock endTime in
  let result := fst finished in
  let self' := snd finished in
  success result
  = match collected with fulfilled _ => true | rejected _ => false end
  /\ error result = NewsCollectorRetry.reason collected
  /\ duration result = endTime - startTime
  /\ isRunning self' = false
  /\ totalRuns (stats self') = totalRuns (stats self)
  /\ successfulRuns (stats self')
     = successfulRuns (stats self) + (if success result then 1 else 0)
  /\ failedRuns (stats self')
     = failedRuns (stats self) + (if success result then 0 else 1)
  /\ totalItemsCollected (stats self')
     = totalItemsCollected (stats self) + itemsCollected result
  /\ lastRun (stats self') = Some endTime
  /\ lastRunDuration (stats self') = endTime - startTime
  /\ stats_isRunning (stats self') = false
  /\ runDurations self'
     = (if maxDurationHistory
           <? Z.of_nat (length (runDurations self ++ [endTime - startTime]))
        then tl (runDurations self ++ [endTime - startTime])
        else runDurations self ++ [endTime - startTime])
  /\ averageRunDuration (stats self')
     = (inject_Z (sum (runDurations self'))
        / inject_Z (Z.of_nat (length (runDurations self'))))%Q.
Proof.
  cbv zeta. unfold SchedulerService.resumeCollection.
  destruct collected as [[|item rest]|message].
  - pose proof (completeCollection_books self startTime endTime true 0 None)
      as B.
    cbv zeta in B.
    destruct B as (B1 & B2 & B3 & B4 & B5 & B6 & B7 & B8 & B9 & B10 & _).
    assert (R : fst (completeCollection self startTime endTime true 0 None)
                = Build_RunResult true 0 (endTime - startTime) None)
      by reflexivity.
    rewrite R. cbn [success error duration itemsCollected
                            NewsCollectorRetry.reason].
    repeat (split; [first [reflexivity | assumption | lia]|]). exact B10.
  - destruct (ClassificationService.classifyNewsBatch _ _ _)
      as [classified classifier'].
    destruct (StorageService.saveNewsItems _ _ _ _) as [saved storage'].
    set (self1 := addCollected _ saved).
    pose proof (completeCollection_books self1 startTime endTime true saved None)
      as B.
    cbv zeta in B.
    destruct B as (B1 & B2 & B3 & B4 & B5 & B6 & B7 & B8 & B9 & B10 & _).
    assert (R : fst (completeCollection self1 startTime endTime true saved None)
                = Build_RunResult true saved (endTime - startTime) None)
      by reflexivity.
    rewrite R. cbn [success error duration itemsCollected
                            NewsCollectorRetry.reason].
    unfold self1, addCollected in B2, B3, B4, B5, B9.
    cbn [stats totalRuns successfulRuns failedRuns totalItemsCollected
               runDurations] in B2, B3, B4, B5, B9.
    repeat (split; [first [reflexivity | assumption | lia]|]). exact B10.
  - pose proof (completeCollection_books self startTime endTime false 0
                                         (Some message)) as B.
    cbv zeta in B.
    destruct B as (B1 & B2 & B3 & B4 & B5 & B6 & B7 & B8 & B9 & B10 & _).
    assert (R : fst (completeCollection self startTime endTime false 0
                                        (Some message))
                = Build_RunResult false 0 (endTime - startTime) (Some message))
      by reflexivity.
    rewrite R. cbn [success error duration itemsCollected
                            NewsCollectorRetry.reason].
    repeat (split; [first [reflexivity | assumption | lia]|]). exact B10.
Qed.

(** Where the services stand after a run. *)
Lemma resumeCollection_services
      (self : t) (startTime : Z)
      (collected : PromiseSettledResult (list NewsItem.t))
      (clock : nat -> Z) (endTime : Z) :
  let finished := resumeCollection self startTime collected clock endTime in
  match collected with
  | rejected _ | fulfilled [] =>
    classifier (snd finished) = classifier self
    /\ storage (snd finished) = storage self
    /\ itemsCollected (fst finished) = 0
  | fulfilled collectedNews =>
    let classified :=
      ClassificationService.classifyNewsBatch
        toLowerCase (classifier self) collectedNews in
    let saved :=
      StorageService.saveNewsItems
        maxItems maxAgeInDays (storage self)
        (List.combine (map clock (seq 0 (length (fst classified))))
                      (fst classified)) in
    classifier (snd finished) = snd classified
    /\ storage (snd finished) = snd saved
    /\ itemsCollected (fst finished) = fst saved
  end.
Proof.
  cbv zeta. unfold SchedulerService.resumeCollection.
  destruct collected as [[|item rest]|message].
  - repeat split.
  - destruct (ClassificationService.classifyNewsBatch _ _ _)
      as [classified classifier'].
    cbn [fst snd].
    destruct (StorageService.saveNewsItems _ _ _ _) as [saved storage'].
    repeat split.
  - repeat split.
Qed.

Lemma boot_consistent (classifier : ClassificationService.t)
      (storage : StorageService.Store) :
  consistent (boot classifier storage).
Proof.
  unfold consistent, boot, finishedRuns, inFlight, new, initialStats.
  cbv zeta.
  cbn [service pending isRunning stats runDurations totalRuns successfulRuns
               failedRuns stats_isRunning averageRunDuration lastRun length].
  split; [split; [discriminate | intros H; now contradiction H]|].
  split; [reflexivity|]. split; [reflexivity|].
  split; [lia|]. split; [lia|]. split; [lia|].
  split; [intros H; now contradiction H | lia].
Qed.

Lemma pushed_length (durations : list Z) (duration : Z) :
  let pushed := durations ++ [duration] in
  Z.of_nat (length durations) <= maxDurationHistory ->
  Z.of_nat (length (if maxDurationHistory <? Z.of_nat (length pushed)
                    then tl pushed else pushed))
  = Z.min maxDurationHistory (Z.of_nat (length durations) + 1)
  /\ (if maxDurationHistory <? Z.of_nat (length pushed)
      then tl pushed else pushed) <> [].
Proof.
  cbv zeta. unfold maxDurationHistory. intros Room.
  destruct durations as [|d rest].
  - cbn. split; [reflexivity | discriminate].
  - cbn [app tl]. rewrite !length_cons, !length_app in *. cbn [length] in *.
    destruct (Z.ltb_spec 10 (Z.of_nat (S (length rest + 1)))) as [L|L].
    + rewrite length_app. cbn [length]. split; [lia|].
      intros H. apply (f_equal (@length Z)) in H.
      rewrite length_app in H. cbn in H. lia.
    + cbn [length]. rewrite length_app. cbn [length].
      split; [lia | discriminate].
Qed.

Lemma step_consistent (world : World) (event : Event) :
  consistent world -> consistent (step world event).
Proof.
  intros (I1 & I2 & I3 & I4 & I5 & I6 & I7 & I8). cbv zeta in *.
  destruct event as [now | collected clock endTime |].
  - (* a trigger *)
    unfold SchedulerRuns.step, executeCollection.
    destruct (isRunning (service world)) eqn:R.
    + unfold consistent. cbn [service pending]. rewrite R.
      repeat (split; [assumption|]). assumption.
    + unfold consistent, finishedRuns, inFlight in *. cbv zeta.
      cbn [service pending isRunning stats runDurations totalRuns
                   successfulRuns failedRuns stats_isRunning
                   averageRunDuration lastRun].
      rewrite R in I6.
      split; [split; [discriminate | reflexivity]|].
      split; [exact I2|]. split; [exact I3|]. split; [exact I4|].
      split; [exact I5|]. split; [lia|]. split; [exact I7 | exact I8].
  - (* the collection settles *)
    unfold SchedulerRuns.step. destruct (pending world) as [startTime|] eqn:P.
    + assert (R : isRunning (service world) = true)
        by (apply I1; discriminate).
      pose proof (resumeCollection_books (service world) startTime collected
                                         clock endTime) as B.
      cbv zeta in B.
      destruct B as (_ & _ & _ & B1 & B2 & B3 & B4 & _ & B6 & _ & B8 & B9 & B10).
      unfold consistent, finishedRuns, inFlight in *. cbv zeta.
      cbn [service pending].
      set (finished := resumeCollection (service world) startTime collected
                                        clock endTime) in *.
      clearbody finished.
      rewrite R in I6. rewrite B1, B2, B3, B4, B8, B6.
      assert (Room : Z.of_nat (length (runDurations (service world)))
                     <= maxDurationHistory) by lia.
      destruct (pushed_length (runDurations (service world))
                              (endTime - startTime) Room) as [Len Some_].
      rewrite <- B9 in Len, Some_.
      split; [split; [discriminate | intros H; now contradiction H]|].
      split.
      { rewrite Len, I2. unfold maxDurationHistory.
        destruct (success (fst finished)); lia. }
      split; [reflexivity|].
      split; [destruct (success (fst finished)); lia|].
      split; [destruct (success (fst finished)); lia|].
      split; [destruct (success (fst finished)); lia|].
      split; [intros _; exact B10 | intros _; discriminate].
    + unfold consistent. cbv zeta. rewrite P.
      repeat (split; [assumption|]). assumption.
  - (* a reset *)
    unfold SchedulerRuns.step, resetStats, initialStats.
    unfold consistent, finishedRuns, inFlight in *. cbv zeta.
    cbn [service pending isRunning stats runDurations totalRuns
                 successfulRuns failedRuns stats_isRunning
                 averageRunDuration lastRun length].
    split; [exact I1|]. split; [reflexivity|]. split; [reflexivity|].
    split; [lia|]. split; [lia|].
    split; [destruct (isRunning (service world)); lia|].
    split; [intros H; now contradiction H | lia].
Qed.

Lemma run_consistent (events : list Event) (world : World) :
  consistent world -> consistent (run events world).
Proof.
  revert world. induction events as [|event rest IH]; intros world H.
  - exact H.
  - unfold SchedulerRuns.run. cbn [fold_left]. apply IH.
    now apply step_consistent.
Qed.

(** Without a reset the runs add up. *)
Lemma step_adds_up (world : World) (event : Event) :
  isReset event = false ->
  consistent world ->
  totalRuns (stats (service world))
  = finishedRuns (service world) + inFlight (service world) ->
  totalRuns (stats (service (step world event)))
  = finishedRuns (service (step world event))
    + inFlight (service (step world event)).
Proof.
  intros NoReset (I1 & _) Sum. cbv zeta in I1.
  destruct event as [now | collected clock endTime |]; [| |discriminate].
  - unfold SchedulerRuns.step, executeCollection.
    destruct (isRunning (service world)) eqn:R.
    + cbn [service]. exact Sum.
    + unfold finishedRuns, inFlight in *.
      cbn [service isRunning stats totalRuns successfulRuns failedRuns].
      rewrite R in Sum. lia.
  - unfold SchedulerRuns.step. destruct (pending world) as [startTime|] eqn:P;
      [|exact Sum].
    assert (R : isRunning (service world) = true)
      by (apply I1; discriminate).
    pose proof (resumeCollection_books (service world) startTime collected
                                       clock endTime) as B.
    cbv zeta in B.
    destruct B as (_ & _ & _ & B1 & B2 & B3 & B4 & _).
    unfold finishedRuns, inFlight in *. cbn [service].
    rewrite R in Sum. rewrite B1, B2, B3, B4.
    destruct (success _); lia.
Qed.

Lemma run_adds_up (events : list Event) (world : World) :
  forallb (fun event => negb (isReset event)) events = true ->
  consistent world ->
  totalRuns (stats (service world))
  = finishedRuns (service world) + inFlight (service world) ->
  totalRuns (stats (service (run events world)))
  = finishedRuns (service (run events world))
    + inFlight (service (run events world)).
Proof.
  revert world. induction events as [|event rest IH]; intros world N C Sum.
  - exact Sum.
  - cbn [forallb] in N. apply andb_prop in N. destruct N as [N1 N2].
    apply negb_true_iff in N1.
    unfold SchedulerRuns.run. cbn [fold_left]. apply IH.
    + exact N2.
    + now apply step_consistent.
    + now apply step_adds_up.
Qed.

End Service.

End SchedulerRunFacts.

Module SchedulerExtras.

Import NewsCollectorService SchedulerService SchedulerRuns SchedulerRunFacts.

Section Service.

Context {host : JSDate.Host}.
Variable toLowerCase : jsstring -> jsstring.
Variable maxItems : Z.
Variable maxAgeInDays : Z.

Local Abbreviation executeCollection := SchedulerService.executeCollection.
Local Abbreviation resumeCollection :=
  (SchedulerService.resumeCollection toLowerCase maxItems maxAgeInDays).
Local Abbreviation run := (SchedulerRuns.run toLowerCase maxItems maxAgeInDays).

(** X16. Whatever triggers, settlings and resets a new scheduler goes
    through: it is running exactly while a collection is in flight; it
    keeps the durations of its last ten finished runs at most, and
    [averageRunDuration] is their mean; the [isRunning] inside its
    statistics is never set, [getStats] fills in the flag of the service;
    once a run has finished there is a [lastRun]. The successful and the
    failed runs and the run in flight add up to [totalRuns] as long as
    [resetStats] was not called; a reset while a collection is in flight
    leaves, when the collection settles, one finished run and a
    [totalRuns] of zero. *)
Theorem scheduler_keeps_its_books
        (classifier0 : ClassificationService.t) (storage0 : StorageService.Store)
        (events : list Event) :
  let world := run events (boot classifier0 storage0) in
  let self := service world in
  (isRunning self = true <-> pending world <> None)
  /\ Z.of_nat (length (runDurations self))
     = Z.min 10 (successfulRuns (stats self) + failedRuns (stats self))
  /\ (runDurations self <> [] ->
      averageRunDuration (stats self)
      = (inject_Z (sum (runDurations self))
         / inject_Z (Z.of_nat (length (runDurations self))))%Q)
  /\ stats_isRunning (stats self) = false
  /\ stats_isRunning (getStats self) = isRunning self
  /\ (0 < successfulRuns (stats self) + failedRuns (stats self) ->
      lastRun (stats self) <> None)
  /\ totalRuns (stats self)
     <= successfulRuns (stats self) + failedRuns (stats self) + inFlight self
     <= totalRuns (stats self) + 1
  /\ (forallb (fun event => negb (isReset event)) events = true ->
      totalRuns (stats self)
      = successfulRuns (stats self) + failedRuns (stats self) + inFlight self)
  /\ (pending world = None ->
      forall now collected clock endTime,
        let after :=
          service (run [trigger now; reset; settle collected clock endTime]
                       world) in
        totalRuns (stats after) = 0
        /\ successfulRuns (stats after) + failedRuns (stats after) = 1).
Proof.
  cbv zeta.
  pose proof (run_consistent toLowerCase maxItems maxAgeInDays events _
                             (boot_consistent classifier0 storage0)) as C.
  pose proof (fun N =>
                run_adds_up toLowerCase maxItems maxAgeInDays events
                            (boot classifier0 storage0) N
                            (boot_consistent classifier0 storage0) eq_refl)
    as Sum.
  set (world := run events (boot classifier0 storage0)) in *.
  clearbody world.
  destruct C as (I1 & I2 & I3 & I4 & I5 & I6 & I7 & I8). cbv zeta in *.
  unfold finishedRuns in *.
  split; [exact I1|]. split; [exact I2|]. split; [exact I7|].
  split; [exact I3|]. split; [reflexivity|]. split; [exact I8|].
  split; [exact I6|]. split; [exact Sum|].
  intros P now collected clock endTime.
  assert (R : isRunning (service world) = false).
  { destruct (isRunning (service world)); [|reflexivity].
    exfalso. now apply I1. }
  assert (T : SchedulerRuns.step toLowerCase maxItems maxAgeInDays world
                                 (trigger now)
              = {| service := snd (executeCollection now (service world));
                   pending := Some now |})
    by (unfold SchedulerRuns.step, SchedulerService.executeCollection;
        rewrite R; reflexivity).
  unfold SchedulerRuns.run. cbn [fold_left]. rewrite T.
  set (running := snd (executeCollection now (service world))).
  unfold SchedulerRuns.step. cbn [service pending].
  pose proof (resumeCollection_books
                toLowerCase maxItems maxAgeInDays (resetStats running)
                now collected clock endTime) as B.
  cbv zeta in B.
  destruct B as (_ & _ & _ & _ & B2 & B3 & B4 & _).
  rewrite B2, B3, B4.
  unfold resetStats, initialStats.
  cbn [stats totalRuns successfulRuns failedRuns].
  split; [reflexivity|]. destruct (success _); reflexivity.
Qed.

(** X17. A collection run that resumes with what the collector returned
    ends with the service idle, so that the next trigger is accepted, and
    reports the time it took. If the collector rejected, the run fails
    with the collector's message and no item, the store and the
    classifier are as before, and one more failed run is counted. If it
    returned items, the run succeeds without an error; the number of
    items it reports lies between zero and the number collected, the
    store grows by that number at most, [totalItemsCollected] by exactly
    that number, and the classifier has counted every collected item. *)
Theorem collection_run_outcomes
        (self : t) (startTime : Z)
        (collected : PromiseSettledResult (list NewsItem.t))
        (clock : nat -> Z) (endTime : Z) :
  let finished := resumeCollection self startTime collected clock endTime in
  let result := fst finished in
  let self' := snd finished in
  duration result = endTime - startTime
  /\ isRunning self' = false
  /\ lastRun (stats self') = Some endTime
  /\ totalRuns (stats self') = totalRuns (stats self)
  /\ (forall now, fst (executeCollection now self') = awaiting now)
  /\ (forall message,
         collected = rejected message ->
         success result = false
         /\ error result = Some message
         /\ itemsCollected result = 0
         /\ storage self' = storage self
         /\ classifier self' = classifier self
         /\ failedRuns (stats self') = failedRuns (stats self) + 1
         /\ successfulRuns (stats self') = successfulRuns (stats self)
         /\ totalItemsCollected (stats self')
            = totalItemsCollected (stats self))
  /\ (forall items,
         collected = fulfilled items ->
         success result = true
         /\ error result = None
         /\ 0 <= itemsCollected result <= Z.of_nat (length items)
         /\ StorageService.getItemCount (storage self')
            <= StorageService.getItemCount (storage self)
               + itemsCollected result
         /\ totalItemsCollected (stats self')
            = totalItemsCollected (stats self) + itemsCollected result
         /\ Counters.total
              (ClassificationService.classificationStats (classifier self'))
            = Counters.total
                (ClassificationService.classificationStats (classifier self))
              + Z.of_nat (length items)
         /\ successfulRuns (stats self') = successfulRuns (stats self) + 1
         /\ failedRuns (stats self') = failedRuns (stats self)).
Proof.
  cbv zeta.
  pose proof (resumeCollection_books toLowerCase maxItems maxAgeInDays
                                     self startTime collected clock endTime)
    as B.
  pose proof (resumeCollection_services toLowerCase maxItems maxAgeInDays
                                        self startTime collected clock endTime)
    as S.
  cbv zeta in B, S.
  set (finished := resumeCollection self startTime collected clock endTime)
    in *.
  clearbody finished.
  destruct B as (B1 & B2 & B3 & B4 & B5 & B6 & B7 & B8 & B9 & _).
  split; [exact B3|]. split; [exact B4|]. split; [exact B9|].
  split; [exact B5|]. split.
  { intros now. unfold SchedulerService.executeCollection.
    rewrite B4. reflexivity. }
  split.
  - intros message ->. destruct S as (S1 & S2 & S3).
    cbn [NewsCollectorRetry.reason] in B2.
    rewrite B1 in B6, B7. rewrite S3 in B8.
    split; [exact B1|]. split; [exact B2|]. split; [exact S3|].
    split; [exact S2|]. split; [exact S1|].
    split; [exact B7|]. split; [lia | lia].
  - intros items ->. cbn [NewsCollectorRetry.reason] in B2.
    rewrite B1 in B6, B7.
    split; [exact B1|]. split; [exact B2|].
    assert (Services :
              0 <= itemsCollected (fst finished) <= Z.of_nat (length items)
              /\ StorageService.getItemCount (storage (snd finished))
                 <= StorageService.getItemCount (storage self)
                    + itemsCollected (fst finished)
              /\ Counters.total
                   (ClassificationService.classificationStats
                      (classifier (snd finished)))
                 = Counters.total
                     (ClassificationService.classificationStats
                        (classifier self))
                   + Z.of_nat (length items)).
    { destruct items as [|item rest].
      - destruct S as (-> & -> & ->). cbn [length]. lia.
      - destruct S as (-> & -> & ->).
        destruct (ClassificationExtraFacts.classifyNewsBatch_fields
                    toLowerCase (classifier self) (item :: rest))
          as (Items & _ & _ & Stats).
        set (classified := ClassificationService.classifyNewsBatch
                             toLowerCase (classifier self) (item :: rest)) in *.
        clearbody classified.
        assert (Len : length (fst classified) = length (item :: rest))
          by (rewrite Items; apply length_map).
        assert (BatchLen :
                  length (List.combine
                            (map clock (seq 0 (length (fst classified))))
                            (fst classified))
                  = length (item :: rest))
          by (rewrite length_combine, length_map, length_seq, Nat.min_id;
              exact Len).
        set (batch := List.combine _ (fst classified)) in *.
        clearbody batch.
        destruct (StorageExtraFacts.saveNewsItems_count
                    maxItems maxAgeInDays (storage self) batch) as (C1 & C2).
        rewrite BatchLen in C1.
        split; [exact C1|]. split; [exact C2|].
        rewrite Stats.
        destruct (CountersFacts.count_by_key
                    AICategories.eqb AICategoryFacts.category_eqb_eq
                    (fun item0 =>
                       ClassificationService.classifyNews
                         toLowerCase (classifier self) item0)
                    (item :: rest)
                    (ClassificationService.classificationStats (classifier self))
                    AI_MODELS) as (_ & Total & _).
        cbv zeta in Total. exact Total. }
    destruct Services as (V1 & V2 & V3).
    split; [exact V1|]. split; [exact V2|]. split; [exact B8|].
    split; [exact V3|]. split; [exact B6 | lia].
Qed.

(** X18. [getCollectionHistory] after a run: [uptime] is the time since
    that run ended, and [lastSuccessfulRun] is the end of that run as
    soon as any run has succeeded, also when that run itself failed; it
    is [null] when no run has succeeded yet. *)
Theorem last_successful_run_is_the_last_run
        (self : t) (startTime : Z)
        (collected : PromiseSettledResult (list NewsItem.t))
        (clock : nat -> Z) (endTime now : Z) :
  let self' :=
    snd (resumeCollection self startTime collected clock endTime) in
  let history := getCollectionHistory now self' in
  0 <= successfulRuns (stats self) ->
  uptime history = now - endTime
  /\ failedCollections history + successfulCollections history
     = failedRuns (stats self) + successfulRuns (stats self) + 1
  /\ (0 < successfulRuns (stats self) ->
      lastSuccessfulRun history = Some endTime)
  /\ (forall items,
         collected = fulfilled items ->
         lastSuccessfulRun history = Some endTime)
  /\ (forall message,
         collected = rejected message ->
         successfulRuns (stats self) = 0 ->
         lastSuccessfulRun history = None).
Proof.
  cbv zeta. intros NonNeg.
  pose proof (resumeCollection_books toLowerCase maxItems maxAgeInDays
                                     self startTime collected clock endTime)
    as B.
  cbv zeta in B.
  set (finished := resumeCollection self startTime collected clock endTime)
    in *.
  clearbody finished.
  destruct B as (B1 & _ & _ & _ & _ & B6 & B7 & _ & B9 & _).
  unfold getCollectionHistory. cbv zeta.
  cbn [uptime failedCollections successfulCollections lastSuccessfulRun].
  rewrite B9, B6, B7.
  split; [reflexivity|].
  split; [destruct (success (fst finished)); lia|].
  split.
  { intros Positive.
    destruct (Z.ltb_spec
                0 (successfulRuns (stats self)
                   + (if success (fst finished) then 1 else 0))) as [L|L];
      [reflexivity|].
    destruct (success (fst finished)); lia. }
  split.
  - intros items ->. rewrite B1.
    destruct (Z.ltb_spec 0 (successfulRuns (stats self) + 1)) as [L|L];
      [reflexivity | lia].
  - intros message -> Zero. rewrite B1, Zero. reflexivity.
Qed.

End Service.

(** The examples run on a host in the zone UTC. *)
#[local] Existing Instance JSDate.utc.

Lemma scheduler_keeps_its_books_witness :
  let self :=
    service
      (SchedulerRuns.run
         JSString.asciiLower 1000 7
         [trigger 0; trigger 1;
          settle (rejected (js "timeout")) (fun _ => 5) 5; trigger 10]
         (boot ClassificationService.new [])) in
  totalRuns (stats self)
  = successfulRuns (stats self) + failedRuns (stats self) + inFlight self.
Proof.
  cbv zeta.
  destruct (scheduler_keeps_its_books
              JSString.asciiLower 1000 7 ClassificationService.new []
              [trigger 0; trigger 1;
               settle (rejected (js "timeout")) (fun _ => 5) 5; trigger 10])
    as (_ & _ & _ & _ & _ & _ & _ & Sum & _).
  apply Sum. reflexivity.
Defined.

Lemma collection_run_outcomes_witness :
  error (fst (SchedulerService.resumeCollection
                JSString.asciiLower 1000 7 Examples.runningScheduler
                Examples.now (rejected (js "timeout")) (fun _ => Examples.now)
                (Examples.now + 5)))
  = Some (js "timeout").
Proof.
  destruct (collection_run_outcomes
              JSString.asciiLower 1000 7 Examples.runningScheduler
              Examples.now (rejected (js "timeout")) (fun _ => Examples.now)
              (Examples.now + 5))
    as (_ & _ & _ & _ & _ & Failed & _).
  destruct (Failed (js "timeout") eq_refl) as (_ & Message & _).
  exact Message.
Defined.

Lemma last_successful_run_is_the_last_run_witness :
  lastSuccessfulRun
    (getCollectionHistory
       (Examples.now + 9)
       (snd (SchedulerService.resumeCollection
               JSString.asciiLower 1000 7 Examples.runningScheduler
               Examples.now (fulfilled []) (fun _ => Examples.now)
               (Examples.now + 5))))
  = Some (Examples.now + 5).
Proof.
  destruct (last_successful_run_is_the_last_run
              JSString.asciiLower 1000 7 Examples.runningScheduler
              Examples.now (fulfilled []) (fun _ => Examples.now)
              (Examples.now + 5) (Examples.now + 9))
    as (_ & _ & _ & Succeeded & _).
  - vm_compute. discriminate.
  - exact (Succeeded [] eq_refl).
Defined.

End SchedulerExtras.
